(** * mumpce_py: Cantera chemistry models and the laminar flame speed model

    A shallow embedding of [cantera_utils/cantera_chemistry_model.py]
    (class [CanteraChemistryModel]) and [mumpce/cantera_utils/flame_speed.py]
    (class [FlameSpeed]), with the properties of the parameter catalog, the
    parameter accessors, the chemistry life cycle, the finite-difference and
    adjoint sensitivity routines and the staged flame solve.

    Python floats are binary64 numbers: they are modelled by the kernel's
    primitive floats.  Methods are state transformers over the attributes
    of the model object; a raised exception leaves the attributes as they
    were when it was raised.  Cantera itself is an external collaborator:
    every call made on it is appended to a history, and an oracle decides,
    from the history, whether a call raises and what the flame speed is. *)

From Stdlib Require Import Floats ZArith String List Bool Lia.
From stdpp Require Import base list strings.
Import ListNotations.

Set Warnings "-inexact-float".
Open Scope string_scope.
Open Scope Z_scope.

(** ** Python preliminaries *)

Inductive exn : Set :=
| IndexError
| AttributeError
| UnboundLocalError
| ZeroDivisionError
| TypeError
| CanteraError.

Inductive result (A : Type) : Type :=
| Ok (a : A)
| Raise (e : exn).
Arguments Ok {A} a.
Arguments Raise {A} e.

Definition is_Ok {A} (r : result A) : bool :=
  match r with Ok _ => true | Raise _ => false end.

(** [sub in s] on strings. *)
Fixpoint py_in (sub s : string) : bool :=
  String.prefix sub s ||
  match s with
  | EmptyString => false
  | String _ s' => py_in sub s'
  end.

(** [l[i]] on a list: a negative index counts from the end, an index out of
    range raises IndexError. *)
Definition py_getitem {A} (l : list A) (i : Z) : result A :=
  let n := Z.of_nat (length l) in
  let j := if i <? 0 then i + n else i in
  if (j <? 0) || (n <=? j) then Raise IndexError
  else match l !! Z.to_nat j with
       | Some x => Ok x
       | None => Raise IndexError
       end.

(** [x / y] on floats: a zero divisor raises ZeroDivisionError. *)
Definition py_truediv (x y : float) : result float :=
  if (y =? 0)%float then Raise ZeroDivisionError else Ok (x / y)%float.

(** [str(b)] for a bool, as [print] shows it. *)
Definition py_str_bool (b : bool) : string := if b then "True" else "False".

(** ** Cantera objects, as far as the two classes read and write them *)

(** [ct.Arrhenius(A, b, E)] *)
Record Arrhenius : Set := ct_Arrhenius {
  pre_exponential_factor : float;
  temperature_exponent : float;
  activation_energy : float
}.

(** A reaction object.  [efficiencies] is a dict from species names to
    efficiencies, kept as an association list in iteration order (its keys
    are distinct); [efficiency] is Cantera's lookup with a default. *)
Record Reaction : Set := {
  reaction_type : Z;
  equation : string;
  rate : Arrhenius;
  high_rate : Arrhenius;
  low_rate : Arrhenius;
  efficiencies : list (string * float);
  default_efficiency : float
}.

Definition set_rate (k : Arrhenius) (r : Reaction) : Reaction :=
  {| reaction_type := reaction_type r; equation := equation r;
     rate := k; high_rate := high_rate r; low_rate := low_rate r;
     efficiencies := efficiencies r;
     default_efficiency := default_efficiency r |}.

Definition set_high_rate (k : Arrhenius) (r : Reaction) : Reaction :=
  {| reaction_type := reaction_type r; equation := equation r;
     rate := rate r; high_rate := k; low_rate := low_rate r;
     efficiencies := efficiencies r;
     default_efficiency := default_efficiency r |}.

Definition set_low_rate (k : Arrhenius) (r : Reaction) : Reaction :=
  {| reaction_type := reaction_type r; equation := equation r;
     rate := rate r; high_rate := high_rate r; low_rate := k;
     efficiencies := efficiencies r;
     default_efficiency := default_efficiency r |}.

Fixpoint assoc (k : string) (d : list (string * float)) : option float :=
  match d with
  | [] => None
  | (k', v) :: d' => if (k' =? k)%string then Some v else assoc k d'
  end.

Definition efficiency (r : Reaction) (species_name : string) : float :=
  match assoc species_name (efficiencies r) with
  | Some e => e
  | None => default_efficiency r
  end.

(** [StateDefinition(T, Patm, composition)]: the unburned state. *)
Record StateDefinition : Set := {
  T : float;
  P : float;
  composition : string
}.

(** A [ct.Solution]: the reactions of the mechanism and the state last
    assigned through [TPX]. *)
Record Solution : Set := {
  reactions : list Reaction;
  TPX : option (float * float * string)
}.

Definition n_reactions (g : Solution) : nat := length (reactions g).

Definition set_TPX (v : float * float * string) (g : Solution) : Solution :=
  {| reactions := reactions g; TPX := Some v |}.

(** [gas.modify_reaction(i, reaction)] *)
Definition modify_reaction (i : nat) (r : Reaction) (g : Solution) : Solution :=
  {| reactions := <[i := r]> (reactions g); TPX := TPX g |}.

(** The settings of a [ct.FreeFlame] that the flame speed model assigns. *)
Record FreeFlame : Set := {
  grid : float * Z;
  steady_tolerances : option (float * float);
  transient_tolerances : option (float * float);
  bounds_Y : option (float * float);
  energy_enabled : bool;
  transport_model : string;
  soret_enabled : bool;
  max_jac_age : option (Z * Z);
  time_step : option (float * list Z);
  refine_criteria : option (float * float * float * float)
}.

(** One entry of [model_parameter_info]: a dict with the keys
    'reaction_number', 'parameter_type', 'parameter_name' and, for an
    efficiency, 'species'. *)
Record param_info : Set := {
  reaction_number : nat;
  parameter_type : string;
  parameter_name : string;
  species : option string
}.

(** A line written to the sensitivity log file, before formatting. *)
Inductive log_line : Set :=
| LogValue (value : float)
| LogHeaderFD
| LogRowFD (param_id : Z) (valuep valuem sensitivity : float) (param_name : string)
| LogHeaderAdjoint
| LogRowAdjoint (param_id : Z) (sensitivity : float) (param_name : string).

(** A call made on Cantera or on the log file. *)
Inductive call : Set :=
| CSolve (sim : FreeFlame) (loglevel : Z) (refine_grid : bool)
| CRestore (filename name : string) (loglevel : option Z)
| CSave (filename name description : string)
| CModify (reaction_number : nat) (r : Reaction)
| CAdjointPerturb (i : Z) (dp : float)
| CWrite (line : log_line).

(** What the adjoint solver does with the perturbation callback it is
    handed: it returns the sensitivities, raises, or calls the callback
    with an index and a step and goes on from the history that results. *)
Inductive adjoint_run : Type :=
| AdjReturn (sens : list float)
| AdjRaise
| AdjPerturb (i : Z) (dp : float) (k : list call -> adjoint_run).

(** The oracle standing for Cantera.  Each [*_raises] field is asked with
    the history that ends in the call being made. *)
Record Cantera : Type := {
  ct_Solution : string -> list Reaction;
  ct_FreeFlame : Solution -> float * Z -> FreeFlame;
  solve_raises : list call -> bool;
  restore_raises : list call -> bool;
  save_raises : list call -> bool;
  flame_u0 : list call -> float;
  flame_Nvars : list call -> Z;
  flame_i_Su : list call -> Z;
  solve_adjoint : list call -> nat -> Z * Z -> adjoint_run
}.

(** ** The model object *)

(** The attributes of a [FlameSpeed] instance (those of
    [CanteraChemistryModel] first), the lines printed so far and the
    history of calls on Cantera and on the log file. *)
Record Model : Type := {
  initial : StateDefinition;
  chemistry_model : string;
  _sens_flag : bool;
  no_efficiencies : bool;
  no_energy : bool;
  no_falloff : bool;
  gas : option Solution;
  reactor : option unit;
  simulation : option FreeFlame;
  model_parameter_info : list param_info;
  number_parameters : nat;
  _initial_grid : float * Z;
  loglevel : Z;
  savefile : string;
  _restart : option bool;
  stdout : list string;
  history : list call
}.

Definition set_sens_flag (b : bool) (s : Model) : Model :=
  {| initial := initial s; chemistry_model := chemistry_model s;
     _sens_flag := b;
     no_efficiencies := no_efficiencies s; no_energy := no_energy s;
     no_falloff := no_falloff s;
     gas := gas s; reactor := reactor s; simulation := simulation s;
     model_parameter_info := model_parameter_info s;
     number_parameters := number_parameters s;
     _initial_grid := _initial_grid s; loglevel := loglevel s;
     savefile := savefile s; _restart := _restart s;
     stdout := stdout s; history := history s |}.

Definition set_flags (e n f : bool) (s : Model) : Model :=
  {| initial := initial s; chemistry_model := chemistry_model s;
     _sens_flag := _sens_flag s;
     no_efficiencies := e; no_energy := n; no_falloff := f;
     gas := gas s; reactor := reactor s; simulation := simulation s;
     model_parameter_info := model_parameter_info s;
     number_parameters := number_parameters s;
     _initial_grid := _initial_grid s; loglevel := loglevel s;
     savefile := savefile s; _restart := _restart s;
     stdout := stdout s; history := history s |}.

Definition set_gas (g : option Solution) (s : Model) : Model :=
  {| initial := initial s; chemistry_model := chemistry_model s;
     _sens_flag := _sens_flag s;
     no_efficiencies := no_efficiencies s; no_energy := no_energy s;
     no_falloff := no_falloff s;
     gas := g; reactor := reactor s; simulation := simulation s;
     model_parameter_info := model_parameter_info s;
     number_parameters := number_parameters s;
     _initial_grid := _initial_grid s; loglevel := loglevel s;
     savefile := savefile s; _restart := _restart s;
     stdout := stdout s; history := history s |}.

Definition set_reactor (r : option unit) (s : Model) : Model :=
  {| initial := initial s; chemistry_model := chemistry_model s;
     _sens_flag := _sens_flag s;
     no_efficiencies := no_efficiencies s; no_energy := no_energy s;
     no_falloff := no_falloff s;
     gas := gas s; reactor := r; simulation := simulation s;
     model_parameter_info := model_parameter_info s;
     number_parameters := number_parameters s;
     _initial_grid := _initial_grid s; loglevel := loglevel s;
     savefile := savefile s; _restart := _restart s;
     stdout := stdout s; history := history s |}.

Definition set_simulation (sim : option FreeFlame) (s : Model) : Model :=
  {| initial := initial s; chemistry_model := chemistry_model s;
     _sens_flag := _sens_flag s;
     no_efficiencies := no_efficiencies s; no_energy := no_energy s;
     no_falloff := no_falloff s;
     gas := gas s; reactor := reactor s; simulation := sim;
     model_parameter_info := model_parameter_info s;
     number_parameters := number_parameters s;
     _initial_grid := _initial_grid s; loglevel := loglevel s;
     savefile := savefile s; _restart := _restart s;
     stdout := stdout s; history := history s |}.

Definition set_model_parameter_info (l : list param_info) (s : Model) : Model :=
  {| initial := initial s; chemistry_model := chemistry_model s;
     _sens_flag := _sens_flag s;
     no_efficiencies := no_efficiencies s; no_energy := no_energy s;
     no_falloff := no_falloff s;
     gas := gas s; reactor := reactor s; simulation := simulation s;
     model_parameter_info := l;
     number_parameters := length l;
     _initial_grid := _initial_grid s; loglevel := loglevel s;
     savefile := savefile s; _restart := _restart s;
     stdout := stdout s; history := history s |}.

Definition set_restart (r : option bool) (s : Model) : Model :=
  {| initial := initial s; chemistry_model := chemistry_model s;
     _sens_flag := _sens_flag s;
     no_efficiencies := no_efficiencies s; no_energy := no_energy s;
     no_falloff := no_falloff s;
     gas := gas s; reactor := reactor s; simulation := simulation s;
     model_parameter_info := model_parameter_info s;
     number_parameters := number_parameters s;
     _initial_grid := _initial_grid s; loglevel := loglevel s;
     savefile := savefile s; _restart := r;
     stdout := stdout s; history := history s |}.

Definition set_stdout (o : list string) (s : Model) : Model :=
  {| initial := initial s; chemistry_model := chemistry_model s;
     _sens_flag := _sens_flag s;
     no_efficiencies := no_efficiencies s; no_energy := no_energy s;
     no_falloff := no_falloff s;
     gas := gas s; reactor := reactor s; simulation := simulation s;
     model_parameter_info := model_parameter_info s;
     number_parameters := number_parameters s;
     _initial_grid := _initial_grid s; loglevel := loglevel s;
     savefile := savefile s; _restart := _restart s;
     stdout := o; history := history s |}.

Definition set_history (h : list call) (s : Model) : Model :=
  {| initial := initial s; chemistry_model := chemistry_model s;
     _sens_flag := _sens_flag s;
     no_efficiencies := no_efficiencies s; no_energy := no_energy s;
     no_falloff := no_falloff s;
     gas := gas s; reactor := reactor s; simulation := simulation s;
     model_parameter_info := model_parameter_info s;
     number_parameters := number_parameters s;
     _initial_grid := _initial_grid s; loglevel := loglevel s;
     savefile := savefile s; _restart := _restart s;
     stdout := stdout s; history := h |}.

(** ** Methods: state transformers that may raise *)

Definition M (A : Type) : Type := Model -> Model * result A.

Definition ret {A} (a : A) : M A := fun s => (s, Ok a).

Definition raise {A} (e : exn) : M A := fun s => (s, Raise e).

Definition bind {A B} (m : M A) (k : A -> M B) : M B :=
  fun s => match m s with
           | (s', Ok a) => k a s'
           | (s', Raise e) => (s', Raise e)
           end.

Notation "x <- m ;; k" := (bind m (fun x => k))
  (at level 100, m at next level, right associativity).
Notation "m ;;; k" := (bind m (fun _ => k))
  (at level 100, right associativity).

(** [try: body except: handler], the bare [except] that catches every
    exception. *)
Definition try_except {A} (body handler : M A) : M A :=
  fun s => match body s with
           | (s', Ok a) => (s', Ok a)
           | (s', Raise _) => handler s'
           end.

Definition lift {A} (r : result A) : M A := fun s => (s, r).

Definition modify (f : Model -> Model) : M unit := fun s => (f s, Ok tt).

Definition print (line : string) : M unit :=
  modify (fun s => set_stdout ((stdout s ++ [line])%list) s).

Definition record (c : call) : M unit :=
  modify (fun s => set_history ((history s ++ [c])%list) s).

(** [logfile.write(...)] *)
Definition logfile_write (line : log_line) : M unit := record (CWrite line).

Definition gets {A} (f : Model -> A) : M A := fun s => (s, Ok (f s)).

Definition bindr {A B} (r : result A) (k : A -> result B) : result B :=
  match r with
  | Ok a => k a
  | Raise e => Raise e
  end.

Notation "x <~ r ;; k" := (bindr r (fun x => k))
  (at level 100, r at next level, right associativity).

(** [self.gas.<attr>]: an attribute of [None] raises AttributeError. *)
Definition self_gas : M Solution :=
  fun s => match gas s with
           | Some g => (s, Ok g)
           | None => (s, Raise AttributeError)
           end.

Definition self_simulation : M FreeFlame :=
  fun s => match simulation s with
           | Some sim => (s, Ok sim)
           | None => (s, Raise AttributeError)
           end.

(** [gas.reaction(i)]: Cantera raises when there is no reaction [i]. *)
Definition gas_reaction (g : Solution) (i : nat) : result Reaction :=
  match reactions g !! i with
  | Some r => Ok r
  | None => Raise CanteraError
  end.

(** ** cantera_chemistry_model.py *)

Module CanteraChemistryModel.

(** [blank_chemistry]: lines 145-152. *)
Definition blank_chemistry : M unit :=
  modify (fun s => set_simulation None (set_reactor None (set_gas None s))).

(** The value [get_parameter] reads off a reaction: lines 196-219.
    [parameter_value] is bound only on the branches that assign it. *)
Definition read_parameter (parameter_type : string) (reaction : Reaction)
  : result float :=
  let pressurestring := "pressure" in
  let HasFallOff := false in
  let HasFallOff := if py_in pressurestring parameter_type then true else HasFallOff in
  let parameter_value : option float := None in
  let parameter_value :=
    if HasFallOff then
      let highrate := high_rate reaction in
      let lowrate := low_rate reaction in
      let parameter_value :=
        if py_in "High" parameter_type then
          let parameter_value :=
            if py_in "A" parameter_type
            then Some (pre_exponential_factor highrate) else parameter_value in
          if py_in "E" parameter_type
          then Some (activation_energy highrate) else parameter_value
        else parameter_value in
      if py_in "Low" parameter_type then
        let parameter_value :=
          if py_in "A" parameter_type
          then Some (pre_exponential_factor lowrate) else parameter_value in
        if py_in "E" parameter_type
        then Some (activation_energy lowrate) else parameter_value
      else parameter_value
    else
      let rate := rate reaction in
      let parameter_value :=
        if py_in "A" parameter_type
        then Some (pre_exponential_factor rate) else parameter_value in
      if py_in "E" parameter_type
      then Some (activation_energy rate) else parameter_value in
  match parameter_value with
  | Some v => Ok v
  | None => Raise UnboundLocalError
  end.

(** [get_parameter]: lines 175-219. *)
Definition get_parameter (parameter_id : Z) : M float :=
  param_info <- (fun s => (s, py_getitem (model_parameter_info s) parameter_id)) ;;
  let reaction_number := reaction_number param_info in
  let parameter_type := parameter_type param_info in
  g <- self_gas ;;
  reaction <- lift (gas_reaction g reaction_number) ;;
  lift (read_parameter parameter_type reaction).

(** The rate laws [perturb_parameter] assigns to a reaction: lines 247-294.
    [perturbation] is bound only where line 263 runs.  Every exception of
    this part is raised before the first assignment to the reaction. *)
Definition perturb_reaction (no_falloff : bool) (parameter_type : string)
    (new_value : float) (reaction : Reaction) : result Reaction :=
  let pressurestring := "pressure" in
  let HasFallOff := false in
  let PerturbLow := false in
  let HasFallOff := if py_in pressurestring parameter_type then true else HasFallOff in
  if HasFallOff then
    let highrate := high_rate reaction in
    let lowrate := low_rate reaction in
    let perturbation : option float := None in
    high <~ (if py_in "High" parameter_type then
               let A := pre_exponential_factor highrate in
               let b := temperature_exponent highrate in
               let E := activation_energy highrate in
               Ap <~ (if py_in "A" parameter_type then
                        let A := new_value in
                        perturbation <~ py_truediv new_value A ;;
                        Ok (A, Some perturbation)
                      else Ok (A, perturbation)) ;;
               let '(A, perturbation) := Ap in
               let E := if py_in "E" parameter_type then new_value else E in
               Ok (set_high_rate (ct_Arrhenius A b E) reaction, perturbation)
             else Ok (reaction, perturbation)) ;;
    let '(reaction, perturbation) := high in
    let PerturbLow := if py_in "Low" parameter_type then true else PerturbLow in
    let PerturbLow := if no_falloff then true else PerturbLow in
    if PerturbLow then
      let A := pre_exponential_factor lowrate in
      let b := temperature_exponent lowrate in
      let E := activation_energy lowrate in
      A <~ (if py_in "A" parameter_type then
              if py_in "Low" parameter_type then Ok new_value
              else match perturbation with
                   | Some perturbation => Ok (perturbation * A)%float
                   | None => Raise UnboundLocalError
                   end
            else Ok A) ;;
      let E := if py_in "E" parameter_type then new_value else E in
      Ok (set_low_rate (ct_Arrhenius A b E) reaction)
    else Ok reaction
  else
    let rate := rate reaction in
    let A := pre_exponential_factor rate in
    let b := temperature_exponent rate in
    let E := activation_energy rate in
    let A := if py_in "A" parameter_type then new_value else A in
    let E := if py_in "E" parameter_type then new_value else E in
    Ok (set_rate (ct_Arrhenius A b E) reaction).

(** [self.gas.modify_reaction(reaction_number, reaction)] *)
Definition gas_modify_reaction (reaction_number : nat) (reaction : Reaction)
  : M unit :=
  g <- self_gas ;;
  record (CModify reaction_number reaction) ;;;
  modify (set_gas (Some (modify_reaction reaction_number reaction g))).

(** [perturb_parameter]: lines 221-302. *)
Definition perturb_parameter (parameter_id : Z) (new_value : float) : M unit :=
  param_info <- (fun s => (s, py_getitem (model_parameter_info s) parameter_id)) ;;
  let reaction_number := reaction_number param_info in
  let parameter_type := parameter_type param_info in
  g <- self_gas ;;
  reaction <- lift (gas_reaction g reaction_number) ;;
  no_falloff <- gets no_falloff ;;
  reaction <- lift (perturb_reaction no_falloff parameter_type new_value reaction) ;;
  gas_modify_reaction reaction_number reaction.

(** The base class's restart hooks do nothing: lines 154-173. *)
Definition load_restart : M unit := ret tt.
Definition save_restart : M unit := ret tt.
Definition ignore_restart : M unit := ret tt.

Section WithCantera.

Context (ct : Cantera).

(** [initialize_chemistry]: lines 117-131. *)
Definition initialize_chemistry : M unit :=
  (fun s => match gas s with
            | None =>
                let g := {| reactions := ct_Solution ct (chemistry_model s);
                            TPX := None |} in
                (set_gas (Some g) s, Ok tt)
            | Some _ => (s, Ok tt)
            end) ;;;
  g <- self_gas ;;
  init <- gets initial ;;
  modify (set_gas (Some (set_TPX (T init, P init, composition init) g))).

(** [reset_model]: lines 311-318. *)
Definition reset_model : M unit :=
  blank_chemistry ;;;
  initialize_chemistry.

(** [prepare_for_save]: lines 87-89. *)
Definition prepare_for_save : M unit := blank_chemistry.

Definition mk_info (n : nat) (ty name : string) : param_info :=
  {| reaction_number := n; parameter_type := ty; parameter_name := name;
     species := None |}.

Definition mk_efficiency (n : nat) (sp name : string) : param_info :=
  {| reaction_number := n; parameter_type := "Efficiency";
     parameter_name := name; species := Some sp |}.

(** [abs(rate.activation_energy) > 0.1] *)
Definition energy_is_active (k : Arrhenius) : bool :=
  (0.1 <? abs (activation_energy k))%float.

(** The loop of lines 409-413 over the keys of [reaction.efficiencies]. *)
Definition efficiency_entries (reaction_name : string) (reaction_number : nat)
    (reaction : Reaction) (reaction_info : list param_info) : list param_info :=
  fold_left
    (fun reaction_info species_name =>
       if (0 <? efficiency reaction species_name)%float then
         let fullname := reaction_name ++ ":Eff:" ++ species_name in
         (reaction_info ++ [mk_efficiency reaction_number species_name fullname])%list
       else reaction_info)
    (map fst (efficiencies reaction)) reaction_info.

(** [get_reaction_info], lines 368-414, once [reaction_name] is known.
    Line 380 assigns [HasThirdbody], a name that nothing reads;
    [HasThirdBody] keeps its value there. *)
Definition reaction_info_of (reaction_name : string) (reaction_number : nat)
    (reaction : Reaction) : list param_info :=
  let reaction_info := [mk_info reaction_number "A_factor" reaction_name] in
  let HasThirdBody := false in
  let HasFalloff := false in
  let HasThirdBody :=
    if reaction_type reaction =? 4 then true else HasThirdBody in
  let HasFalloff :=
    if reaction_type reaction =? 4 then true else HasFalloff in
  let HasThirdbody : option bool :=
    if reaction_type reaction =? 8 then Some true else None in
  let HasFalloff :=
    if reaction_type reaction =? 8 then true else HasFalloff in
  let HasThirdBody :=
    if reaction_type reaction =? 2 then true else HasThirdBody in
  let reaction_info :=
    if HasFalloff then
      let rate := high_rate reaction in
      let fullname := reaction_name ++ ":HpA" in
      let reaction_info := [mk_info reaction_number "High_pressure_A" fullname] in
      let reaction_info :=
        if energy_is_active rate then
          let fullname := reaction_name ++ ":HpE" in
          (reaction_info ++ [mk_info reaction_number "High_pressure_E" fullname])%list
        else reaction_info in
      let rate := low_rate reaction in
      let fullname := reaction_name ++ ":LpA" in
      let reaction_info :=
        (reaction_info ++ [mk_info reaction_number "Low_pressure_A" fullname])%list in
      if energy_is_active rate then
        let fullname := reaction_name ++ ":LpE" in
        (reaction_info ++ [mk_info reaction_number "Low_pressure_E" fullname])%list
      else reaction_info
    else
      let rate := rate reaction in
      let fullname := reaction_name ++ ":A" in
      let reaction_info := [mk_info reaction_number "A_factor" fullname] in
      if energy_is_active rate then
        let fullname := reaction_name ++ ":E" in
        (reaction_info ++ [mk_info reaction_number "Energy" fullname])%list
      else reaction_info in
  if HasThirdBody then
    efficiency_entries reaction_name reaction_number reaction reaction_info
  else reaction_info.

(** [get_reaction_info]: lines 354-414.  The name of the reaction is read
    from [self.gas], line 366. *)
Definition get_reaction_info (reaction_number : nat) (reaction : Reaction)
  : M (list param_info) :=
  g <- self_gas ;;
  r <- lift (gas_reaction g reaction_number) ;;
  let reaction_name := equation r in
  ret (reaction_info_of reaction_name reaction_number reaction).

(** The first loop of [get_model_parameter_info], lines 432-435, from
    reaction [reaction_num] on. *)
Fixpoint all_reaction_info (reaction_num : nat) (rs : list Reaction)
    (model_parameter_info_full : list param_info) : M (list param_info) :=
  match rs with
  | [] => ret model_parameter_info_full
  | reaction :: rs' =>
      reac_info <- get_reaction_info reaction_num reaction ;;
      all_reaction_info (S reaction_num) rs'
        (model_parameter_info_full ++ reac_info)%list
  end.

(** The body of the second loop, lines 437-461. *)
Definition include_this_parameter (no_efficiencies no_energy no_falloff : bool)
    (param_info : param_info) : bool :=
  let ty := parameter_type param_info in
  let include_this_parameter := true in
  let include_this_parameter :=
    if no_efficiencies then
      if (ty =? "Efficiency")%string then false else include_this_parameter
    else include_this_parameter in
  let include_this_parameter :=
    if no_energy then
      let include_this_parameter :=
        if (ty =? "Energy")%string then false else include_this_parameter in
      let include_this_parameter :=
        if (ty =? "Low_pressure_E")%string then false else include_this_parameter in
      if (ty =? "High_pressure_E")%string then false else include_this_parameter
    else include_this_parameter in
  if no_falloff then
    let include_this_parameter :=
      if (ty =? "Low_pressure_A")%string then false else include_this_parameter in
    let include_this_parameter :=
      if (ty =? "Low_pressure_E")%string then false else include_this_parameter in
    if (ty =? "High_pressure_E")%string then false else include_this_parameter
  else include_this_parameter.

(** [get_model_parameter_info]: lines 416-464. *)
Definition get_model_parameter_info (no_efficiencies no_energy no_falloff : bool)
  : M (list param_info) :=
  path <- gets chemistry_model ;;
  let model := {| reactions := ct_Solution ct path; TPX := None |} in
  model_parameter_info_full <- all_reaction_info 0 (reactions model) [] ;;
  ret (fold_left
         (fun model_parameter_info param_info =>
            if include_this_parameter no_efficiencies no_energy no_falloff
                 param_info
            then (model_parameter_info ++ [param_info])%list
            else model_parameter_info)
         model_parameter_info_full []).

(** [prepare_chemistry]: lines 91-115. *)
Definition prepare_chemistry (no_efficiencies no_energy no_falloff : bool)
  : M unit :=
  modify (set_flags no_efficiencies no_energy no_falloff) ;;;
  blank_chemistry ;;;
  initialize_chemistry ;;;
  info <- get_model_parameter_info no_efficiencies no_energy no_falloff ;;
  modify (set_model_parameter_info info) ;;;
  blank_chemistry.

End WithCantera.

(** The finite-difference sensitivity of the base class.  [self.evaluate],
    [self.save_restart] and [self.load_restart] are the methods of the
    subclass the instance belongs to. *)
Section Sensitivity.

Context (self_evaluate : M float)
        (self_save_restart self_load_restart : M unit).

(** One turn of the loop, lines 503-549.  [evaluate] is taken to return a
    Python float, so that line 531 divides as Python does. *)
Definition sensitivity_step (perturbation value pos_mult neg_mult : float)
    (sensitivity_list : list float) (param_id : Z) : M (list float) :=
  info <- (fun s => (s, py_getitem (model_parameter_info s) param_id)) ;;
  let param_name := parameter_name info in
  mult_base <- get_parameter param_id ;;
  let pos_pert := (pos_mult * mult_base)%float in
  perturb_parameter param_id pos_pert ;;;
  valuep <- self_evaluate ;;
  let neg_pert := (neg_mult * mult_base)%float in
  perturb_parameter param_id neg_pert ;;;
  self_load_restart ;;;
  valuem <- self_evaluate ;;
  perturb_parameter param_id mult_base ;;;
  sensitivity <- lift (py_truediv (valuep - valuem)
                                  (2 * perturbation * value)%float) ;;
  let sensitivity_list := (sensitivity_list ++ [sensitivity])%list in
  logfile_write (LogRowFD param_id valuep valuem sensitivity param_name) ;;;
  ret sensitivity_list.

(** The loop of line 499 over [parameter_list]. *)
Fixpoint sensitivity_loop (perturbation value pos_mult neg_mult : float)
    (parameter_list : list Z) (sensitivity_list : list float)
  : M (list float) :=
  match parameter_list with
  | [] => ret sensitivity_list
  | param_id :: parameter_list' =>
      sensitivity_list <-
        sensitivity_step perturbation value pos_mult neg_mult
          sensitivity_list param_id ;;
      sensitivity_loop perturbation value pos_mult neg_mult
        parameter_list' sensitivity_list
  end.

(** Lines 480-494: the nominal evaluation and the two multipliers. *)
Definition sensitivity_prologue (perturbation : float)
  : M (float * float * float) :=
  value <- self_evaluate ;;
  self_save_restart ;;;
  logfile_write (LogValue value) ;;;
  let pos_mult := (1 + perturbation)%float in
  neg_mult <- lift (py_truediv 1 pos_mult) ;;
  logfile_write LogHeaderFD ;;;
  ret (value, pos_mult, neg_mult).

(** [sensitivity]: lines 466-553. *)
Definition sensitivity (perturbation : float) (parameter_list : list Z)
  : M (float * list float) :=
  let sensitivity_list := [] in
  vpn <- sensitivity_prologue perturbation ;;
  let '(value, pos_mult, neg_mult) := vpn in
  modify (set_sens_flag true) ;;;
  sensitivity_list <-
    sensitivity_loop perturbation value pos_mult neg_mult
      parameter_list sensitivity_list ;;
  modify (set_sens_flag false) ;;;
  let sensitivity_vector := sensitivity_list in
  ret (value, sensitivity_vector).

End Sensitivity.

(** [print_sens]: lines 555-570.  [format_row] stands for the [str.format]
    of line 564. *)
Section PrintSens.

Context (format_row : Z -> float -> string -> string).

(** [self.gas.reaction_equations([i])[0]]: Cantera raises when there is no
    reaction [i]. *)
Definition gas_reaction_equation (i : Z) : M string :=
  g <- self_gas ;;
  if i <? 0 then raise CanteraError
  else
    r <- lift (gas_reaction g (Z.to_nat i)) ;;
    ret (equation r).

(** The loop of lines 563-568 over a list [print_params]. *)
Fixpoint print_sens_rows (sensitivity_vector : list float)
    (print_params : list Z) : M unit :=
  match print_params with
  | [] => ret tt
  | print_param :: print_params' =>
      v <- lift (py_getitem sensitivity_vector print_param) ;;
      name <- gas_reaction_equation print_param ;;
      print (format_row print_param v name) ;;;
      print_sens_rows sensitivity_vector print_params'
  end.

(** [print_sens(sensitivity_vector, print_params=None)].  Without the
    second argument [print_params] is [self.number_parameters], an int,
    and the [for] of line 563 raises TypeError. *)
Definition print_sens (sensitivity_vector : list float)
    (print_params : option (list Z)) : M unit :=
  match print_params with
  | None =>
      print_params <- gets number_parameters ;;
      raise TypeError
  | Some print_params => print_sens_rows sensitivity_vector print_params
  end.

End PrintSens.

End CanteraChemistryModel.

(** ** flame_speed.py *)

Module FlameSpeed.

Import CanteraChemistryModel.

Definition set_tolerances (ss ts : float * float) (sim : FreeFlame) : FreeFlame :=
  {| grid := grid sim;
     steady_tolerances := Some ss; transient_tolerances := Some ts;
     bounds_Y := bounds_Y sim;
     energy_enabled := energy_enabled sim;
     transport_model := transport_model sim;
     soret_enabled := soret_enabled sim;
     max_jac_age := max_jac_age sim; time_step := time_step sim;
     refine_criteria := refine_criteria sim |}.

Definition set_bounds_Y (b : float * float) (sim : FreeFlame) : FreeFlame :=
  {| grid := grid sim;
     steady_tolerances := steady_tolerances sim;
     transient_tolerances := transient_tolerances sim;
     bounds_Y := Some b;
     energy_enabled := energy_enabled sim;
     transport_model := transport_model sim;
     soret_enabled := soret_enabled sim;
     max_jac_age := max_jac_age sim; time_step := time_step sim;
     refine_criteria := refine_criteria sim |}.

Definition set_energy_enabled (b : bool) (sim : FreeFlame) : FreeFlame :=
  {| grid := grid sim;
     steady_tolerances := steady_tolerances sim;
     transient_tolerances := transient_tolerances sim;
     bounds_Y := bounds_Y sim;
     energy_enabled := b;
     transport_model := transport_model sim;
     soret_enabled := soret_enabled sim;
     max_jac_age := max_jac_age sim; time_step := time_step sim;
     refine_criteria := refine_criteria sim |}.

Definition set_transport_model (m : string) (sim : FreeFlame) : FreeFlame :=
  {| grid := grid sim;
     steady_tolerances := steady_tolerances sim;
     transient_tolerances := transient_tolerances sim;
     bounds_Y := bounds_Y sim;
     energy_enabled := energy_enabled sim;
     transport_model := m;
     soret_enabled := soret_enabled sim;
     max_jac_age := max_jac_age sim; time_step := time_step sim;
     refine_criteria := refine_criteria sim |}.

Definition set_soret_enabled (b : bool) (sim : FreeFlame) : FreeFlame :=
  {| grid := grid sim;
     steady_tolerances := steady_tolerances sim;
     transient_tolerances := transient_tolerances sim;
     bounds_Y := bounds_Y sim;
     energy_enabled := energy_enabled sim;
     transport_model := transport_model sim;
     soret_enabled := b;
     max_jac_age := max_jac_age sim; time_step := time_step sim;
     refine_criteria := refine_criteria sim |}.

Definition set_max_jac_age (a : Z * Z) (sim : FreeFlame) : FreeFlame :=
  {| grid := grid sim;
     steady_tolerances := steady_tolerances sim;
     transient_tolerances := transient_tolerances sim;
     bounds_Y := bounds_Y sim;
     energy_enabled := energy_enabled sim;
     transport_model := transport_model sim;
     soret_enabled := soret_enabled sim;
     max_jac_age := Some a; time_step := time_step sim;
     refine_criteria := refine_criteria sim |}.

Definition set_time_step (t : float * list Z) (sim : FreeFlame) : FreeFlame :=
  {| grid := grid sim;
     steady_tolerances := steady_tolerances sim;
     transient_tolerances := transient_tolerances sim;
     bounds_Y := bounds_Y sim;
     energy_enabled := energy_enabled sim;
     transport_model := transport_model sim;
     soret_enabled := soret_enabled sim;
     max_jac_age := max_jac_age sim; time_step := Some t;
     refine_criteria := refine_criteria sim |}.

(** [set_refine_criteria(ratio, slope, curve, prune)] *)
Definition set_refine_criteria (c : float * float * float * float)
    (sim : FreeFlame) : FreeFlame :=
  {| grid := grid sim;
     steady_tolerances := steady_tolerances sim;
     transient_tolerances := transient_tolerances sim;
     bounds_Y := bounds_Y sim;
     energy_enabled := energy_enabled sim;
     transport_model := transport_model sim;
     soret_enabled := soret_enabled sim;
     max_jac_age := max_jac_age sim; time_step := time_step sim;
     refine_criteria := Some c |}.

(** An assignment to, or a setter of, [self.simulation]. *)
Definition sim_set (f : FreeFlame -> FreeFlame) : M unit :=
  sim <- self_simulation ;;
  modify (set_simulation (Some (f sim))).

Section WithCantera.

Context (ct : Cantera).

(** [self.simulation.solve(loglevel, refine_grid)] *)
Definition simulation_solve (loglevel : Z) (refine_grid : bool) : M unit :=
  sim <- self_simulation ;;
  record (CSolve sim loglevel refine_grid) ;;;
  h <- gets history ;;
  if solve_raises ct h then raise CanteraError else ret tt.

(** [self.simulation.restore(filename, name, loglevel)] *)
Definition simulation_restore (filename name : string) (loglevel : option Z)
  : M unit :=
  sim <- self_simulation ;;
  record (CRestore filename name loglevel) ;;;
  h <- gets history ;;
  if restore_raises ct h then raise CanteraError else ret tt.

(** [self.simulation.save(filename, name, description, loglevel=0)] *)
Definition simulation_save (filename name description : string) : M unit :=
  sim <- self_simulation ;;
  record (CSave filename name description) ;;;
  h <- gets history ;;
  if save_raises ct h then raise CanteraError else ret tt.

(** [self.simulation.u[0]] *)
Definition simulation_u0 : M float :=
  sim <- self_simulation ;;
  h <- gets history ;;
  ret (flame_u0 ct h).

(** [__init__]: lines 32-47, on the object the base class's [__init__]
    (lines 65-81 of cantera_chemistry_model.py) has set up. *)
Definition init (initial : StateDefinition) (chemistry_model : string)
    (domain_length : float) (initial_points : Z) (loglevel : Z)
    (name : string) (no_efficiencies no_energy no_falloff : bool)
  : Model * result unit :=
  prepare_chemistry ct no_efficiencies no_energy no_falloff
    {| initial := initial; chemistry_model := chemistry_model;
       _sens_flag := false;
       no_efficiencies := no_efficiencies; no_energy := no_energy;
       no_falloff := no_falloff;
       gas := None; reactor := None; simulation := None;
       model_parameter_info := []; number_parameters := 0;
       _initial_grid := (domain_length, initial_points);
       loglevel := loglevel;
       savefile := name ++ ".xml"; _restart := None;
       stdout := []; history := [] |}.

(** [initialize_reactor]: lines 60-77. *)
Definition initialize_reactor : M unit :=
  g <- gets gas ;;
  match g with
  | None => raise TypeError
  | Some g =>
      grid <- gets _initial_grid ;;
      modify (set_simulation (Some (ct_FreeFlame ct g grid))) ;;;
      let tol_ss := (1e-5, 1e-12)%float in
      let tol_ts := (1e-4, 1e-12)%float in
      sim_set (set_tolerances tol_ss tol_ts) ;;;
      sim_set (set_bounds_Y (-1e-5, 1)%float)
  end.

(** Lines 93-137: no restart and no sensitivity calculation under way. *)
Definition evaluate_from_scratch : M unit :=
  loglevel <- gets loglevel ;;
  sim_set (set_energy_enabled false) ;;;
  sim_set (set_transport_model "Mix") ;;;
  sim_set (set_max_jac_age (10, 10)) ;;;
  sim_set (set_time_step (1e-5%float, [2; 5; 10; 20])) ;;;
  sim <- self_simulation ;;
  print (py_str_bool (energy_enabled sim)) ;;;
  print (transport_model sim) ;;;
  print "Mixture-averaged solution, no energy equation, no grid refinement" ;;;
  try_except (simulation_solve loglevel false)
    (print "As predicted, first attempt failed, trying one more time" ;;;
     try_except (simulation_solve loglevel false)
       (print "Could not find a solution")) ;;;
  print "Mixture-averaged solution, enable energy equation and grid refinement" ;;;
  sim_set (set_energy_enabled true) ;;;
  sim_set (set_refine_criteria (10, 0.06, 0.08, 0)%float) ;;;
  try_except (simulation_solve loglevel true)
    (print "As predicted, first attempt failed, trying one more time" ;;;
     try_except (simulation_solve loglevel true)
       (print "Could not find a solution")) ;;;
  print "Multicomponent solution" ;;;
  sim_set (set_transport_model "Multi") ;;;
  sim_set (set_soret_enabled true) ;;;
  sim_set (set_refine_criteria (10, 0.06, 0.08, 1.0e-4)%float) ;;;
  try_except (simulation_solve loglevel true)
    (print "Could not find a solution").

(** Lines 139-144: a sensitivity calculation is under way. *)
Definition evaluate_in_sensitivity : M unit :=
  sim_set (set_energy_enabled true) ;;;
  sim_set (set_transport_model "Multi") ;;;
  sim_set (set_soret_enabled true) ;;;
  simulation_solve 0 false.

(** Lines 145-160: a restart has been saved or loaded. *)
Definition evaluate_from_restart : M unit :=
  loglevel <- gets loglevel ;;
  savefile <- gets savefile ;;
  simulation_restore savefile "restart" None ;;;
  sim_set (set_energy_enabled true) ;;;
  sim_set (set_transport_model "Multi") ;;;
  sim_set (set_soret_enabled true) ;;;
  sim_set (set_refine_criteria (10, 0.06, 0.08, 1.0e-4)%float) ;;;
  try_except (simulation_solve loglevel false)
    (print "Could not find a solution").

(** Lines 86-89: the chemistry and the flame are created when absent. *)
Definition evaluate_prepare : M unit :=
  g <- gets gas ;;
  (if g is None then initialize_chemistry ct else ret tt) ;;;
  sim <- gets simulation ;;
  (if sim is None then initialize_reactor else ret tt).

(** [evaluate]: lines 79-163. *)
Definition evaluate : M float :=
  evaluate_prepare ;;;
  restart <- gets _restart ;;
  sens_flag <- gets _sens_flag ;;
  (if (if restart is None then true else false) && negb sens_flag
   then evaluate_from_scratch
   else if sens_flag then evaluate_in_sensitivity
   else evaluate_from_restart) ;;;
  u0 <- simulation_u0 ;;
  let flame_speed_cm := (u0 / 1.0e-2)%float in
  ret flame_speed_cm.

(** [load_restart]: lines 240-250. *)
Definition load_restart (filename : option string) (solution_name : string)
  : M unit :=
  savefile <- gets savefile ;;
  let filename := match filename with None => savefile | Some f => f end in
  simulation_restore filename solution_name (Some 0) ;;;
  modify (set_restart (Some true)).

(** [save_restart]: lines 252-263. *)
Definition save_restart (filename : option string)
    (solution_name description : string) : M unit :=
  savefile <- gets savefile ;;
  let filename := match filename with None => savefile | Some f => f end in
  simulation_save filename solution_name description ;;;
  modify (set_restart (Some true)).

(** [ignore_restart]: lines 265-268. *)
Definition ignore_restart : M unit :=
  modify (set_restart None).

(** [prepare_for_save]: lines 270-277. *)
Definition prepare_for_save : M unit :=
  try_except
    (save_restart None "restart" "Base solution for this flame speed")
    (print "No data saved from flame speed solution") ;;;
  blank_chemistry.

(** The callback [perturb(sim, i, dp)] of lines 210-214. *)
Definition perturb (parameter_list : list Z) (i : Z) (dp : float) : M unit :=
  param_id <- lift (py_getitem parameter_list i) ;;
  mult_base <- get_parameter param_id ;;
  let new_value := (1 + dp)%float in
  perturb_parameter param_id new_value.

(** [self.simulation.solve_adjoint(perturb, n, dgdx)]: the solver's calls
    of [perturb], each run on the model, until it returns or raises. *)
Fixpoint run_adjoint (parameter_list : list Z) (r : adjoint_run)
  : M (list float) :=
  match r with
  | AdjReturn sens => ret sens
  | AdjRaise => raise CanteraError
  | AdjPerturb i dp k =>
      record (CAdjointPerturb i dp) ;;;
      perturb parameter_list i dp ;;;
      h <- gets history ;;
      run_adjoint parameter_list (k h)
  end.

(** The loop of lines 233-235 over [zip(parameter_list, sensitivity_vector)]. *)
Fixpoint write_rows (rows : list (Z * float)) : M unit :=
  match rows with
  | [] => ret tt
  | (param_id, sensitivity) :: rows' =>
      info <- (fun s => (s, py_getitem (model_parameter_info s) param_id)) ;;
      let param_name := parameter_name info in
      logfile_write (LogRowAdjoint param_id sensitivity param_name) ;;;
      write_rows rows'
  end.

(** [sensitivity]: lines 193-237. *)
Definition sensitivity (perturbation : float) (parameter_list : list Z)
  : M (float * list float) :=
  value <- evaluate ;;
  sim <- self_simulation ;;
  h <- gets history ;;
  let Nvars := flame_Nvars ct h in
  let i_Su := flame_i_Su ct h in
  let dgdx := (Nvars, i_Su) in
  let Su0 := flame_u0 ct h in
  sens <- run_adjoint parameter_list
            (solve_adjoint ct h (length parameter_list) dgdx) ;;
  let full_sensitivity := map (fun x => (x / Su0)%float) sens in
  let sensitivity_vector := full_sensitivity in
  logfile_write (LogValue value) ;;;
  logfile_write LogHeaderAdjoint ;;;
  write_rows (combine parameter_list sensitivity_vector) ;;;
  ret (value, sensitivity_vector).

(** [full_sensitivity[parameter_list]]: the items of an array at a list of
    indices; one index out of range raises IndexError. *)
Fixpoint py_getitems (a : list float) (indices : list Z) : result (list float) :=
  match indices with
  | [] => Ok []
  | i :: indices' =>
      x <~ py_getitem a i ;;
      xs <~ py_getitems a indices' ;;
      Ok (x :: xs)
  end.

(** [_sensitivity]: lines 165-191.  [reaction_sensitivities] stands for
    [self.simulation.get_flame_speed_reaction_sensitivities()], answered
    from the history. *)
Definition _sensitivity
    (reaction_sensitivities : list call -> result (list float))
    (perturbation : float) (parameter_list : list Z)
  : M (float * list float) :=
  value <- evaluate ;;
  sim <- self_simulation ;;
  h <- gets history ;;
  full_sensitivity <- lift (reaction_sensitivities h) ;;
  sensitivity_vector <- lift (py_getitems full_sensitivity parameter_list) ;;
  logfile_write (LogValue value) ;;;
  logfile_write LogHeaderAdjoint ;;;
  write_rows (combine parameter_list sensitivity_vector) ;;;
  ret (value, sensitivity_vector).

End WithCantera.

End FlameSpeed.

(** ** Sample mechanism, solvers and models *)

Module Examples.

Import CanteraChemistryModel.

Definition k (A b E : float) : Arrhenius := ct_Arrhenius A b E.

(** An elementary reaction, a falloff reaction and a chemically activated
    reaction, the last two with third-body efficiencies. *)
Definition r_elementary : Reaction :=
  {| reaction_type := 1; equation := "H + O2 <=> O + OH";
     rate := k 2 0 5; high_rate := k 0 0 0; low_rate := k 0 0 0;
     efficiencies := []; default_efficiency := 1 |}.

Definition r_falloff : Reaction :=
  {| reaction_type := 4; equation := "H + O2 (+M) <=> HO2 (+M)";
     rate := k 0 0 0; high_rate := k 2 0 8; low_rate := k 3 0 9;
     efficiencies := [("H2O", 6%float); ("AR", 0%float)];
     default_efficiency := 1 |}.

Definition r_activated : Reaction :=
  {| reaction_type := 8; equation := "CH3 + OH (+M) <=> CH2O + H2 (+M)";
     rate := k 0 0 0; high_rate := k 2 0 0; low_rate := k 3 0 9;
     efficiencies := [("H2O", 6%float)]; default_efficiency := 1 |}.

Definition mechanism : list Reaction :=
  [r_elementary; r_falloff; r_activated].

Definition new_flame (g : Solution) (grid : float * Z) : FreeFlame :=
  {| grid := grid; steady_tolerances := None; transient_tolerances := None;
     bounds_Y := None; energy_enabled := false; transport_model := "Mix";
     soret_enabled := false; max_jac_age := None; time_step := None;
     refine_criteria := None |}.

(** The flame speed in m/s: 0.2 times the pre-exponential factor last
    given to a reaction's [rate], 0.4 when none was modified. *)
Definition u0_of (h : list call) : float :=
  fold_left (fun u c => match c with
                        | CModify _ r => (0.2 * pre_exponential_factor (rate r))%float
                        | _ => u
                        end) h 0.4%float.

(** A solver that perturbs parameter 0 by [1e-5], then by [0], and returns
    one sensitivity. *)
Definition adjoint_once (h : list call) (n : nat) (dgdx : Z * Z) : adjoint_run :=
  AdjPerturb 0 1e-5 (fun _ => AdjPerturb 0 0 (fun _ => AdjReturn [0.4%float])).

(** A Cantera where no call raises. *)
Definition ct_ok : Cantera :=
  {| ct_Solution := fun _ => mechanism;
     ct_FreeFlame := new_flame;
     solve_raises := fun _ => false;
     restore_raises := fun _ => false;
     save_raises := fun _ => false;
     flame_u0 := u0_of;
     flame_Nvars := fun _ => 120;
     flame_i_Su := fun _ => 9;
     solve_adjoint := adjoint_once |}.

(** A Cantera whose flame solver raises at every attempt. *)
Definition ct_fail : Cantera :=
  {| ct_Solution := fun _ => mechanism;
     ct_FreeFlame := new_flame;
     solve_raises := fun _ => true;
     restore_raises := fun _ => false;
     save_raises := fun _ => false;
     flame_u0 := u0_of;
     flame_Nvars := fun _ => 120;
     flame_i_Su := fun _ => 9;
     solve_adjoint := adjoint_once |}.

(** A Cantera whose flame solves until a reaction has been modified, and
    raises at every solve after that. *)
Definition ct_fails_when_perturbed : Cantera :=
  {| ct_Solution := fun _ => mechanism;
     ct_FreeFlame := new_flame;
     solve_raises :=
       fun h => existsb (fun c => match c with
                                  | CModify _ _ => true
                                  | _ => false
                                  end) h;
     restore_raises := fun _ => false;
     save_raises := fun _ => false;
     flame_u0 := u0_of;
     flame_Nvars := fun _ => 120;
     flame_i_Su := fun _ => 9;
     solve_adjoint := adjoint_once |}.

(** A Cantera whose restart file cannot be read back. *)
Definition ct_no_restore : Cantera :=
  {| ct_Solution := fun _ => mechanism;
     ct_FreeFlame := new_flame;
     solve_raises := fun _ => false;
     restore_raises := fun _ => true;
     save_raises := fun _ => false;
     flame_u0 := u0_of;
     flame_Nvars := fun _ => 120;
     flame_i_Su := fun _ => 9;
     solve_adjoint := adjoint_once |}.

Definition initial_state : StateDefinition :=
  {| T := 300; P := 101325; composition := "CH4:1, O2:2, N2:7.52" |}.

(** [FlameSpeed(300, 1, ..., 'mech.cti')] with the default flags, and the
    same model once its chemistry is initialized. *)
Definition model_built (ct : Cantera) : Model :=
  fst (FlameSpeed.init ct initial_state "mech.cti" 1 10 2 "soln"
         true true true).

Definition model_live (ct : Cantera) : Model :=
  fst (initialize_chemistry ct (model_built ct)).

(** [FlameSpeed(..., no_efficiencies=False, no_energy=False,
    no_falloff=False)]: the full catalog. *)
Definition model_full (ct : Cantera) : Model :=
  fst (initialize_chemistry ct
         (fst (FlameSpeed.init ct initial_state "mech.cti" 1 10 2 "soln"
                 false false false))).

End Examples.

(** * Vocabulary of the properties *)

Import CanteraChemistryModel.
Import FlameSpeed.

(** ** Parameter accessors and catalog *)

(** The state [perturb_parameter] leaves when it has replaced reaction
    [n] by [r']. *)
Definition perturbed (n : nat) (r' : Reaction) (g : Solution) (s : Model) : Model :=
  set_gas (Some (modify_reaction n r' g))
          (set_history (history s ++ [CModify n r']) s).

Definition is_efficiency (p : param_info) : bool :=
  (parameter_type p =? "Efficiency")%string.

(** The rate-law entries of a reaction, lines 385-405: none of them is an
    Efficiency entry. *)
Definition rate_entries (name : string) (n : nat) (r : Reaction) : list param_info :=
  if (reaction_type r =? 4) || (reaction_type r =? 8) then
    ([mk_info n "High_pressure_A" (name ++ ":HpA")]
     ++ (if energy_is_active (high_rate r)
         then [mk_info n "High_pressure_E" (name ++ ":HpE")] else [])
     ++ [mk_info n "Low_pressure_A" (name ++ ":LpA")]
     ++ (if energy_is_active (low_rate r)
         then [mk_info n "Low_pressure_E" (name ++ ":LpE")] else []))%list
  else
    ([mk_info n "A_factor" (name ++ ":A")]
     ++ (if energy_is_active (rate r)
         then [mk_info n "Energy" (name ++ ":E")] else []))%list.

(** [self.gas.reaction_equations([n])[0]] when reaction [n] exists. *)
Definition reaction_name (g : Solution) (n : nat) : string :=
  match reactions g !! n with
  | Some r => equation r
  | None => ""
  end.

(** The unfiltered catalog: the entries of each reaction, in the order of
    the reactions. *)
Fixpoint full_catalog (g : Solution) (n : nat) (rs : list Reaction)
  : list param_info :=
  match rs with
  | [] => []
  | r :: rs' =>
      (reaction_info_of (reaction_name g n) n r ++ full_catalog g (S n) rs')%list
  end.

(** The A-factor of a reaction without falloff, the High-pressure-A of a
    reaction with falloff. *)
Definition primary_entry (name : string) (n : nat) (r : Reaction) : param_info :=
  if (reaction_type r =? 4) || (reaction_type r =? 8)
  then mk_info n "High_pressure_A" (name ++ ":HpA")
  else mk_info n "A_factor" (name ++ ":A").

Fixpoint primary_catalog (g : Solution) (n : nat) (rs : list Reaction)
  : list param_info :=
  match rs with
  | [] => []
  | r :: rs' => primary_entry (reaction_name g n) n r :: primary_catalog g (S n) rs'
  end.

Definition is_primary (p : param_info) : bool :=
  (parameter_type p =? "A_factor")%string ||
  (parameter_type p =? "High_pressure_A")%string.

(** A sequence of [perturb_parameter] calls; a call that raises leaves the
    model as it is and the sequence goes on. *)
Fixpoint perturb_all (ps : list (Z * float)) (s : Model) : Model :=
  match ps with
  | [] => s
  | (id, v) :: ps' => perturb_all ps' (fst (perturb_parameter id v s))
  end.

(** ** The staged flame solve *)

(** The settings of the three stages of a solve from scratch, of a solve
    within a sensitivity calculation and of a solve from a restart, as
    they are when [solve] is called. *)
Definition stage1_settings (sim : FreeFlame) : FreeFlame :=
  set_time_step (1e-5%float, [2; 5; 10; 20])
    (set_max_jac_age (10, 10)
       (set_transport_model "Mix" (set_energy_enabled false sim))).

Definition stage2_settings (sim : FreeFlame) : FreeFlame :=
  set_refine_criteria (10, 0.06, 0.08, 0)%float
    (set_energy_enabled true (stage1_settings sim)).

Definition stage3_settings (sim : FreeFlame) : FreeFlame :=
  set_refine_criteria (10, 0.06, 0.08, 1.0e-4)%float
    (set_soret_enabled true (set_transport_model "Multi" (stage2_settings sim))).

Definition sensitivity_settings (sim : FreeFlame) : FreeFlame :=
  set_soret_enabled true
    (set_transport_model "Multi" (set_energy_enabled true sim)).

Definition restart_settings (sim : FreeFlame) : FreeFlame :=
  set_refine_criteria (10, 0.06, 0.08, 1.0e-4)%float (sensitivity_settings sim).

(** A stage that calls [c] and, when the call raises, calls it once more:
    the calls it makes after the history [h] and the lines it prints. *)
Definition attempt_twice (ct : Cantera) (h : list call) (c : call)
  : list call * list string :=
  if solve_raises ct (h ++ [c]) then
    ([c; c],
     "As predicted, first attempt failed, trying one more time"
     :: (if solve_raises ct ((h ++ [c]) ++ [c])
         then ["Could not find a solution"] else []))
  else ([c], []).

(** A stage that calls [c] once. *)
Definition attempt_once (ct : Cantera) (h : list call) (c : call)
  : list call * list string :=
  ([c], if solve_raises ct (h ++ [c]) then ["Could not find a solution"] else []).

(** The calls and the printed lines of the three stages, run one after the
    other whatever the outcome of the stage before. *)
Definition from_scratch_trace (ct : Cantera) (h : list call) (sim : FreeFlame)
    (loglevel : Z) : list call * list string :=
  let a1 := attempt_twice ct h (CSolve (stage1_settings sim) loglevel false) in
  let h1 := (h ++ fst a1)%list in
  let a2 := attempt_twice ct h1 (CSolve (stage2_settings sim) loglevel true) in
  let h2 := (h1 ++ fst a2)%list in
  let a3 := attempt_once ct h2 (CSolve (stage3_settings sim) loglevel true) in
  ((fst a1 ++ fst a2 ++ fst a3)%list,
   (["False"; "Mix";
     "Mixture-averaged solution, no energy equation, no grid refinement"]
    ++ snd a1
    ++ ["Mixture-averaged solution, enable energy equation and grid refinement"]
    ++ snd a2
    ++ ["Multicomponent solution"]
    ++ snd a3)%list).

(** The [refine_grid] argument of the solves of a history, in order. *)
Definition solve_refinements (h : list call) : list bool :=
  omap (fun c => match c with CSolve _ _ r => Some r | _ => None end) h.

(** The restores of a history, in order. *)
Definition restores (h : list call) : list (string * string) :=
  omap (fun c => match c with CRestore f n _ => Some (f, n) | _ => None end) h.

(** The model [s] with the flame settings [sim], the history [h] and the
    printed lines [out]: the three attributes a flame solve writes. *)
Definition flame_state (sim : FreeFlame) (h : list call) (out : list string)
    (s : Model) : Model :=
  set_stdout out (set_history h (set_simulation (Some sim) s)).

Definition cm_per_s (u0 : float) : float := (u0 / 1.0e-2)%float.

(** ** The two sensitivity routines *)

Section FiniteDifferenceSteps.

Context (self_evaluate : M float) (self_load_restart : M unit).

(** One parameter of the finite-difference routine, step by step: the
    value is read; the parameter is set to (1 + fraction) times the value
    and the model evaluated; the parameter is set to 1/(1 + fraction) times
    the value, the restart is loaded and the model evaluated; the parameter
    is set back to the value read; the coefficient is the central
    difference over twice the fraction times the baseline; a line is
    logged. *)
Definition fd_parameter (fraction baseline : float) (id : Z)
    (s : Model) (coefficient : float) (s' : Model) : Prop :=
  exists info value s1 plus s2 s3 s4 minus s5 s6,
    py_getitem (model_parameter_info s) id = Ok info /\
    get_parameter id s = (s, Ok value) /\
    perturb_parameter id (value * (1 + fraction))%float s = (s1, Ok tt) /\
    self_evaluate s1 = (s2, Ok plus) /\
    perturb_parameter id (value * (1 / (1 + fraction)))%float s2
    = (s3, Ok tt) /\
    self_load_restart s3 = (s4, Ok tt) /\
    self_evaluate s4 = (s5, Ok minus) /\
    perturb_parameter id value s5 = (s6, Ok tt) /\
    coefficient = ((plus - minus) / (2 * fraction * baseline))%float /\
    logfile_write (LogRowFD id plus minus coefficient (parameter_name info)) s6
    = (s', Ok tt).

(** The parameters one after the other, each from the state the one before
    left, with the coefficients in the order of the parameters. *)
Inductive fd_run (fraction baseline : float)
  : list Z -> Model -> list float -> Model -> Prop :=
| fd_run_nil s : fd_run fraction baseline [] s [] s
| fd_run_cons id ids s c s1 cs s2 :
    fd_parameter fraction baseline id s c s1 ->
    fd_run fraction baseline ids s1 cs s2 ->
    fd_run fraction baseline (id :: ids) s (c :: cs) s2.

End FiniteDifferenceSteps.

(** A method that leaves [_sens_flag] as it found it, whether it returns
    or raises. *)
Definition keeps_flag {A} (m : M A) : Prop :=
  forall s, _sens_flag (fst (m s)) = _sens_flag s.

(** A run of the adjoint solver on the model: the callbacks it makes, each
    with its index and step, and the states between them. *)
Inductive adjoint_trace (parameter_list : list Z)
  : adjoint_run -> Model -> list (Z * float) -> list float -> Model -> Prop :=
| adjoint_trace_return sens s :
    adjoint_trace parameter_list (AdjReturn sens) s [] sens s
| adjoint_trace_perturb i dp k s s1 steps sens s2 :
    perturb parameter_list i dp (fst (record (CAdjointPerturb i dp) s))
    = (s1, Ok tt) ->
    adjoint_trace parameter_list (k (history s1)) s1 steps sens s2 ->
    adjoint_trace parameter_list (AdjPerturb i dp k) s
                  ((i, dp) :: steps) sens s2.

(** ** Further vocabulary *)

(** The six catalog types that name a coefficient of a rate law. *)
Definition rate_types : list string :=
  ["A_factor"; "Energy"; "High_pressure_A"; "High_pressure_E";
   "Low_pressure_A"; "Low_pressure_E"].

(** A mechanism with a three-body reaction: its catalog has an Efficiency
    entry next to the Energy entry of the same reaction. *)
Module MoreExamples.

Definition r_three_body : Reaction :=
  {| reaction_type := 2; equation := "H + O2 + M <=> HO2 + M";
     rate := Examples.k 7 (-1) 4; high_rate := Examples.k 0 0 0;
     low_rate := Examples.k 0 0 0;
     efficiencies := [("H2O", 12%float); ("AR", 0%float); ("H2", 2.5%float)];
     default_efficiency := 1 |}.

Definition mechanism : list Reaction :=
  [Examples.r_elementary; r_three_body; Examples.r_falloff].

Definition ct : Cantera :=
  {| ct_Solution := fun _ => mechanism;
     ct_FreeFlame := Examples.new_flame;
     solve_raises := fun _ => false;
     restore_raises := fun _ => false;
     save_raises := fun _ => false;
     flame_u0 := Examples.u0_of;
     flame_Nvars := fun _ => 120;
     flame_i_Su := fun _ => 9;
     solve_adjoint := Examples.adjoint_once |}.

(** A Cantera whose restart file cannot be written. *)
Definition ct_no_save : Cantera :=
  {| ct_Solution := fun _ => mechanism;
     ct_FreeFlame := Examples.new_flame;
     solve_raises := fun _ => false;
     restore_raises := fun _ => false;
     save_raises := fun _ => true;
     flame_u0 := Examples.u0_of;
     flame_Nvars := fun _ => 120;
     flame_i_Su := fun _ => 9;
     solve_adjoint := Examples.adjoint_once |}.

(** [FlameSpeed(..., no_efficiencies=False, no_energy=False,
    no_falloff=False)] as built, and with its chemistry initialized. *)
Definition model_built : Model :=
  fst (init ct Examples.initial_state "mech.cti" 1 10 2 "soln"
         false false false).

Definition model_live : Model :=
  fst (initialize_chemistry ct model_built).

End MoreExamples.

(** The coefficient of a reaction that a catalog type names. *)
Definition coefficient (ty : string) (r : Reaction) : option float :=
  if (ty =? "A_factor")%string then Some (pre_exponential_factor (rate r))
  else if (ty =? "Energy")%string then Some (activation_energy (rate r))
  else if (ty =? "High_pressure_A")%string
  then Some (pre_exponential_factor (high_rate r))
  else if (ty =? "High_pressure_E")%string
  then Some (activation_energy (high_rate r))
  else if (ty =? "Low_pressure_A")%string
  then Some (pre_exponential_factor (low_rate r))
  else if (ty =? "Low_pressure_E")%string
  then Some (activation_energy (low_rate r))
  else None.

(** A reaction with a high-pressure and a low-pressure rate law. *)
Definition has_falloff (r : Reaction) : bool :=
  (reaction_type r =? 4) || (reaction_type r =? 8).

(** The gas [evaluate] works on: the gas of the model or, on a model
    without gas, the mechanism as Cantera loads it, at the unburned
    state. *)
Definition gas_at_evaluate (ct : Cantera) (s : Model) : Solution :=
  match gas s with
  | Some g => g
  | None => {| reactions := ct_Solution ct (chemistry_model s);
               TPX := Some (T (initial s), P (initial s),
                            composition (initial s)) |}
  end.

(** The row [print_sens] prints for the id [i]: the id, item [i] of the
    vector and the equation of reaction [i] of the gas. *)
Definition sens_row (format_row : Z -> float -> string -> string)
    (sensitivity_vector : list float) (g : Solution) (i : Z) : string :=
  format_row i (default 0%float (sensitivity_vector !! Z.to_nat i))
             (reaction_name g (Z.to_nat i)).

(** The rows of the adjoint log in a history, and the calls of a history
    that write to the log file. *)
Definition logged_rows (h : list call) : list (Z * float) :=
  omap (fun c => match c with
                 | CWrite (LogRowAdjoint id x _) => Some (id, x)
                 | _ => None
                 end) h.

Definition is_write (c : call) : bool :=
  match c with CWrite _ => true | _ => false end.

(** * Properties *)

(** ** The monad *)

Lemma bind_Ok {A B} (m : M A) (k : A -> M B) s s' a :
  m s = (s', Ok a) -> bind m k s = k a s'.
Proof. intros H. unfold bind. now rewrite H. Qed.

Lemma bind_Raise {A B} (m : M A) (k : A -> M B) s s' e :
  m s = (s', Raise e) -> bind m k s = (s', Raise e).
Proof. intros H. unfold bind. now rewrite H. Qed.

(** A bind that returns normally has run both of its parts. *)
Lemma bind_inv_Ok {A B} (m : M A) (k : A -> M B) s s' b :
  bind m k s = (s', Ok b) ->
  exists s1 a, m s = (s1, Ok a) /\ k a s1 = (s', Ok b).
Proof.
  unfold bind. destruct (m s) as [s1 [a|e]]; intros H.
  - eauto.
  - discriminate.
Qed.

(** A bind that raises has raised in its first part or in its second. *)
Lemma bind_inv_Raise {A B} (m : M A) (k : A -> M B) s s' e :
  bind m k s = (s', Raise e) ->
  m s = (s', Raise e) \/
  exists s1 a, m s = (s1, Ok a) /\ k a s1 = (s', Raise e).
Proof.
  unfold bind. destruct (m s) as [s1 [a|e1]]; intros H.
  - right. eauto.
  - left. now inversion H.
Qed.

(** ** Parameter accessors *)

Lemma perturb_parameter_run s id v info g r r' :
  py_getitem (model_parameter_info s) id = Ok info ->
  gas s = Some g ->
  reactions g !! reaction_number info = Some r ->
  perturb_reaction (no_falloff s) (parameter_type info) v r = Ok r' ->
  perturb_parameter id v s = (perturbed (reaction_number info) r' g s, Ok tt).
Proof.
  intros Hi Hg Hr Hp.
  unfold perturb_parameter, bind, self_gas, lift, gets, gas_reaction,
    gas_modify_reaction, bind, self_gas, record, modify.
  rewrite Hi, Hg, Hr, Hp. cbn. rewrite Hg. reflexivity.
Qed.

Lemma perturb_parameter_raises s id v info g r e :
  py_getitem (model_parameter_info s) id = Ok info ->
  gas s = Some g ->
  reactions g !! reaction_number info = Some r ->
  perturb_reaction (no_falloff s) (parameter_type info) v r = Raise e ->
  perturb_parameter id v s = (s, Raise e).
Proof.
  intros Hi Hg Hr Hp.
  unfold perturb_parameter, bind, self_gas, lift, gets, gas_reaction.
  now rewrite Hi, Hg, Hr, Hp.
Qed.

Lemma get_parameter_run s id info g r :
  py_getitem (model_parameter_info s) id = Ok info ->
  gas s = Some g ->
  reactions g !! reaction_number info = Some r ->
  get_parameter id s = (s, read_parameter (parameter_type info) r).
Proof.
  intros Hi Hg Hr.
  unfold get_parameter, bind, self_gas, lift, gas_reaction.
  now rewrite Hi, Hg, Hr.
Qed.

(** [get_parameter] writes nothing. *)
Lemma get_parameter_pure id s : fst (get_parameter id s) = s.
Proof.
  unfold get_parameter, bind, self_gas, lift.
  destruct (py_getitem _ _); [|reflexivity].
  destruct (gas s); [|reflexivity].
  destruct (gas_reaction _ _); reflexivity.
Qed.

(** [perturb_parameter] writes the mechanism and the history only. *)
Lemma perturb_parameter_frame id v s :
  let s' := fst (perturb_parameter id v s) in
  _sens_flag s' = _sens_flag s /\
  model_parameter_info s' = model_parameter_info s /\
  chemistry_model s' = chemistry_model s /\
  initial s' = initial s /\
  no_falloff s' = no_falloff s /\
  _restart s' = _restart s.
Proof.
  unfold perturb_parameter, bind, self_gas, lift, gets, gas_modify_reaction,
    bind, self_gas, record, modify.
  destruct (py_getitem _ _); [|cbn; tauto].
  destruct (gas s) eqn:Hg; [|cbn; tauto].
  destruct (gas_reaction _ _); [|cbn; tauto].
  destruct (perturb_reaction _ _ _ _); [|cbn; tauto].
  rewrite Hg. cbn. tauto.
Qed.

(** What the three falloff branches of [perturb_reaction] compute. *)
Lemma perturb_reaction_Low_pressure_E nf v r :
  perturb_reaction nf "Low_pressure_E" v r =
  Ok (set_low_rate
        (ct_Arrhenius (pre_exponential_factor (low_rate r))
                      (temperature_exponent (low_rate r)) v) r).
Proof. destruct nf; reflexivity. Qed.

Lemma perturb_reaction_High_pressure_E nf v r :
  perturb_reaction nf "High_pressure_E" v r =
  let r1 := set_high_rate
              (ct_Arrhenius (pre_exponential_factor (high_rate r))
                            (temperature_exponent (high_rate r)) v) r in
  Ok (if nf
      then set_low_rate
             (ct_Arrhenius (pre_exponential_factor (low_rate r))
                           (temperature_exponent (low_rate r)) v) r1
      else r1).
Proof. destruct nf; reflexivity. Qed.

Lemma perturb_reaction_High_pressure_A nf v r :
  perturb_reaction nf "High_pressure_A" v r =
  if (v =? 0)%float then Raise ZeroDivisionError
  else
    let r1 := set_high_rate
                (ct_Arrhenius v (temperature_exponent (high_rate r))
                              (activation_energy (high_rate r))) r in
    Ok (if nf
        then set_low_rate
               (ct_Arrhenius (v / v * pre_exponential_factor (low_rate r))
                             (temperature_exponent (low_rate r))
                             (activation_energy (low_rate r))) r1
        else r1).
Proof.
  unfold perturb_reaction, py_truediv. cbn.
  destruct (v =? 0)%float; destruct nf; reflexivity.
Qed.

(** C1 (code defect).  Writing a High-pressure-A with [no_falloff] set is
    meant to scale the Low-pressure-A by new/old.  Line 262 overwrites [A]
    with the new value before line 263 divides by it, so the ratio is
    [v / v]: on the sample falloff reaction (high A 2, low A 3), writing 4
    leaves the low A at 3, where new/old times the low A is 6. *)
Theorem high_pressure_A_ratio_taken_after_overwrite :
  (forall v r,
     perturb_reaction true "High_pressure_A" v r =
     if (v =? 0)%float then Raise ZeroDivisionError
     else Ok (set_low_rate
                (ct_Arrhenius (v / v * pre_exponential_factor (low_rate r))
                              (temperature_exponent (low_rate r))
                              (activation_energy (low_rate r)))
                (set_high_rate
                   (ct_Arrhenius v (temperature_exponent (high_rate r))
                                 (activation_energy (high_rate r))) r))) /\
  (let s := Examples.model_live Examples.ct_ok in
   exists s' g' r',
     no_falloff s = true /\
     (parameter_type <$> model_parameter_info s !! 1%nat) = Some "High_pressure_A" /\
     (gas s ≫= fun g => reactions g !! 1%nat) = Some Examples.r_falloff /\
     read_parameter "High_pressure_A" Examples.r_falloff = Ok 2%float /\
     read_parameter "Low_pressure_A" Examples.r_falloff = Ok 3%float /\
     perturb_parameter 1 4 s = (s', Ok tt) /\
     gas s' = Some g' /\ reactions g' !! 1%nat = Some r' /\
     read_parameter "High_pressure_A" r' = Ok 4%float /\
     read_parameter "Low_pressure_A" r' = Ok 3%float /\
     (4 / 2 * 3)%float = 6%float /\
     (3 =? 6)%float = false).
Proof.
  split.
  - intros v r. rewrite perturb_reaction_High_pressure_A.
    destruct (v =? 0)%float; reflexivity.
  - cbv zeta.
    eexists _, _, _.
    repeat match goal with |- _ /\ _ => split end;
      try (vm_compute; reflexivity).
Qed.

(** The entry of a mechanism that [perturb_parameter] has replaced reads
    back as the replacement. *)
Lemma perturbed_reaction n r r' g s :
  reactions g !! n = Some r ->
  (gas (perturbed n r' g s) ≫= fun g' => reactions g' !! n) = Some r'.
Proof.
  intros Hr. cbn. apply list_lookup_insert_eq.
  now apply lookup_lt_Some in Hr.
Qed.

(** ** The parameter catalog *)

(** The loop over the efficiencies appends one entry per key of positive
    efficiency, in the order of the keys. *)
Lemma efficiency_entries_spec name n r info :
  efficiency_entries name n r info =
  (info ++ map (fun sp => mk_efficiency n sp (name ++ ":Eff:" ++ sp))
             (filter (fun sp => (0 <? efficiency r sp)%float = true)
                     (map fst (efficiencies r))))%list.
Proof.
  unfold efficiency_entries.
  generalize (map fst (efficiencies r)) as keys. intros keys.
  revert info. induction keys as [|sp keys IH]; intros info.
  - cbn. now rewrite app_nil_r.
  - cbn [fold_left]. rewrite IH, filter_cons.
    destruct (decide ((0 <? efficiency r sp)%float = true)) as [Hpos|Hneg].
    + rewrite Hpos. cbn [map]. now rewrite <- app_assoc.
    + destruct (0 <? efficiency r sp)%float; [congruence|reflexivity].
Qed.

Lemma rate_entries_no_efficiency name n r :
  filter (fun p => is_efficiency p = true) (rate_entries name n r) = [].
Proof.
  unfold rate_entries.
  destruct (_ || _); repeat destruct (energy_is_active _); reflexivity.
Qed.

(** [reaction_info_of] by reaction type: the efficiency loop runs for the
    types 2 and 4 only. *)
Lemma reaction_info_of_spec name n r :
  reaction_info_of name n r =
  if (reaction_type r =? 4) || (reaction_type r =? 2)
  then efficiency_entries name n r (rate_entries name n r)
  else rate_entries name n r.
Proof.
  unfold reaction_info_of, rate_entries.
  destruct (reaction_type r =? 4) eqn:H4;
    destruct (reaction_type r =? 8) eqn:H8;
    destruct (reaction_type r =? 2) eqn:H2;
    repeat destruct (energy_is_active _); reflexivity.
Qed.

(** For the types 2 and 4 the Efficiency entries are one per species of
    positive efficiency. *)
Lemma efficiency_entries_of_types_2_and_4 name n r :
  reaction_type r = 2 \/ reaction_type r = 4 ->
  filter (fun p => is_efficiency p = true) (reaction_info_of name n r) =
  map (fun sp => mk_efficiency n sp (name ++ ":Eff:" ++ sp))
      (filter (fun sp => (0 <? efficiency r sp)%float = true)
              (map fst (efficiencies r))).
Proof.
  intros Hty. rewrite reaction_info_of_spec.
  replace ((reaction_type r =? 4) || (reaction_type r =? 2)) with true
    by (destruct Hty as [-> | ->]; reflexivity).
  rewrite efficiency_entries_spec, filter_app, rate_entries_no_efficiency.
  rewrite app_nil_l.
  induction (filter _ (map fst (efficiencies r))) as [|sp l IH];
    [reflexivity|].
  cbn [map]. rewrite filter_cons.
  destruct (decide _) as [_|Hn]; [now rewrite IH|].
  exfalso. apply Hn. reflexivity.
Qed.

(** C5 (code defect).  A reaction of type 8 has third-body efficiencies,
    but line 380 assigns [HasThirdbody] instead of [HasThirdBody]: the
    efficiency loop does not run and the reaction contributes no
    Efficiency entry, whatever its efficiencies are. *)
Theorem type_8_reaction_contributes_no_efficiency_entry name n r :
  reaction_type r = 8 ->
  filter (fun p => is_efficiency p = true) (reaction_info_of name n r) = [].
Proof.
  intros Hty. rewrite reaction_info_of_spec, Hty. cbn.
  apply rate_entries_no_efficiency.
Qed.

Lemma type_8_reaction_contributes_no_efficiency_entry_witness :
  efficiencies Examples.r_activated = [("H2O", 6%float)] /\
  (0 <? efficiency Examples.r_activated "H2O")%float = true /\
  filter (fun p => is_efficiency p = true)
         (reaction_info_of (equation Examples.r_activated) 2
                           Examples.r_activated) = [].
Proof.
  split; [reflexivity|]. split; [reflexivity|].
  apply (type_8_reaction_contributes_no_efficiency_entry
           (equation Examples.r_activated) 2 Examples.r_activated).
  reflexivity.
Defined.

Lemma all_reaction_info_run rs : forall n acc s g,
  gas s = Some g ->
  (n + length rs <= length (reactions g))%nat ->
  all_reaction_info n rs acc s = (s, Ok (acc ++ full_catalog g n rs)%list).
Proof.
  induction rs as [|r rs IH]; intros n acc s g Hg Hlen.
  - cbn. now rewrite app_nil_r.
  - cbn [all_reaction_info full_catalog length] in *.
    assert (Hn : (n < length (reactions g))%nat) by lia.
    destruct (lookup_lt_is_Some_2 _ _ Hn) as [rn Hrn].
    unfold bind at 1.
    replace (get_reaction_info n r s)
      with (s, Ok (reaction_info_of (reaction_name g n) n r)).
    + rewrite (IH (S n) _ s g Hg) by lia. now rewrite app_assoc.
    + unfold get_reaction_info, bind, self_gas, lift, gas_reaction,
        reaction_name, ret.
      now rewrite Hg, Hrn.
Qed.

(** The second loop of [get_model_parameter_info] is a filter. *)
Lemma include_loop_is_filter (f : param_info -> bool) (l : list param_info) :
  forall acc,
  fold_left (fun acc p => if f p then (acc ++ [p])%list else acc) l acc =
  (acc ++ filter (fun p => f p = true) l)%list.
Proof.
  induction l as [|p l IH]; intros acc; cbn [fold_left].
  - now rewrite app_nil_r.
  - rewrite IH, filter_cons.
    destruct (f p); cbn.
    + now rewrite <- app_assoc.
    + reflexivity.
Qed.

Lemma get_model_parameter_info_run ct e n f s g :
  gas s = Some g ->
  (length (ct_Solution ct (chemistry_model s)) <= length (reactions g))%nat ->
  get_model_parameter_info ct e n f s =
  (s, Ok (filter (fun p => include_this_parameter e n f p = true)
                 (full_catalog g 0 (ct_Solution ct (chemistry_model s))))).
Proof.
  intros Hg Hlen.
  unfold get_model_parameter_info, bind, gets. cbn [reactions].
  rewrite (all_reaction_info_run _ 0%nat [] s g Hg) by (cbn; lia).
  unfold ret. now rewrite include_loop_is_filter.
Qed.

(** With the three flags set, one entry of each reaction passes the
    filter. *)
Lemma filter_reaction_info_all_flags name n r :
  filter (fun p => include_this_parameter true true true p = true)
         (reaction_info_of name n r) = [primary_entry name n r].
Proof.
  rewrite reaction_info_of_spec.
  assert (Hrate : filter (fun p => include_this_parameter true true true p = true)
                         (rate_entries name n r) = [primary_entry name n r]).
  { unfold rate_entries, primary_entry.
    destruct (_ || _); repeat destruct (energy_is_active _); reflexivity. }
  destruct (_ || _); [|exact Hrate].
  rewrite efficiency_entries_spec, filter_app, Hrate.
  induction (filter _ (map fst (efficiencies r))) as [|sp l IH];
    [reflexivity|].
  cbn [map]. rewrite filter_cons.
  destruct (decide _) as [Hin|_]; [discriminate Hin|exact IH].
Qed.

Lemma filter_reaction_info_primary name n r :
  filter (fun p => is_primary p = true) (reaction_info_of name n r)
  = [primary_entry name n r].
Proof.
  rewrite reaction_info_of_spec.
  assert (Hrate : filter (fun p => is_primary p = true)
                         (rate_entries name n r) = [primary_entry name n r]).
  { unfold rate_entries, primary_entry.
    destruct (_ || _); repeat destruct (energy_is_active _); reflexivity. }
  destruct (_ || _); [|exact Hrate].
  rewrite efficiency_entries_spec, filter_app, Hrate.
  induction (filter _ (map fst (efficiencies r))) as [|sp l IH];
    [reflexivity|].
  cbn [map]. rewrite filter_cons.
  destruct (decide _) as [Hin|_]; [discriminate Hin|exact IH].
Qed.

Lemma filter_full_catalog_all_flags g rs : forall n,
  filter (fun p => include_this_parameter true true true p = true)
         (full_catalog g n rs) = primary_catalog g n rs /\
  filter (fun p => is_primary p = true) (full_catalog g n rs)
  = primary_catalog g n rs.
Proof.
  induction rs as [|r rs IH]; intros n; [split; reflexivity|].
  cbn [full_catalog primary_catalog].
  rewrite !filter_app, filter_reaction_info_all_flags,
    filter_reaction_info_primary.
  destruct (IH (S n)) as [-> ->]. split; reflexivity.
Qed.

Lemma filter_no_flags (l : list param_info) :
  filter (fun p => include_this_parameter false false false p = true) l = l.
Proof.
  induction l as [|p l IH]; [reflexivity|].
  rewrite filter_cons.
  destruct (decide _) as [_|Hn]; [now rewrite IH|].
  exfalso. apply Hn. reflexivity.
Qed.

(** A catalog filtered with [no_falloff] set holds no High-pressure-E,
    Low-pressure-A or Low-pressure-E entry: the catalog that
    [prepare_chemistry] stores next to a set [no_falloff] flag never names
    an activation energy of a falloff reaction. *)
Lemma catalog_under_no_falloff e n (l : list param_info) p :
  p ∈ filter (fun p => include_this_parameter e n true p = true) l ->
  parameter_type p <> "High_pressure_E" /\
  parameter_type p <> "Low_pressure_A" /\
  parameter_type p <> "Low_pressure_E".
Proof.
  intros Hp. apply list_elem_of_filter in Hp as [Hp _].
  unfold include_this_parameter in Hp.
  repeat split; intros Hty; rewrite Hty in Hp;
    destruct e, n; discriminate Hp.
Qed.

Lemma primary_catalog_length g rs : forall n,
  length (primary_catalog g n rs) = length rs.
Proof. induction rs as [|r rs IH]; intros n; cbn; [|rewrite IH]; reflexivity. Qed.

(** C6.  On a model whose chemistry is initialized, the catalog built with
    the three flags set is the unfiltered catalog restricted to its
    A-factor and High-pressure-A entries; it is no longer than the
    unfiltered catalog, and it lists, reaction by reaction, the A-factor of
    a reaction without falloff and the High-pressure-A of a reaction with
    falloff, and nothing else. *)
Theorem catalog_with_all_flags ct s g :
  gas s = Some g ->
  (length (ct_Solution ct (chemistry_model s)) <= length (reactions g))%nat ->
  exists full filtered,
    get_model_parameter_info ct false false false s = (s, Ok full) /\
    get_model_parameter_info ct true true true s = (s, Ok filtered) /\
    (length filtered <= length full)%nat /\
    filtered = filter (fun p => is_primary p = true) full /\
    filtered = primary_catalog g 0 (ct_Solution ct (chemistry_model s)) /\
    Forall (fun p => parameter_type p = "A_factor" \/
                     parameter_type p = "High_pressure_A") filtered.
Proof.
  intros Hg Hlen.
  exists (full_catalog g 0 (ct_Solution ct (chemistry_model s))),
         (primary_catalog g 0 (ct_Solution ct (chemistry_model s))).
  destruct (filter_full_catalog_all_flags g
              (ct_Solution ct (chemistry_model s)) 0) as [Hall Hprim].
  split; [|split; [|split; [|split; [|split]]]].
  - rewrite (get_model_parameter_info_run ct _ _ _ s g Hg Hlen).
    now rewrite filter_no_flags.
  - rewrite (get_model_parameter_info_run ct _ _ _ s g Hg Hlen).
    now rewrite Hall.
  - rewrite <- Hprim. apply length_filter.
  - now rewrite Hprim.
  - reflexivity.
  - rewrite <- Hprim. apply Forall_forall. intros p Hp.
    apply list_elem_of_filter in Hp as [Hp _].
    unfold is_primary in Hp. apply orb_true_iff in Hp.
    destruct Hp as [Hp|Hp]; apply String.eqb_eq in Hp; tauto.
Qed.

Lemma catalog_with_all_flags_witness :
  let s := Examples.model_full Examples.ct_ok in
  exists full filtered,
    get_model_parameter_info Examples.ct_ok false false false s = (s, Ok full) /\
    get_model_parameter_info Examples.ct_ok true true true s = (s, Ok filtered) /\
    length full = 10%nat /\ length filtered = 3%nat.
Proof.
  cbv zeta.
  destruct (catalog_with_all_flags Examples.ct_ok
              (Examples.model_full Examples.ct_ok)
              {| reactions := Examples.mechanism;
                 TPX := Some (300, 101325, "CH4:1, O2:2, N2:7.52")%float |})
    as (full & filtered & Hfull & Hfiltered & _).
  - reflexivity.
  - cbn. lia.
  - exists full, filtered.
    split; [exact Hfull|]. split; [exact Hfiltered|].
    split.
    + assert (H : snd (get_model_parameter_info Examples.ct_ok false false false
                         (Examples.model_full Examples.ct_ok)) = Ok full)
        by now rewrite Hfull.
      vm_compute in H. inversion H. reflexivity.
    + assert (H : snd (get_model_parameter_info Examples.ct_ok true true true
                         (Examples.model_full Examples.ct_ok)) = Ok filtered)
        by now rewrite Hfiltered.
      vm_compute in H. inversion H. reflexivity.
Defined.

(** ** The chemistry life cycle *)

Lemma perturb_all_frame ps : forall s,
  model_parameter_info (perturb_all ps s) = model_parameter_info s /\
  chemistry_model (perturb_all ps s) = chemistry_model s /\
  initial (perturb_all ps s) = initial s.
Proof.
  induction ps as [|[id v] ps IH]; intros s; cbn [perturb_all]; [tauto|].
  destruct (IH (fst (perturb_parameter id v s))) as (-> & -> & ->).
  destruct (perturb_parameter_frame id v s) as (_ & -> & -> & -> & _).
  tauto.
Qed.

(** What [reset_model] leaves: a mechanism read anew from the mechanism
    file, in the initial state, and no reactor or simulation. *)
Lemma reset_model_run ct s :
  reset_model ct s =
  (set_gas (Some {| reactions := ct_Solution ct (chemistry_model s);
                    TPX := Some (T (initial s), P (initial s),
                                 composition (initial s)) |})
           (set_simulation None (set_reactor None (set_gas None s))),
   Ok tt).
Proof. reflexivity. Qed.

(** [get_parameter] reads the catalog and the mechanism only. *)
Lemma get_parameter_ext id s s' :
  model_parameter_info s = model_parameter_info s' ->
  gas s = gas s' ->
  snd (get_parameter id s) = snd (get_parameter id s').
Proof.
  intros Hi Hg.
  unfold get_parameter, bind, self_gas, lift.
  rewrite Hi, Hg.
  destruct (py_getitem _ _); [|reflexivity].
  destruct (gas s'); [|reflexivity].
  destruct (gas_reaction _ _); reflexivity.
Qed.

(** A perturbation is visible before the reset and gone after it. *)
Example reset_model_discards_a_perturbation :
  let fresh := Examples.model_live Examples.ct_ok in
  let used := perturb_all [(0, 5%float)] fresh in
  snd (get_parameter 0 fresh) = Ok 2%float /\
  snd (get_parameter 0 used) = Ok 5%float /\
  snd (get_parameter 0 (fst (reset_model Examples.ct_ok used))) = Ok 2%float.
Proof. repeat split; vm_compute; reflexivity. Qed.

(** ** The staged flame solve *)

Lemma flame_state_eq s sim :
  simulation s = Some sim ->
  s = flame_state sim (history s) (stdout s) s.
Proof. destruct s. cbn. intros ->. reflexivity. Qed.

Lemma sim_set_flame f sim h out s :
  sim_set f (flame_state sim h out s) = (flame_state (f sim) h out s, Ok tt).
Proof. reflexivity. Qed.

Lemma print_flame line sim h out s :
  print line (flame_state sim h out s)
  = (flame_state sim h (out ++ [line]) s, Ok tt).
Proof. reflexivity. Qed.

Lemma self_simulation_flame sim h out s :
  self_simulation (flame_state sim h out s) = (flame_state sim h out s, Ok sim).
Proof. reflexivity. Qed.

Lemma simulation_solve_flame ct l r sim h out s :
  simulation_solve ct l r (flame_state sim h out s) =
  (flame_state sim (h ++ [CSolve sim l r]) out s,
   if solve_raises ct (h ++ [CSolve sim l r]) then Raise CanteraError
   else Ok tt).
Proof.
  unfold simulation_solve, bind, self_simulation, record, modify, gets, raise, ret.
  cbn. destruct (solve_raises ct _); reflexivity.
Qed.

Lemma simulation_restore_flame ct f n l sim h out s :
  simulation_restore ct f n l (flame_state sim h out s) =
  (flame_state sim (h ++ [CRestore f n l]) out s,
   if restore_raises ct (h ++ [CRestore f n l]) then Raise CanteraError
   else Ok tt).
Proof.
  unfold simulation_restore, bind, self_simulation, record, modify, gets, raise, ret.
  cbn. destruct (restore_raises ct _); reflexivity.
Qed.

Lemma simulation_u0_flame ct sim h out s :
  simulation_u0 ct (flame_state sim h out s)
  = (flame_state sim h out s, Ok (flame_u0 ct h)).
Proof. reflexivity. Qed.

(** A stage with a second attempt, lines 105-113 and 119-126. *)
Lemma attempt_twice_run ct l r sim h out s :
  try_except (simulation_solve ct l r)
    (print "As predicted, first attempt failed, trying one more time" ;;;
     try_except (simulation_solve ct l r)
       (print "Could not find a solution"))
    (flame_state sim h out s) =
  (flame_state sim (h ++ fst (attempt_twice ct h (CSolve sim l r)))
               (out ++ snd (attempt_twice ct h (CSolve sim l r))) s,
   Ok tt).
Proof.
  unfold try_except at 1, attempt_twice.
  rewrite simulation_solve_flame.
  destruct (solve_raises ct (h ++ [CSolve sim l r])).
  - erewrite bind_Ok by apply print_flame.
    unfold try_except. rewrite simulation_solve_flame.
    destruct (solve_raises ct _); cbn [fst snd].
    + rewrite print_flame. now rewrite <- !app_assoc.
    + now rewrite <- !app_assoc.
  - cbn [fst snd]. now rewrite app_nil_r.
Qed.

(** A stage with one attempt, lines 134-137 and 157-160. *)
Lemma attempt_once_run ct l r sim h out s :
  try_except (simulation_solve ct l r) (print "Could not find a solution")
    (flame_state sim h out s) =
  (flame_state sim (h ++ fst (attempt_once ct h (CSolve sim l r)))
               (out ++ snd (attempt_once ct h (CSolve sim l r))) s,
   Ok tt).
Proof.
  unfold try_except, attempt_once. rewrite simulation_solve_flame.
  cbn [fst snd].
  destruct (solve_raises ct _).
  - now rewrite print_flame.
  - now rewrite app_nil_r.
Qed.

Ltac flame_step :=
  erewrite bind_Ok by
    first [ apply sim_set_flame | apply print_flame
          | apply self_simulation_flame | apply attempt_twice_run
          | apply attempt_once_run | apply simulation_u0_flame
          | reflexivity ];
  cbv beta.

Lemma evaluate_from_scratch_run ct sim h out s :
  let tr := from_scratch_trace ct h sim (loglevel s) in
  evaluate_from_scratch ct (flame_state sim h out s) =
  (flame_state (stage3_settings sim) (h ++ fst tr) (out ++ snd tr) s, Ok tt).
Proof.
  cbv zeta. unfold evaluate_from_scratch.
  erewrite bind_Ok by (unfold gets; reflexivity).
  cbv beta.
  change (loglevel (flame_state sim h out s)) with (loglevel s).
  do 5 flame_step.
  fold (stage1_settings sim).
  change (energy_enabled (stage1_settings sim)) with false.
  change (transport_model (stage1_settings sim)) with "Mix".
  do 7 flame_step.
  fold (stage2_settings sim).
  do 5 flame_step.
  fold (stage3_settings sim).
  rewrite attempt_once_run.
  unfold from_scratch_trace. cbn [fst snd py_str_bool].
  f_equal. f_equal; rewrite <- ?app_assoc; reflexivity.
Qed.

Lemma evaluate_in_sensitivity_run ct sim h out s :
  let c := CSolve (sensitivity_settings sim) 0 false in
  evaluate_in_sensitivity ct (flame_state sim h out s) =
  (flame_state (sensitivity_settings sim) (h ++ [c]) out s,
   if solve_raises ct (h ++ [c]) then Raise CanteraError else Ok tt).
Proof.
  cbv zeta. unfold evaluate_in_sensitivity.
  do 3 flame_step.
  fold (sensitivity_settings sim).
  apply simulation_solve_flame.
Qed.

Lemma evaluate_from_restart_run ct sim h out s :
  let r := CRestore (savefile s) "restart" None in
  let a := attempt_once ct (h ++ [r])
             (CSolve (restart_settings sim) (loglevel s) false) in
  evaluate_from_restart ct (flame_state sim h out s) =
  if restore_raises ct (h ++ [r])
  then (flame_state sim (h ++ [r]) out s, Raise CanteraError)
  else (flame_state (restart_settings sim) ((h ++ [r]) ++ fst a)
                    (out ++ snd a) s, Ok tt).
Proof.
  cbv zeta. unfold evaluate_from_restart.
  erewrite bind_Ok by (unfold gets; reflexivity). cbv beta.
  erewrite bind_Ok by (unfold gets; reflexivity). cbv beta.
  change (loglevel (flame_state sim h out s)) with (loglevel s).
  change (savefile (flame_state sim h out s)) with (savefile s).
  destruct (restore_raises ct (h ++ [CRestore (savefile s) "restart" None]))
    eqn:Hr.
  - erewrite bind_Raise; [reflexivity|].
    rewrite simulation_restore_flame, Hr. reflexivity.
  - erewrite bind_Ok
      by (rewrite simulation_restore_flame, Hr; reflexivity).
    cbv beta.
    do 4 flame_step.
    fold (sensitivity_settings sim). fold (restart_settings sim).
    apply attempt_once_run.
Qed.

(** [evaluate_prepare] always returns, leaves a flame in place and writes
    neither the history nor the output. *)
Lemma evaluate_prepare_run ct s :
  exists sim sp,
    evaluate_prepare ct s = (sp, Ok tt) /\
    simulation sp = Some sim /\
    (forall sim0, simulation s = Some sim0 -> sim = sim0) /\
    history sp = history s /\ stdout sp = stdout s /\
    loglevel sp = loglevel s /\ savefile sp = savefile s /\
    _restart sp = _restart s /\ _sens_flag sp = _sens_flag s /\
    model_parameter_info sp = model_parameter_info s.
Proof.
  unfold evaluate_prepare, bind, gets, initialize_chemistry, initialize_reactor,
    bind, gets, self_gas, modify, sim_set, bind, self_simulation, modify, ret.
  destruct (gas s) as [g|] eqn:Hg; destruct (simulation s) as [sim0|] eqn:Hs;
    cbn; rewrite ?Hg, ?Hs; cbn; rewrite ?Hs; cbn;
    eexists _, _; (split; [reflexivity|]); cbn;
    (split; [first [exact Hs | reflexivity]|]);
    (split; [intros sim1 H1; congruence|]);
    repeat split; reflexivity.
Qed.

(** The three paths of [evaluate], selected by [_restart] and
    [_sens_flag]. *)
Lemma evaluate_path_from_scratch ct s :
  _restart s = None -> _sens_flag s = false ->
  exists sim sp,
    evaluate_prepare ct s = (sp, Ok tt) /\ simulation sp = Some sim /\
    let tr := from_scratch_trace ct (history s) sim (loglevel s) in
    evaluate ct s =
    (flame_state (stage3_settings sim) (history s ++ fst tr)
                 (stdout s ++ snd tr) sp,
     Ok (cm_per_s (flame_u0 ct (history s ++ fst tr)))).
Proof.
  intros Hre Hse.
  destruct (evaluate_prepare_run ct s)
    as (sim & sp & Hp & Hsim & _ & Hh & Ho & Hl & _ & Hr & Hf & _).
  exists sim, sp. split; [exact Hp|]. split; [exact Hsim|]. cbv zeta.
  unfold evaluate.
  erewrite bind_Ok by exact Hp. cbv beta.
  erewrite bind_Ok by (unfold gets; reflexivity). cbv beta.
  erewrite bind_Ok by (unfold gets; reflexivity). cbv beta.
  rewrite Hr, Hf, Hre, Hse. cbn [negb andb].
  rewrite (flame_state_eq sp sim Hsim) at 1.
  erewrite bind_Ok by apply evaluate_from_scratch_run. cbv beta.
  erewrite bind_Ok by apply simulation_u0_flame. cbv beta.
  rewrite Hh, Ho, Hl. reflexivity.
Qed.

Lemma evaluate_path_in_sensitivity ct s :
  _sens_flag s = true ->
  exists sim sp,
    evaluate_prepare ct s = (sp, Ok tt) /\ simulation sp = Some sim /\
    let c := CSolve (sensitivity_settings sim) 0 false in
    evaluate ct s =
    (flame_state (sensitivity_settings sim) (history s ++ [c]) (stdout s) sp,
     if solve_raises ct (history s ++ [c]) then Raise CanteraError
     else Ok (cm_per_s (flame_u0 ct (history s ++ [c])))).
Proof.
  intros Hse.
  destruct (evaluate_prepare_run ct s)
    as (sim & sp & Hp & Hsim & _ & Hh & Ho & Hl & _ & Hr & Hf & _).
  exists sim, sp. split; [exact Hp|]. split; [exact Hsim|]. cbv zeta.
  unfold evaluate.
  erewrite bind_Ok by exact Hp. cbv beta.
  erewrite bind_Ok by (unfold gets; reflexivity). cbv beta.
  erewrite bind_Ok by (unfold gets; reflexivity). cbv beta.
  rewrite Hf, Hse. rewrite andb_false_r.
  rewrite (flame_state_eq sp sim Hsim) at 1.
  rewrite Hh, Ho.
  destruct (solve_raises ct _) eqn:Hraise.
  - erewrite bind_Raise; [reflexivity|].
    rewrite evaluate_in_sensitivity_run. cbv zeta. now rewrite Hraise.
  - erewrite bind_Ok
      by (rewrite evaluate_in_sensitivity_run; cbv zeta;
          rewrite Hraise; reflexivity).
    cbv beta.
    erewrite bind_Ok by apply simulation_u0_flame. reflexivity.
Qed.

Lemma evaluate_path_from_restart ct s b :
  _restart s = Some b -> _sens_flag s = false ->
  exists sim sp,
    evaluate_prepare ct s = (sp, Ok tt) /\ simulation sp = Some sim /\
    let r := CRestore (savefile s) "restart" None in
    let a := attempt_once ct (history s ++ [r])
               (CSolve (restart_settings sim) (loglevel s) false) in
    evaluate ct s =
    if restore_raises ct (history s ++ [r])
    then (flame_state sim (history s ++ [r]) (stdout s) sp, Raise CanteraError)
    else (flame_state (restart_settings sim) ((history s ++ [r]) ++ fst a)
                      (stdout s ++ snd a) sp,
          Ok (cm_per_s (flame_u0 ct ((history s ++ [r]) ++ fst a)))).
Proof.
  intros Hre Hse.
  destruct (evaluate_prepare_run ct s)
    as (sim & sp & Hp & Hsim & _ & Hh & Ho & Hl & Hsf & Hr & Hf & _).
  exists sim, sp. split; [exact Hp|]. split; [exact Hsim|]. cbv zeta.
  unfold evaluate.
  erewrite bind_Ok by exact Hp. cbv beta.
  erewrite bind_Ok by (unfold gets; reflexivity). cbv beta.
  erewrite bind_Ok by (unfold gets; reflexivity). cbv beta.
  rewrite Hr, Hf, Hre, Hse. cbn [negb andb].
  rewrite (flame_state_eq sp sim Hsim) at 1.
  pose proof (evaluate_from_restart_run ct sim (history sp) (stdout sp) sp) as Hrun.
  cbv zeta in Hrun. rewrite Hh, Ho, Hl, Hsf in Hrun.
  rewrite Hh, Ho.
  destruct (restore_raises ct _) eqn:Hraise.
  - erewrite bind_Raise; [reflexivity|]. exact Hrun.
  - erewrite bind_Ok by exact Hrun. cbv beta.
    erewrite bind_Ok by apply simulation_u0_flame. reflexivity.
Qed.

(** The solves of the three stages: stage (i) without grid refinement,
    stages (ii) and (iii) with it; a stage of the first two makes a second
    attempt exactly when its first attempt raised, stage (iii) makes one
    attempt; nothing is restored. *)
Lemma from_scratch_trace_shape ct h sim l :
  let c1 := CSolve (stage1_settings sim) l false in
  let c2 := CSolve (stage2_settings sim) l true in
  let c3 := CSolve (stage3_settings sim) l true in
  let tr := fst (from_scratch_trace ct h sim l) in
  exists again1 again2 : bool,
    again1 = solve_raises ct (h ++ [c1]) /\
    again2 = solve_raises ct ((h ++ c1 :: (if again1 then [c1] else [])) ++ [c2]) /\
    tr = (c1 :: (if again1 then [c1] else [])
          ++ c2 :: (if again2 then [c2] else []) ++ [c3])%list /\
    solve_refinements tr =
      (false :: (if again1 then [false] else [])
       ++ true :: (if again2 then [true] else []) ++ [true])%list /\
    restores tr = [].
Proof.
  cbv zeta. unfold from_scratch_trace, attempt_twice, attempt_once.
  cbn [fst snd].
  destruct (solve_raises ct (h ++ [CSolve (stage1_settings sim) l false])) eqn:H1;
    cbn [fst snd].
  - destruct (solve_raises ct
                ((h ++ [CSolve (stage1_settings sim) l false;
                        CSolve (stage1_settings sim) l false]) ++
                 [CSolve (stage2_settings sim) l true])) eqn:H2;
      exists true; eexists; (split; [reflexivity|]);
      (split; [symmetry; exact H2|]); repeat split; reflexivity.
  - destruct (solve_raises ct
                ((h ++ [CSolve (stage1_settings sim) l false]) ++
                 [CSolve (stage2_settings sim) l true])) eqn:H2;
      exists false; eexists; (split; [reflexivity|]);
      (split; [symmetry; exact H2|]); repeat split; reflexivity.
Qed.

(** C4.  With [_sens_flag] set, [evaluate] calls [solve] at line 144
    outside any [try]: the solver is called once, nothing is printed, and
    an exception of that call leaves [evaluate].  The other two paths wrap
    the same call in [try/except]: from scratch [evaluate] returns
    whatever the solver does, and from a restart that was restored it
    makes one attempt and returns, printing 'Could not find a solution'
    when the attempt raised.  The solve of a perturbed mechanism in the
    finite-difference loop is such a call: when it raises, [sensitivity]
    raises. *)
Theorem solver_error_escapes_evaluate_in_sensitivity :
  (forall ct s,
     _sens_flag s = true ->
     exists sim s',
       let c := CSolve (sensitivity_settings sim) 0 false in
       history s' = (history s ++ [c])%list /\
       stdout s' = stdout s /\
       (solve_raises ct (history s ++ [c]) = true ->
        evaluate ct s = (s', Raise CanteraError)) /\
       (solve_raises ct (history s ++ [c]) = false ->
        exists v, evaluate ct s = (s', Ok v))) /\
  (forall ct s,
     _sens_flag s = false -> _restart s = None ->
     exists sim s' v,
       let tr := from_scratch_trace ct (history s) sim (loglevel s) in
       evaluate ct s = (s', Ok v) /\
       history s' = (history s ++ fst tr)%list /\
       stdout s' = (stdout s ++ snd tr)%list) /\
  (forall ct s,
     _sens_flag s = false -> is_Some (_restart s) ->
     restore_raises ct (history s ++ [CRestore (savefile s) "restart" None])
     = false ->
     exists sim s' v,
       let r := CRestore (savefile s) "restart" None in
       let c := CSolve (restart_settings sim) (loglevel s) false in
       evaluate ct s = (s', Ok v) /\
       history s' = (history s ++ [r; c])%list /\
       stdout s' = (stdout s ++
                    if solve_raises ct ((history s ++ [r]) ++ [c])
                    then ["Could not find a solution"] else [])%list) /\
  (let ct := Examples.ct_fail in
   let s := Examples.model_built ct in
   is_Ok (snd (evaluate ct s)) = true /\
   is_Ok (snd (evaluate ct (set_restart (Some true) s))) = true /\
   snd (evaluate ct (set_sens_flag true s)) = Raise CanteraError /\
   solve_refinements (history (fst (evaluate ct (set_sens_flag true s))))
   = [false]) /\
  (let ct := Examples.ct_fails_when_perturbed in
   let s := Examples.model_built ct in
   let run := CanteraChemistryModel.sensitivity
                (evaluate ct)
                (save_restart ct None "restart"
                   "Base solution for this flame speed")
                (load_restart ct None "restart")
                0.01 [0; 1] s in
   snd (evaluate ct s) = Ok 40%float /\
   snd run = Raise CanteraError /\
   solve_refinements (history (fst run)) = [false; true; true; false]).
Proof.
  split; [|split; [|split; [|split]]].
  - intros ct s Hf.
    destruct (evaluate_path_in_sensitivity ct s Hf)
      as (sim & sp & _ & _ & Hev).
    cbv zeta in Hev. exists sim.
    exists (flame_state (sensitivity_settings sim)
              (history s ++ [CSolve (sensitivity_settings sim) 0 false])
              (stdout s) sp).
    cbv zeta.
    split; [reflexivity|]. split; [reflexivity|]. split.
    + intros Hraise. rewrite Hraise in Hev. exact Hev.
    + intros Hraise. rewrite Hraise in Hev. eexists. exact Hev.
  - intros ct s Hf Hr.
    destruct (evaluate_path_from_scratch ct s Hr Hf)
      as (sim & sp & _ & _ & Hev).
    cbv zeta in Hev. exists sim. eexists _, _. cbv zeta.
    split; [exact Hev|]. split; reflexivity.
  - intros ct s Hf [b Hr] Hrestore.
    destruct (evaluate_path_from_restart ct s b Hr Hf)
      as (sim & sp & _ & _ & Hev).
    cbv zeta in Hev. rewrite Hrestore in Hev.
    exists sim. eexists _, _. cbv zeta.
    split; [exact Hev|].
    unfold attempt_once. cbn [fst snd history stdout flame_state set_stdout
                               set_history set_simulation].
    split; [now rewrite <- app_assoc|reflexivity].
  - cbv zeta. repeat split; vm_compute; reflexivity.
  - cbv zeta. repeat split; vm_compute; reflexivity.
Qed.

(** The output of a solve from scratch whose five attempts all raise. *)
Example from_scratch_all_attempts_fail :
  let s' := fst (evaluate Examples.ct_fail (Examples.model_built Examples.ct_fail)) in
  solve_refinements (history s') = [false; false; true; true; true] /\
  stdout s' =
    ["False"; "Mix";
     "Mixture-averaged solution, no energy equation, no grid refinement";
     "As predicted, first attempt failed, trying one more time";
     "Could not find a solution";
     "Mixture-averaged solution, enable energy equation and grid refinement";
     "As predicted, first attempt failed, trying one more time";
     "Could not find a solution";
     "Multicomponent solution";
     "Could not find a solution"].
Proof. split; vm_compute; reflexivity. Qed.

(** ** The restart flag *)

Lemma save_restart_sets_flag ct fn name desc s s' :
  save_restart ct fn name desc s = (s', Ok tt) -> _restart s' = Some true.
Proof.
  unfold save_restart. intros H.
  apply bind_inv_Ok in H as (s1 & sf & _ & H).
  apply bind_inv_Ok in H as (s2 & [] & _ & H).
  unfold modify in H. inversion H. reflexivity.
Qed.

Lemma load_restart_sets_flag ct fn name s s' :
  load_restart ct fn name s = (s', Ok tt) -> _restart s' = Some true.
Proof.
  unfold load_restart. intros H.
  apply bind_inv_Ok in H as (s1 & sf & _ & H).
  apply bind_inv_Ok in H as (s2 & [] & _ & H).
  unfold modify in H. inversion H. reflexivity.
Qed.

(** A save that raises leaves the flag as it was. *)
Lemma save_restart_raises_keeps_flag ct fn name desc s s' e :
  save_restart ct fn name desc s = (s', Raise e) -> _restart s' = _restart s.
Proof.
  unfold save_restart, simulation_save, bind, gets, self_simulation, record,
    modify, raise, ret.
  destruct (simulation s); cbn.
  - destruct (save_raises ct _); intros H; inversion H; reflexivity.
  - intros H; inversion H; reflexivity.
Qed.

(** C7 (as stated, refuted).  A restart was saved, so the flag is True,
    and no sensitivity calculation is under way; the restart file cannot
    be read back.  [evaluate] asks for the restore, which raises at line
    147, outside the [try], and the exception leaves [evaluate] before
    any solve. *)
Lemma restore_error_leaves_evaluate_without_a_solve :
  let ct := Examples.ct_no_restore in
  let s := fst (save_restart ct None "restart"
                  "Base solution for this flame speed"
                  (fst (evaluate ct (Examples.model_built ct)))) in
  let s' := fst (evaluate ct s) in
  _restart s = Some true /\ _sens_flag s = false /\
  snd (evaluate ct s) = Raise CanteraError /\
  restores (drop (length (history s)) (history s'))
  = [("soln.xml", "restart")] /\
  solve_refinements (drop (length (history s)) (history s')) = [].
Proof. cbv zeta. repeat split; vm_compute; reflexivity. Qed.

(** C7 (amended).  A [save_restart] or a [load_restart] that returns
    leaves [_restart] at True, and [ignore_restart] leaves it at None.
    With [_restart] None and no sensitivity calculation under way,
    [evaluate] restores nothing and runs the three stages from scratch;
    with [_restart] True and no sensitivity calculation under way, the
    first call [evaluate] makes restores the solution 'restart' of the
    save file: when that call returns, one solve without grid refinement
    follows and [evaluate] returns; when it raises, the exception leaves
    [evaluate] and no solve is made. *)
Theorem restart_flag_selects_the_solve ct s :
  (forall fn name desc s',
     save_restart ct fn name desc s = (s', Ok tt) -> _restart s' = Some true) /\
  (forall fn name s',
     load_restart ct fn name s = (s', Ok tt) -> _restart s' = Some true) /\
  ignore_restart s = (set_restart None s, Ok tt) /\
  (_restart s = None -> _sens_flag s = false ->
   exists sim s' v evs,
     evaluate ct s = (s', Ok v) /\
     history s' = (history s ++ evs)%list /\
     evs = fst (from_scratch_trace ct (history s) sim (loglevel s)) /\
     restores evs = [] /\
     (exists again1 again2 : bool,
        solve_refinements evs =
          (false :: (if again1 then [false] else [])
           ++ true :: (if again2 then [true] else []) ++ [true])%list)) /\
  (_restart s = Some true -> _sens_flag s = false ->
   exists sim s' r,
     let restore := CRestore (savefile s) "restart" None in
     evaluate ct s = (s', r) /\
     (restore_raises ct (history s ++ [restore]) = true ->
      r = Raise CanteraError /\ history s' = (history s ++ [restore])%list) /\
     (restore_raises ct (history s ++ [restore]) = false ->
      is_Ok r = true /\
      history s' =
        (history s ++
         [restore; CSolve (restart_settings sim) (loglevel s) false])%list)).
Proof.
  split; [|split; [|split; [|split]]].
  - intros fn name desc s'. apply save_restart_sets_flag.
  - intros fn name s'. apply load_restart_sets_flag.
  - reflexivity.
  - intros Hr Hf.
    destruct (evaluate_path_from_scratch ct s Hr Hf)
      as (sim & sp & _ & _ & Hev).
    cbv zeta in Hev.
    destruct (from_scratch_trace_shape ct (history s) sim (loglevel s))
      as (a1 & a2 & _ & _ & _ & Hsolves & Hrestores).
    exists sim. eexists _, _, _.
    split; [exact Hev|]. split; [reflexivity|]. split; [reflexivity|].
    split; [exact Hrestores|]. exists a1, a2. exact Hsolves.
  - intros Hr Hf.
    destruct (evaluate_path_from_restart ct s true Hr Hf)
      as (sim & sp & _ & _ & Hev).
    cbv zeta in Hev. exists sim.
    destruct (restore_raises ct _) eqn:Hraise.
    + eexists _, _. cbv zeta. split; [exact Hev|].
      rewrite Hraise. split; [|discriminate].
      intros _. split; reflexivity.
    + eexists _, _. cbv zeta. split; [exact Hev|].
      rewrite Hraise. split; [discriminate|].
      intros _. split; [reflexivity|].
      unfold attempt_once.
      cbn [fst snd history stdout flame_state set_stdout set_history
           set_simulation].
      now rewrite <- app_assoc.
Qed.

Lemma restart_flag_selects_the_solve_witness :
  let s := fst (save_restart Examples.ct_ok None "restart"
                  "Base solution for this flame speed"
                  (fst (evaluate Examples.ct_ok
                          (Examples.model_built Examples.ct_ok)))) in
  _restart s = Some true /\
  exists sim s' r,
    let restore := CRestore (savefile s) "restart" None in
    evaluate Examples.ct_ok s = (s', r) /\
    (restore_raises Examples.ct_ok (history s ++ [restore]) = true ->
     r = Raise CanteraError /\ history s' = (history s ++ [restore])%list) /\
    (restore_raises Examples.ct_ok (history s ++ [restore]) = false ->
     is_Ok r = true /\
     history s' =
       (history s ++
        [restore; CSolve (restart_settings sim) (loglevel s) false])%list).
Proof.
  cbv zeta. split.
  - apply (proj1 (restart_flag_selects_the_solve Examples.ct_ok
                    (fst (evaluate Examples.ct_ok
                            (Examples.model_built Examples.ct_ok))))
             None "restart" "Base solution for this flame speed").
    vm_compute. reflexivity.
  - apply (restart_flag_selects_the_solve Examples.ct_ok); reflexivity.
Defined.

(** [ignore_restart] and then [evaluate]: the solve runs from scratch. *)
Example ignore_restart_then_evaluate :
  let saved := fst (save_restart Examples.ct_ok None "restart"
                      "Base solution for this flame speed"
                      (fst (evaluate Examples.ct_ok
                              (Examples.model_built Examples.ct_ok)))) in
  let h0 := length (history saved) in
  let after_ignore := fst (evaluate Examples.ct_ok (fst (ignore_restart saved))) in
  let after_restart := fst (evaluate Examples.ct_ok saved) in
  _restart saved = Some true /\
  solve_refinements (drop h0 (history after_ignore)) = [false; true; true] /\
  restores (drop h0 (history after_ignore)) = [] /\
  solve_refinements (drop h0 (history after_restart)) = [false] /\
  restores (drop h0 (history after_restart)) = [("soln.xml", "restart")].
Proof. repeat split; vm_compute; reflexivity. Qed.

(** ** The finite-difference sensitivity *)

(** Multiplication of binary64 numbers is commutative. *)
Lemma SFmul_comm prec emax x y : SFmul prec emax x y = SFmul prec emax y x.
Proof.
  destruct x as [sx|sx| |sx mx ex], y as [sy|sy| |sy my ey]; cbn;
    rewrite ?(xorb_comm sx sy); try reflexivity.
  now rewrite (Pos.mul_comm mx my), (Z.add_comm ex ey).
Qed.

Lemma float_mul_comm (x y : float) : (x * y)%float = (y * x)%float.
Proof. apply Prim2SF_inj. rewrite !mul_spec. apply SFmul_comm. Qed.

Section FiniteDifference.

Context (self_evaluate : M float)
        (self_save_restart self_load_restart : M unit).

Lemma py_truediv_Ok x y q : py_truediv x y = Ok q -> q = (x / y)%float.
Proof.
  unfold py_truediv. destruct (y =? 0)%float; intros H; inversion H.
  reflexivity.
Qed.

Lemma lift_inv_Ok {A} (r : result A) s s' a :
  lift r s = (s', Ok a) -> s' = s /\ r = Ok a.
Proof. unfold lift. intros H. inversion H. split; reflexivity. Qed.

Lemma get_parameter_inv_Ok id s s' v :
  get_parameter id s = (s', Ok v) -> get_parameter id s = (s, Ok v).
Proof.
  intros H. pose proof (get_parameter_pure id s) as Hp.
  rewrite H in Hp. cbn in Hp. now subst s'.
Qed.

Lemma sensitivity_step_inv fraction value acc id s s' l :
  sensitivity_step self_evaluate self_load_restart fraction value
    (1 + fraction)%float (1 / (1 + fraction))%float acc id s = (s', Ok l) ->
  exists c,
    l = (acc ++ [c])%list /\
    fd_parameter self_evaluate self_load_restart fraction value id s c s'.
Proof.
  unfold sensitivity_step. intros H.
  apply bind_inv_Ok in H as (s0 & info & Hinfo & H).
  inversion Hinfo as [[Hs0 Hi]]. subst s0. clear Hinfo.
  apply bind_inv_Ok in H as (s0 & base & Hget & H).
  apply get_parameter_inv_Ok in Hget as Hget'.
  rewrite Hget' in Hget. inversion Hget. subst s0. clear Hget.
  apply bind_inv_Ok in H as (s1 & [] & Hp1 & H).
  apply bind_inv_Ok in H as (s2 & plus & He1 & H).
  apply bind_inv_Ok in H as (s3 & [] & Hp2 & H).
  apply bind_inv_Ok in H as (s4 & [] & Hld & H).
  apply bind_inv_Ok in H as (s5 & minus & He2 & H).
  apply bind_inv_Ok in H as (s6 & [] & Hp3 & H).
  apply bind_inv_Ok in H as (s7 & c & Hdiv & H).
  apply lift_inv_Ok in Hdiv as [-> Hdiv].
  apply py_truediv_Ok in Hdiv.
  apply bind_inv_Ok in H as (s8 & [] & Hlog & H).
  unfold ret in H. inversion H. subst s8 l. clear H.
  exists c. split; [reflexivity|].
  exists info, base, s1, plus, s2, s3, s4, minus, s5, s6.
  rewrite (float_mul_comm base (1 + fraction)),
    (float_mul_comm base (1 / (1 + fraction))).
  repeat split; assumption.
Qed.

Lemma sensitivity_loop_inv fraction value ids : forall acc s s' l,
  sensitivity_loop self_evaluate self_load_restart fraction value
    (1 + fraction)%float (1 / (1 + fraction))%float ids acc s = (s', Ok l) ->
  exists cs,
    l = (acc ++ cs)%list /\
    fd_run self_evaluate self_load_restart fraction value ids s cs s'.
Proof.
  induction ids as [|id ids IH]; intros acc s s' l H.
  - cbn in H. inversion H. exists []. split; [now rewrite app_nil_r|].
    constructor.
  - cbn [sensitivity_loop] in H.
    apply bind_inv_Ok in H as (s1 & l1 & Hstep & H).
    apply sensitivity_step_inv in Hstep as (c & -> & Hc).
    apply IH in H as (cs & -> & Hcs).
    exists (c :: cs). split; [now rewrite <- app_assoc|].
    econstructor; eassumption.
Qed.

Lemma fd_run_length fraction value ids s cs s' :
  fd_run self_evaluate self_load_restart fraction value ids s cs s' ->
  length cs = length ids.
Proof. induction 1; cbn; congruence. Qed.

End FiniteDifference.

(** C2.  When the finite-difference routine returns (value, vector): the
    model was evaluated once, before any perturbation, to give the value,
    and the restart saved; then, for the parameter ids in the order given
    and each from the state the one before left, the steps of
    [fd_parameter] were run (the restart is loaded before the second
    evaluation); the vector lists the coefficients of the parameters in that
    order. *)
Theorem finite_difference_sensitivity
    (self_evaluate : M float) (self_save_restart self_load_restart : M unit)
    fraction ids s value vector :
  snd (CanteraChemistryModel.sensitivity self_evaluate self_save_restart self_load_restart
         fraction ids s) = Ok (value, vector) ->
  exists s0 s1 s2 s3 s4,
    self_evaluate s = (s0, Ok value) /\
    self_save_restart s0 = (s1, Ok tt) /\
    logfile_write (LogValue value) s1 = (s2, Ok tt) /\
    logfile_write LogHeaderFD s2 = (s3, Ok tt) /\
    fd_run self_evaluate self_load_restart fraction value ids
           (set_sens_flag true s3) vector s4 /\
    fst (CanteraChemistryModel.sensitivity self_evaluate self_save_restart self_load_restart
           fraction ids s) = set_sens_flag false s4 /\
    length vector = length ids.
Proof.
  destruct (CanteraChemistryModel.sensitivity _ _ _ fraction ids s) as [s' r] eqn:Hrun.
  cbn [fst snd]. intros ->.
  unfold CanteraChemistryModel.sensitivity in Hrun.
  apply bind_inv_Ok in Hrun as (s3 & [[v pos] neg] & Hpro & H).
  unfold sensitivity_prologue in Hpro.
  apply bind_inv_Ok in Hpro as (s0 & v0 & Hev & Hpro).
  apply bind_inv_Ok in Hpro as (s1 & [] & Hsave & Hpro).
  apply bind_inv_Ok in Hpro as (s2 & [] & Hlog1 & Hpro).
  apply bind_inv_Ok in Hpro as (s2' & neg0 & Hdiv & Hpro).
  apply lift_inv_Ok in Hdiv as [-> Hdiv]. apply py_truediv_Ok in Hdiv.
  apply bind_inv_Ok in Hpro as (s3' & [] & Hlog2 & Hpro).
  unfold ret in Hpro. inversion Hpro. subst s3' v0 pos neg0 neg. clear Hpro.
  apply bind_inv_Ok in H as (sf & [] & Hflag & H).
  unfold modify in Hflag. inversion Hflag. subst sf. clear Hflag.
  apply bind_inv_Ok in H as (s4 & l & Hloop & H).
  apply sensitivity_loop_inv in Hloop as (cs & -> & Hcs).
  apply bind_inv_Ok in H as (s5 & [] & Hflag & H).
  unfold modify in Hflag. inversion Hflag. subst s5. clear Hflag.
  unfold ret in H. inversion H. subst s' value vector. clear H.
  exists s0, s1, s2, s3, s4. cbn [app].
  repeat split; try assumption.
  eapply fd_run_length; eassumption.
Qed.

Lemma finite_difference_sensitivity_witness :
  let ev := evaluate Examples.ct_ok in
  let sv := save_restart Examples.ct_ok None "restart"
              "Base solution for this flame speed" in
  let ld := load_restart Examples.ct_ok None "restart" in
  let s := Examples.model_built Examples.ct_ok in
  let vector := [0.99504950495049371%float; 0%float] in
  exists s0 s1 s2 s3 s4,
    ev s = (s0, Ok 40%float) /\
    sv s0 = (s1, Ok tt) /\
    logfile_write (LogValue 40) s1 = (s2, Ok tt) /\
    logfile_write LogHeaderFD s2 = (s3, Ok tt) /\
    fd_run ev ld 0.01 40 [0; 1] (set_sens_flag true s3) vector s4 /\
    fst (CanteraChemistryModel.sensitivity ev sv ld 0.01 [0; 1] s)
    = set_sens_flag false s4 /\
    length vector = 2%nat.
Proof.
  cbv zeta.
  apply (finite_difference_sensitivity
           (evaluate Examples.ct_ok)
           (save_restart Examples.ct_ok None "restart"
              "Base solution for this flame speed")
           (load_restart Examples.ct_ok None "restart")
           0.01 [0; 1] (Examples.model_built Examples.ct_ok)
           40 [0.99504950495049371%float; 0%float]).
  vm_compute. reflexivity.
Defined.

(** ** The sensitivity flag *)

Lemma keeps_flag_bind {A B} (m : M A) (k : A -> M B) :
  keeps_flag m -> (forall a, keeps_flag (k a)) -> keeps_flag (bind m k).
Proof.
  intros Hm Hk s. unfold bind. specialize (Hm s).
  destruct (m s) as [s1 [a|e]]; cbn [fst] in *.
  - now rewrite Hk.
  - exact Hm.
Qed.

Lemma keeps_flag_ret {A} (a : A) : keeps_flag (ret a).
Proof. intros s. reflexivity. Qed.

Lemma keeps_flag_lift {A} (r : result A) : keeps_flag (lift r).
Proof. intros s. reflexivity. Qed.

Lemma keeps_flag_read {A} (f : Model -> result A) :
  keeps_flag (fun s => (s, f s)).
Proof. intros s. reflexivity. Qed.

Lemma keeps_flag_logfile_write line : keeps_flag (logfile_write line).
Proof. intros s. reflexivity. Qed.

Lemma keeps_flag_get_parameter id : keeps_flag (get_parameter id).
Proof. intros s. now rewrite get_parameter_pure. Qed.

Lemma keeps_flag_perturb_parameter id v : keeps_flag (perturb_parameter id v).
Proof. intros s. apply perturb_parameter_frame. Qed.

Section FlagFrame.

Context (self_evaluate : M float)
        (self_save_restart self_load_restart : M unit)
        (Hevaluate : keeps_flag self_evaluate)
        (Hsave : keeps_flag self_save_restart)
        (Hload : keeps_flag self_load_restart).

Lemma keeps_flag_sensitivity_step p value pos neg acc id :
  keeps_flag (sensitivity_step self_evaluate self_load_restart
                p value pos neg acc id).
Proof.
  unfold sensitivity_step.
  repeat first
    [ apply keeps_flag_get_parameter | apply keeps_flag_perturb_parameter
    | apply keeps_flag_logfile_write | apply keeps_flag_lift
    | apply keeps_flag_ret | exact Hevaluate | exact Hload
    | apply keeps_flag_read
    | apply keeps_flag_bind; [|intros ?] ].
Qed.

Lemma keeps_flag_sensitivity_loop p value pos neg ids : forall acc,
  keeps_flag (sensitivity_loop self_evaluate self_load_restart
                p value pos neg ids acc).
Proof.
  induction ids as [|id ids IH]; intros acc; cbn [sensitivity_loop].
  - apply keeps_flag_ret.
  - apply keeps_flag_bind; [apply keeps_flag_sensitivity_step|].
    intros l. apply IH.
Qed.

Lemma keeps_flag_sensitivity_prologue p :
  keeps_flag (sensitivity_prologue self_evaluate self_save_restart p).
Proof.
  unfold sensitivity_prologue.
  repeat first
    [ apply keeps_flag_logfile_write | apply keeps_flag_lift
    | apply keeps_flag_ret | exact Hevaluate | exact Hsave
    | apply keeps_flag_bind; [|intros ?] ].
Qed.

End FlagFrame.

(** The methods of the flame speed model leave the flag alone. *)
Lemma keeps_flag_evaluate ct : keeps_flag (evaluate ct).
Proof.
  intros s.
  destruct (evaluate_prepare_run ct s)
    as (sim0 & sp0 & Hp0 & _ & _ & _ & _ & _ & _ & _ & Hf0 & _).
  destruct (_sens_flag s) eqn:Hf.
  - destruct (evaluate_path_in_sensitivity ct s Hf)
      as (sim & sp & Hp & _ & Hev).
    cbv zeta in Hev. rewrite Hev. cbn.
    rewrite Hp in Hp0. inversion Hp0. subst sp0. now rewrite Hf0.
  - destruct (_restart s) as [b|] eqn:Hr.
    + destruct (evaluate_path_from_restart ct s b Hr Hf)
        as (sim & sp & Hp & _ & Hev).
      cbv zeta in Hev. rewrite Hev.
      rewrite Hp in Hp0. inversion Hp0. subst sp0.
      destruct (restore_raises ct _); cbn; now rewrite Hf0.
    + destruct (evaluate_path_from_scratch ct s Hr Hf)
        as (sim & sp & Hp & _ & Hev).
      cbv zeta in Hev. rewrite Hev. cbn.
      rewrite Hp in Hp0. inversion Hp0. subst sp0. now rewrite Hf0.
Qed.

Lemma keeps_flag_save_restart ct fn name desc :
  keeps_flag (save_restart ct fn name desc).
Proof.
  intros s.
  unfold save_restart, simulation_save, bind, gets, self_simulation, record,
    modify, raise, ret.
  destruct (simulation s); cbn; [|reflexivity].
  destruct (save_raises ct _); reflexivity.
Qed.

Lemma keeps_flag_load_restart ct fn name :
  keeps_flag (load_restart ct fn name).
Proof.
  intros s.
  unfold load_restart, simulation_restore, bind, gets, self_simulation, record,
    modify, raise, ret.
  destruct (simulation s); cbn; [|reflexivity].
  destruct (restore_raises ct _); reflexivity.
Qed.

Lemma keeps_flag_modify f :
  (forall s, _sens_flag (f s) = _sens_flag s) -> keeps_flag (modify f).
Proof. intros Hf s. apply Hf. Qed.

Lemma keeps_flag_all_reaction_info rs : forall n acc,
  keeps_flag (all_reaction_info n rs acc).
Proof.
  induction rs as [|r rs IH]; intros n acc; cbn [all_reaction_info].
  - apply keeps_flag_ret.
  - apply keeps_flag_bind; [|intros l; apply IH].
    intros s. unfold get_reaction_info, bind, self_gas, lift.
    destruct (gas s); [|reflexivity].
    destruct (gas_reaction _ _); reflexivity.
Qed.

Lemma keeps_flag_prepare_chemistry ct e n f :
  keeps_flag (prepare_chemistry ct e n f).
Proof.
  unfold prepare_chemistry, get_model_parameter_info, blank_chemistry,
    initialize_chemistry.
  repeat first
    [ apply keeps_flag_all_reaction_info | apply keeps_flag_ret
    | apply keeps_flag_modify; intros s; reflexivity
    | apply keeps_flag_bind; [|intros ?] ];
    intros s; unfold gets, self_gas; cbn; destruct (gas s); reflexivity.
Qed.

(** A model leaves its constructor with the flag False. *)
Lemma sens_flag_after_init ct st path len pts ll name e n f :
  _sens_flag (fst (init ct st path len pts ll name e n f)) = false.
Proof. unfold init. now rewrite keeps_flag_prepare_chemistry. Qed.

(** C3 (as stated, refuted).  The base-class routine run on a flame speed
    model whose solver raises: the nominal evaluation swallows the
    failures, the first evaluation of the loop raises, the exception
    leaves [sensitivity] and [_sens_flag], False on entry, is left True. *)
Lemma sens_flag_left_set_by_an_error :
  let ct := Examples.ct_fail in
  let s := Examples.model_built ct in
  let run := CanteraChemistryModel.sensitivity
               (evaluate ct)
               (save_restart ct None "restart" "Base solution for this flame speed")
               (load_restart ct None "restart")
               0.01 [0; 1] s in
  _sens_flag s = false /\
  snd run = Raise CanteraError /\
  _sens_flag (fst run) = true.
Proof. repeat split; vm_compute; reflexivity. Qed.

(** C3 (amended).  With an [evaluate], a [save_restart] and a
    [load_restart] that do not write the flag themselves: [sensitivity]
    leaves the flag False when it returns; the nominal evaluation and the
    rest of lines 480-494 run with the flag as it was on entry, and an
    exception raised there leaves the flag as it was; the flag is True at
    the start of every turn of the loop, and an exception raised in the
    loop leaves [sensitivity] with the flag still True. *)
Theorem sens_flag_around_the_loop
    (self_evaluate : M float) (self_save_restart self_load_restart : M unit)
    fraction ids s :
  keeps_flag self_evaluate ->
  keeps_flag self_save_restart ->
  keeps_flag self_load_restart ->
  let run := CanteraChemistryModel.sensitivity
               self_evaluate self_save_restart self_load_restart
               fraction ids s in
  let pro := sensitivity_prologue self_evaluate self_save_restart fraction s in
  (is_Ok (snd run) = true -> _sens_flag (fst run) = false) /\
  (is_Ok (snd pro) = false ->
   is_Ok (snd run) = false /\ _sens_flag (fst run) = _sens_flag s) /\
  (is_Ok (snd pro) = true -> is_Ok (snd run) = false ->
   _sens_flag (fst run) = true) /\
  (forall value pos neg ids1 ids2,
     snd pro = Ok (value, pos, neg) -> ids = (ids1 ++ ids2)%list ->
     _sens_flag
       (fst (sensitivity_loop self_evaluate self_load_restart
               fraction value pos neg ids1 [] (set_sens_flag true (fst pro))))
     = true).
Proof.
  intros Hev Hsv Hld. cbv zeta.
  pose proof (keeps_flag_sensitivity_prologue _ _ Hev Hsv fraction s) as Hpro.
  unfold CanteraChemistryModel.sensitivity, bind.
  destruct (sensitivity_prologue self_evaluate self_save_restart fraction s)
    as [sp [[[value pos] neg]|e]] eqn:Epro; cbn [fst snd is_Ok] in *.
  - unfold modify, ret. cbv beta iota.
    pose proof (keeps_flag_sensitivity_loop _ _ Hev Hld fraction value pos neg
                  ids [] (set_sens_flag true sp)) as Hloop.
    destruct (sensitivity_loop _ _ fraction value pos neg ids []
                (set_sens_flag true sp)) as [sl [l|e]] eqn:Eloop;
      cbn [fst snd is_Ok] in *.
    + split; [reflexivity|]. split; [discriminate|].
      split; [discriminate|].
      intros v p n ids1 ids2 Hv _. inversion Hv. subst v p n.
      apply (keeps_flag_sensitivity_loop _ _ Hev Hld).
    + split; [discriminate|]. split; [discriminate|].
      split; [intros _ _; exact Hloop|].
      intros v p n ids1 ids2 Hv _. inversion Hv. subst v p n.
      apply (keeps_flag_sensitivity_loop _ _ Hev Hld).
  - split; [discriminate|]. split; [intros _; split; [reflexivity|exact Hpro]|].
    split; [discriminate|]. intros v p n ids1 ids2 Hv. discriminate Hv.
Qed.

Lemma sens_flag_around_the_loop_witness :
  let ct := Examples.ct_ok in
  let ev := evaluate ct in
  let sv := save_restart ct None "restart" "Base solution for this flame speed" in
  let ld := load_restart ct None "restart" in
  let s := Examples.model_built ct in
  is_Ok (snd (CanteraChemistryModel.sensitivity ev sv ld 0.01 [0; 1] s)) = true /\
  _sens_flag (fst (CanteraChemistryModel.sensitivity ev sv ld 0.01 [0; 1] s)) = false.
Proof.
  cbv zeta. split; [vm_compute; reflexivity|].
  apply (proj1 (sens_flag_around_the_loop
                  (evaluate Examples.ct_ok)
                  (save_restart Examples.ct_ok None "restart"
                     "Base solution for this flame speed")
                  (load_restart Examples.ct_ok None "restart")
                  0.01 [0; 1] (Examples.model_built Examples.ct_ok)
                  (keeps_flag_evaluate _)
                  (keeps_flag_save_restart _ _ _ _)
                  (keeps_flag_load_restart _ _ _))).
  vm_compute. reflexivity.
Defined.

(** ** The adjoint sensitivity *)

(** A parameter that could be read reads, once written, as the value
    written. *)
Lemma read_after_perturb_reaction nf ty v r r' m :
  read_parameter ty r = Ok m ->
  perturb_reaction nf ty v r = Ok r' ->
  read_parameter ty r' = Ok v.
Proof.
  unfold read_parameter, perturb_reaction, py_truediv, bindr.
  destruct (py_in "pressure" ty), (py_in "High" ty), (py_in "Low" ty),
    (py_in "A" ty), (py_in "E" ty), nf, (v =? 0)%float;
    cbn; intros Hread Hp; try discriminate;
    inversion Hp; subst r'; reflexivity.
Qed.

Lemma get_after_perturb id v s s' m :
  get_parameter id s = (s, Ok m) ->
  perturb_parameter id v s = (s', Ok tt) ->
  get_parameter id s' = (s', Ok v).
Proof.
  intros Hget Hp.
  destruct (py_getitem (model_parameter_info s) id) as [info|e] eqn:Hi;
    [|unfold get_parameter, bind in Hget; rewrite Hi in Hget; discriminate].
  destruct (gas s) as [g|] eqn:Hg;
    [|unfold get_parameter, bind, self_gas in Hget;
      rewrite Hi, Hg in Hget; discriminate].
  destruct (reactions g !! reaction_number info) as [r|] eqn:Hr;
    [|unfold get_parameter, bind, self_gas, lift, gas_reaction in Hget;
      rewrite Hi, Hg, Hr in Hget; discriminate].
  rewrite (get_parameter_run s id info g r Hi Hg Hr) in Hget.
  inversion Hget as [Hread].
  destruct (perturb_reaction (no_falloff s) (parameter_type info) v r)
    as [r'|e] eqn:Hpr.
  - rewrite (perturb_parameter_run s id v info g r r' Hi Hg Hr Hpr) in Hp.
    inversion Hp. subst s'.
    rewrite (get_parameter_run (perturbed (reaction_number info) r' g s)
               id info (modify_reaction (reaction_number info) r' g) r').
    + f_equal. eapply read_after_perturb_reaction; eassumption.
    + exact Hi.
    + reflexivity.
    + cbn. apply list_lookup_insert_eq. now apply lookup_lt_Some in Hr.
  - rewrite (perturb_parameter_raises s id v info g r e Hi Hg Hr Hpr) in Hp.
    discriminate.
Qed.

Lemma run_adjoint_inv ids r : forall s s' sens,
  run_adjoint ids r s = (s', Ok sens) ->
  exists steps, adjoint_trace ids r s steps sens s'.
Proof.
  induction r as [sens0| |i dp k IH]; intros s s' sens H.
  - cbn in H. inversion H. subst. exists []. constructor.
  - discriminate H.
  - cbn [run_adjoint] in H.
    apply bind_inv_Ok in H as (s0 & [] & Hrec & H).
    apply bind_inv_Ok in H as (s1 & [] & Hp & H).
    apply bind_inv_Ok in H as (s1' & h & Hh & H).
    unfold gets in Hh. inversion Hh. subst s1' h. clear Hh.
    apply IH in H as (steps & Hsteps).
    exists ((i, dp) :: steps). econstructor; [|exact Hsteps].
    unfold record, modify in Hrec |- *. inversion Hrec. subst s0.
    exact Hp.
Qed.

(** The callback writes [1 + dp], whatever the value it has read. *)
Lemma perturb_callback_inv ids i dp s s' :
  perturb ids i dp s = (s', Ok tt) ->
  exists id m,
    py_getitem ids i = Ok id /\
    get_parameter id s = (s, Ok m) /\
    perturb_parameter id (1 + dp)%float s = (s', Ok tt) /\
    get_parameter id s' = (s', Ok (1 + dp)%float).
Proof.
  unfold perturb. intros H.
  apply bind_inv_Ok in H as (s0 & id & Hid & H).
  apply lift_inv_Ok in Hid as [-> Hid].
  apply bind_inv_Ok in H as (s0 & m & Hget & H).
  apply get_parameter_inv_Ok in Hget as Hget'.
  rewrite Hget' in Hget. inversion Hget. subst s0. clear Hget.
  exists id, m. repeat split; try assumption.
  eapply get_after_perturb; eassumption.
Qed.

(** After a run, the parameter of the last callback reads [1 + dp]. *)
Lemma adjoint_trace_last ids r s steps sens s' :
  adjoint_trace ids r s steps sens s' ->
  forall steps0 i dp, steps = (steps0 ++ [(i, dp)])%list ->
  exists id, py_getitem ids i = Ok id /\
             get_parameter id s' = (s', Ok (1 + dp)%float).
Proof.
  induction 1 as [sens s|i0 dp0 k s s1 steps sens s2 Hp Htr IH];
    intros steps0 i dp Hsteps.
  - destruct steps0; discriminate Hsteps.
  - destruct steps0 as [|st steps0]; cbn in Hsteps.
    + inversion Hsteps. subst i0 dp0 steps.
      inversion Htr; subst.
      apply perturb_callback_inv in Hp as (id & m & Hid & _ & _ & Hget).
      exists id. split; assumption.
    + inversion Hsteps. subst st steps. eapply IH. reflexivity.
Qed.

(** The loop that logs the rows writes to the log file only. *)
Lemma write_rows_frame rows : forall s,
  gas (fst (write_rows rows s)) = gas s /\
  model_parameter_info (fst (write_rows rows s)) = model_parameter_info s.
Proof.
  induction rows as [|[id c] rows IH]; intros s; [split; reflexivity|].
  cbn [write_rows]. unfold bind, logfile_write, record, modify. cbv beta.
  destruct (py_getitem (model_parameter_info s) id) as [info|e];
    cbv beta iota; [|split; reflexivity].
  destruct (IH (set_history
                  (history s ++
                   [CWrite (LogRowAdjoint id c (parameter_name info))]) s))
    as [-> ->].
  split; reflexivity.
Qed.

(** C10.  The callback handed to the adjoint solver reads the parameter
    and then writes [1 + dp], a value in which the value read does not
    occur; the parameter then reads [1 + dp].  When the adjoint
    [sensitivity] returns, the model was evaluated once, the solver made
    its callbacks, and after the solver returned only log lines were
    written: the mechanism is as the last callback left it, and the
    parameter of that callback reads [1 + dp].  A turn of the
    finite-difference loop, by contrast, ends its writes to the mechanism
    with the value it read at its start. *)
Theorem adjoint_sensitivity_leaves_parameters_perturbed ct ids :
  (forall i dp s s',
     perturb ids i dp s = (s', Ok tt) ->
     exists id m,
       py_getitem ids i = Ok id /\
       get_parameter id s = (s, Ok m) /\
       perturb_parameter id (1 + dp)%float s = (s', Ok tt) /\
       get_parameter id s' = (s', Ok (1 + dp)%float)) /\
  (forall fraction s value vector,
     snd (sensitivity ct fraction ids s) = Ok (value, vector) ->
     let s' := fst (sensitivity ct fraction ids s) in
     exists s1 s2 steps sens,
       evaluate ct s = (s1, Ok value) /\
       adjoint_trace ids
         (solve_adjoint ct (history s1) (length ids)
            (flame_Nvars ct (history s1), flame_i_Su ct (history s1)))
         s1 steps sens s2 /\
       gas s' = gas s2 /\
       model_parameter_info s' = model_parameter_info s2 /\
       forall steps0 i dp, steps = (steps0 ++ [(i, dp)])%list ->
         exists id, py_getitem ids i = Ok id /\
                    snd (get_parameter id s') = Ok (1 + dp)%float) /\
  (forall self_evaluate self_load_restart fraction value acc id s s' l,
     sensitivity_step self_evaluate self_load_restart fraction value
       (1 + fraction)%float (1 / (1 + fraction))%float acc id s = (s', Ok l) ->
     exists m s5 s6,
       get_parameter id s = (s, Ok m) /\
       perturb_parameter id m s5 = (s6, Ok tt) /\
       gas s' = gas s6).
Proof.
  split; [|split].
  - intros i dp s s'. apply perturb_callback_inv.
  - intros fraction s value vector.
    destruct (sensitivity ct fraction ids s) as [s' r] eqn:Hrun.
    cbn [fst snd]. intros ->. cbv zeta.
    unfold sensitivity in Hrun.
    apply bind_inv_Ok in Hrun as (s1 & v & Hev & H).
    apply bind_inv_Ok in H as (s1' & sim & Hsim & H).
    unfold self_simulation in Hsim.
    destruct (simulation s1); [|discriminate Hsim].
    inversion Hsim. subst s1' sim. clear Hsim.
    apply bind_inv_Ok in H as (s1' & h & Hh & H).
    unfold gets in Hh. inversion Hh. subst s1' h. clear Hh.
    apply bind_inv_Ok in H as (s2 & sens & Hadj & H).
    apply run_adjoint_inv in Hadj as (steps & Htrace).
    apply bind_inv_Ok in H as (s3 & [] & Hw1 & H).
    apply bind_inv_Ok in H as (s4 & [] & Hw2 & H).
    apply bind_inv_Ok in H as (s5 & [] & Hrows & H).
    unfold ret in H. inversion H. subst s5 v vector. clear H.
    unfold logfile_write, record, modify in Hw1, Hw2.
    inversion Hw1. subst s3. inversion Hw2. subst s4. clear Hw1 Hw2.
    match type of Hrows with
    | write_rows ?rows ?sx = _ =>
        pose proof (write_rows_frame rows sx) as [Hgas Hinfo]
    end.
    rewrite Hrows in Hgas, Hinfo. cbn in Hgas, Hinfo.
    exists s1, s2, steps, sens.
    split; [exact Hev|]. split; [exact Htrace|].
    split; [exact Hgas|]. split; [exact Hinfo|].
    intros steps0 i dp Hsteps.
    destruct (adjoint_trace_last ids _ _ _ _ _ Htrace steps0 i dp Hsteps)
      as (id & Hid & Hget).
    exists id. split; [exact Hid|].
    rewrite (get_parameter_ext id s' s2 Hinfo Hgas). now rewrite Hget.
  - intros ev ld fraction value acc id s s' l H.
    apply sensitivity_step_inv in H as (c & _ & Hfd).
    destruct Hfd as (info & m & s1 & plus & s2 & s3 & s4 & minus & s5 & s6
                     & _ & Hget & _ & _ & _ & _ & _ & Hp & _ & Hlog).
    exists m, s5, s6. split; [exact Hget|]. split; [exact Hp|].
    unfold logfile_write, record, modify in Hlog. inversion Hlog. reflexivity.
Qed.

Lemma adjoint_sensitivity_leaves_parameters_perturbed_witness :
  let ct := Examples.ct_ok in
  let s := Examples.model_built ct in
  let s' := fst (sensitivity ct 0.01 [0; 1] s) in
  snd (get_parameter 0 (Examples.model_live ct)) = Ok 2%float /\
  exists s1 s2 steps sens,
    evaluate ct s = (s1, Ok 40%float) /\
    adjoint_trace [0; 1]
      (solve_adjoint ct (history s1) 2
         (flame_Nvars ct (history s1), flame_i_Su ct (history s1)))
      s1 steps sens s2 /\
    gas s' = gas s2 /\
    model_parameter_info s' = model_parameter_info s2 /\
    forall steps0 i dp, steps = (steps0 ++ [(i, dp)])%list ->
      exists id, py_getitem [0; 1] i = Ok id /\
                 snd (get_parameter id s') = Ok (1 + dp)%float.
Proof.
  cbv zeta. split; [vm_compute; reflexivity|].
  apply (proj1 (proj2 (adjoint_sensitivity_leaves_parameters_perturbed
                         Examples.ct_ok [0; 1]))
           0.01%float (Examples.model_built Examples.ct_ok) 40%float
           [1%float]).
  vm_compute. reflexivity.
Defined.

(** On the sample model the adjoint routine leaves the first parameter, 2
    before, at 1, and the finite-difference routine leaves it at 2. *)
Example parameter_after_the_two_sensitivities :
  let ct := Examples.ct_ok in
  let s := Examples.model_built ct in
  let ev := evaluate ct in
  let sv := save_restart ct None "restart" "Base solution for this flame speed" in
  let ld := load_restart ct None "restart" in
  snd (get_parameter 0 (Examples.model_live ct)) = Ok 2%float /\
  snd (get_parameter 0 (fst (sensitivity ct 0.01 [0; 1] s))) = Ok 1%float /\
  snd (get_parameter 0
         (fst (CanteraChemistryModel.sensitivity ev sv ld 0.01 [0; 1] s)))
  = Ok 2%float.
Proof. repeat split; vm_compute; reflexivity. Qed.

(** * Further properties *)

(** ** Parameter ids *)

Lemma py_getitem_out_of_range {A} (l : list A) i :
  i < - Z.of_nat (length l) \/ Z.of_nat (length l) <= i ->
  py_getitem l i = Raise IndexError.
Proof.
  intros H. unfold py_getitem.
  destruct (i <? 0) eqn:Hneg.
  - apply Z.ltb_lt in Hneg.
    destruct (i + Z.of_nat (length l) <? 0) eqn:Hj; [reflexivity|].
    apply Z.ltb_ge in Hj. lia.
  - apply Z.ltb_ge in Hneg.
    destruct (i <? 0) eqn:Hj; [reflexivity|]. cbn [orb].
    destruct (Z.of_nat (length l) <=? i) eqn:Hn; [reflexivity|].
    apply Z.leb_gt in Hn. lia.
Qed.

Lemma py_getitem_negative {A} (l : list A) i :
  - Z.of_nat (length l) <= i < 0 ->
  py_getitem l i = py_getitem l (i + Z.of_nat (length l)).
Proof.
  intros H. unfold py_getitem. cbv zeta.
  assert (Hi : (i <? 0) = true) by (apply Z.ltb_lt; lia).
  assert (Hj : (i + Z.of_nat (length l) <? 0) = false)
    by (apply Z.ltb_ge; lia).
  now rewrite Hi, !Hj.
Qed.

Lemma py_getitem_in_range {A} (l : list A) i :
  0 <= i < Z.of_nat (length l) ->
  exists x, py_getitem l i = Ok x /\ l !! Z.to_nat i = Some x.
Proof.
  intros H. unfold py_getitem. cbv zeta.
  assert (Hi : (i <? 0) = false) by (apply Z.ltb_ge; lia).
  assert (Hn : (Z.of_nat (length l) <=? i) = false) by (apply Z.leb_gt; lia).
  rewrite !Hi, Hn. cbn [orb].
  destruct (lookup_lt_is_Some_2 l (Z.to_nat i)) as [x Hx]; [lia|].
  exists x. now rewrite Hx.
Qed.

(** X1.  A parameter id is a Python list index into the catalog: an id
    outside [-n, n) makes [get_parameter] and [perturb_parameter] raise
    IndexError and leave the model as it was, and a negative id in range
    names the entry [n + id], counted from the end of the catalog. *)
Theorem parameter_id_is_a_python_index s id :
  let n := Z.of_nat (length (model_parameter_info s)) in
  (id < - n \/ n <= id ->
   get_parameter id s = (s, Raise IndexError) /\
   forall v, perturb_parameter id v s = (s, Raise IndexError)) /\
  (- n <= id < 0 ->
   get_parameter id s = get_parameter (id + n) s /\
   forall v, perturb_parameter id v s = perturb_parameter (id + n) v s).
Proof.
  cbv zeta. split.
  - intros H. apply py_getitem_out_of_range in H.
    unfold get_parameter, perturb_parameter, bind. rewrite H.
    split; [reflexivity|]. intros v. reflexivity.
  - intros H. apply py_getitem_negative in H.
    unfold get_parameter, perturb_parameter, bind. rewrite H.
    split; [reflexivity|]. intros v. reflexivity.
Qed.

Lemma parameter_id_is_a_python_index_witness :
  let s := Examples.model_live Examples.ct_ok in
  get_parameter 3 s = (s, Raise IndexError) /\
  get_parameter (-1) s = get_parameter 2 s /\
  snd (get_parameter (-1) s) = Ok 2%float.
Proof.
  cbv zeta.
  destruct (parameter_id_is_a_python_index
              (Examples.model_live Examples.ct_ok) 3) as [Hout _].
  destruct (parameter_id_is_a_python_index
              (Examples.model_live Examples.ct_ok) (-1)) as [_ Hneg].
  split; [apply Hout; right; vm_compute; intros H; discriminate H|].
  split; [apply Hneg; split;
          [vm_compute; intros H; discriminate H | reflexivity]|].
  vm_compute. reflexivity.
Defined.

(** ** Reading and writing a parameter *)

Lemma perturb_parameter_inv id v s s' :
  perturb_parameter id v s = (s', Ok tt) ->
  exists info g r r',
    py_getitem (model_parameter_info s) id = Ok info /\
    gas s = Some g /\
    reactions g !! reaction_number info = Some r /\
    perturb_reaction (no_falloff s) (parameter_type info) v r = Ok r' /\
    s' = perturbed (reaction_number info) r' g s.
Proof.
  intros H.
  destruct (py_getitem (model_parameter_info s) id) as [info|e] eqn:Hi;
    [|unfold perturb_parameter, bind in H; rewrite Hi in H; discriminate].
  destruct (gas s) as [g|] eqn:Hg;
    [|unfold perturb_parameter, bind, self_gas in H;
      rewrite Hi, Hg in H; discriminate].
  destruct (reactions g !! reaction_number info) as [r|] eqn:Hr;
    [|unfold perturb_parameter, bind, self_gas, lift, gas_reaction in H;
      rewrite Hi, Hg, Hr in H; discriminate].
  destruct (perturb_reaction (no_falloff s) (parameter_type info) v r)
    as [r'|e] eqn:Hp.
  - rewrite (perturb_parameter_run s id v info g r r' Hi Hg Hr Hp) in H.
    inversion H. eauto 10.
  - rewrite (perturb_parameter_raises s id v info g r e Hi Hg Hr Hp) in H.
    discriminate.
Qed.

Lemma get_parameter_inv id s m :
  get_parameter id s = (s, Ok m) ->
  exists info g r,
    py_getitem (model_parameter_info s) id = Ok info /\
    gas s = Some g /\
    reactions g !! reaction_number info = Some r /\
    read_parameter (parameter_type info) r = Ok m.
Proof.
  intros H.
  destruct (py_getitem (model_parameter_info s) id) as [info|e] eqn:Hi;
    [|unfold get_parameter, bind in H; rewrite Hi in H; discriminate].
  destruct (gas s) as [g|] eqn:Hg;
    [|unfold get_parameter, bind, self_gas in H;
      rewrite Hi, Hg in H; discriminate].
  destruct (reactions g !! reaction_number info) as [r|] eqn:Hr;
    [|unfold get_parameter, bind, self_gas, lift, gas_reaction in H;
      rewrite Hi, Hg, Hr in H; discriminate].
  rewrite (get_parameter_run s id info g r Hi Hg Hr) in H.
  inversion H. eauto 10.
Qed.

(** A parameter that can be read can be written with any value that is not
    a zero. *)
Lemma perturb_reaction_succeeds nf ty v r m :
  read_parameter ty r = Ok m ->
  (v =? 0)%float = false ->
  exists r', perturb_reaction nf ty v r = Ok r'.
Proof.
  unfold read_parameter, perturb_reaction, py_truediv, bindr.
  intros Hread ->.
  destruct (py_in "pressure" ty), (py_in "High" ty), (py_in "Low" ty),
    (py_in "A" ty), (py_in "E" ty), nf;
    cbn in *; try discriminate; eauto.
Qed.

(** X2.  Write then read: when [get_parameter] returns for an id,
    [perturb_parameter] with a value other than 0.0 returns too, and
    [get_parameter] then returns the value written. *)
Theorem perturb_then_get id v s m :
  get_parameter id s = (s, Ok m) ->
  (v =? 0)%float = false ->
  exists s',
    perturb_parameter id v s = (s', Ok tt) /\
    get_parameter id s' = (s', Ok v).
Proof.
  intros Hget Hv.
  destruct (get_parameter_inv id s m Hget) as (info & g & r & Hi & Hg & Hr & Hread).
  destruct (perturb_reaction_succeeds (no_falloff s) _ v r m Hread Hv)
    as [r' Hp].
  exists (perturbed (reaction_number info) r' g s).
  pose proof (perturb_parameter_run s id v info g r r' Hi Hg Hr Hp) as Hrun.
  split; [exact Hrun|].
  eapply get_after_perturb; eassumption.
Qed.

Lemma perturb_then_get_witness :
  let s := Examples.model_live Examples.ct_ok in
  get_parameter 1 s = (s, Ok 2%float) /\
  exists s', perturb_parameter 1 4 s = (s', Ok tt) /\
             get_parameter 1 s' = (s', Ok 4%float).
Proof.
  cbv zeta. split; [vm_compute; reflexivity|].
  apply (perturb_then_get 1 4 (Examples.model_live Examples.ct_ok) 2);
    vm_compute; reflexivity.
Defined.

(** The rate laws are the only attributes of a reaction that
    [perturb_reaction] assigns. *)
Lemma perturb_reaction_keeps nf ty v r r' :
  perturb_reaction nf ty v r = Ok r' ->
  reaction_type r' = reaction_type r /\
  equation r' = equation r /\
  efficiencies r' = efficiencies r /\
  default_efficiency r' = default_efficiency r.
Proof.
  unfold perturb_reaction, py_truediv, bindr.
  destruct (py_in "pressure" ty), (py_in "High" ty), (py_in "Low" ty),
    (py_in "A" ty), (py_in "E" ty), nf, (v =? 0)%float;
    cbn; intros H; try discriminate; inversion H; subst r'; cbn; tauto.
Qed.

(** X3.  What [perturb_parameter] never writes: it keeps the number of
    reactions, the thermodynamic state, every reaction other than the one
    its catalog entry names, and that reaction's type, equation and
    third-body efficiencies. *)
Theorem perturb_parameter_writes_one_rate_law id v s s' :
  perturb_parameter id v s = (s', Ok tt) ->
  exists info g g',
    py_getitem (model_parameter_info s) id = Ok info /\
    gas s = Some g /\ gas s' = Some g' /\
    TPX g' = TPX g /\
    length (reactions g') = length (reactions g) /\
    (forall n, n <> reaction_number info ->
               reactions g' !! n = reactions g !! n) /\
    (exists r r',
       reactions g !! reaction_number info = Some r /\
       reactions g' !! reaction_number info = Some r' /\
       reaction_type r' = reaction_type r /\
       equation r' = equation r /\
       efficiencies r' = efficiencies r /\
       default_efficiency r' = default_efficiency r).
Proof.
  intros H.
  apply perturb_parameter_inv in H as (info & g & r & r' & Hi & Hg & Hr & Hp & ->).
  exists info, g, (modify_reaction (reaction_number info) r' g).
  split; [exact Hi|]. split; [exact Hg|]. split; [reflexivity|].
  split; [reflexivity|]. split; [apply length_insert|].
  split.
  - intros n Hn. cbn. apply list_lookup_insert_ne. congruence.
  - exists r, r'. split; [exact Hr|]. split.
    + cbn. apply list_lookup_insert_eq. now apply lookup_lt_Some in Hr.
    + eapply perturb_reaction_keeps. exact Hp.
Qed.

Lemma perturb_parameter_writes_one_rate_law_witness :
  let s := Examples.model_live Examples.ct_ok in
  let s' := fst (perturb_parameter 1 4 s) in
  exists info g g',
    py_getitem (model_parameter_info s) 1 = Ok info /\
    gas s = Some g /\ gas s' = Some g' /\
    length (reactions g') = length (reactions g) /\
    reactions g' !! 0%nat = reactions g !! 0%nat.
Proof.
  cbv zeta.
  assert (Hp : perturb_parameter 1 4 (Examples.model_live Examples.ct_ok)
               = (fst (perturb_parameter 1 4
                         (Examples.model_live Examples.ct_ok)), Ok tt))
    by (vm_compute; reflexivity).
  destruct (perturb_parameter_writes_one_rate_law 1 4 _ _ Hp)
    as (info & g & g' & Hi & Hg & Hg' & _ & Hlen & Hother & _).
  exists info, g, g'.
  repeat split; try assumption.
  apply Hother. intros Heq.
  assert (Hn : py_getitem
                 (model_parameter_info (Examples.model_live Examples.ct_ok)) 1
               = Ok info) by exact Hi.
  vm_compute in Hn. inversion Hn. subst info. discriminate Heq.
Defined.

(** Writing one of the six coefficients leaves the reading of another one
    of the same reaction as it was, except that with [no_falloff] set a
    write to the high-pressure branch reaches the low-pressure branch. *)
Lemma perturb_reaction_other_coefficient nf ty ty2 v r r' :
  ty ∈ rate_types -> ty2 ∈ rate_types -> ty <> ty2 ->
  nf = false \/ py_in "Low" ty2 = false ->
  perturb_reaction nf ty v r = Ok r' ->
  read_parameter ty2 r' = read_parameter ty2 r.
Proof.
  unfold rate_types. intros Hty Hty2 Hne Hnf Hp.
  repeat (apply elem_of_cons in Hty as [->|Hty]);
    [..|apply elem_of_nil in Hty; contradiction];
    (repeat (apply elem_of_cons in Hty2 as [->|Hty2]);
     [..|apply elem_of_nil in Hty2; contradiction]);
    try congruence;
    unfold perturb_reaction, py_truediv, bindr in Hp; cbn in Hp;
    try (destruct (v =? 0)%float; [discriminate Hp|]);
    destruct nf; try (destruct Hnf as [Hnf|Hnf]; discriminate Hnf);
    inversion Hp; subst r'; reflexivity.
Qed.

(** X4.  The rate coefficients are independent parameters: after a write
    to one catalog entry, an entry that names another reaction, or another
    of the six coefficients of the same reaction, reads as before.  With
    [no_falloff] set this holds for the entries that are not low-pressure
    ones. *)
Theorem rate_parameters_are_independent id id2 v s s' info info2 :
  py_getitem (model_parameter_info s) id = Ok info ->
  py_getitem (model_parameter_info s) id2 = Ok info2 ->
  reaction_number info <> reaction_number info2 \/
  (parameter_type info ∈ rate_types /\
   parameter_type info2 ∈ rate_types /\
   parameter_type info <> parameter_type info2 /\
   (no_falloff s = false \/ py_in "Low" (parameter_type info2) = false)) ->
  perturb_parameter id v s = (s', Ok tt) ->
  snd (get_parameter id2 s') = snd (get_parameter id2 s).
Proof.
  intros Hi Hi2 Hcase Hp.
  apply perturb_parameter_inv in Hp
    as (info' & g & r & r' & Hi' & Hg & Hr & Hpr & ->).
  rewrite Hi in Hi'. inversion Hi'. subst info'. clear Hi'.
  unfold get_parameter, bind, self_gas, lift, gas_reaction.
  cbn [model_parameter_info perturbed set_gas set_history gas].
  rewrite Hi2, Hg. cbn [reactions modify_reaction snd].
  destruct (decide (reaction_number info = reaction_number info2)) as [Heq|Hne].
  - destruct Hcase as [Hcase|(Hty & Hty2 & Hdiff & Hnf)]; [contradiction|].
    rewrite <- Heq, Hr.
    rewrite list_lookup_insert_eq by (now apply lookup_lt_Some in Hr).
    cbn [snd].
    apply (perturb_reaction_other_coefficient
             (no_falloff s) (parameter_type info) _ v r r'); assumption.
  - rewrite list_lookup_insert_ne by exact Hne.
    destruct (reactions g !! reaction_number info2); reflexivity.
Qed.

Lemma rate_parameters_are_independent_witness :
  let s := MoreExamples.model_live in
  let s' := fst (perturb_parameter 0 9 s) in
  snd (get_parameter 0 s') = Ok 9%float /\
  snd (get_parameter 1 s') = snd (get_parameter 1 s).
Proof.
  cbv zeta. split; [vm_compute; reflexivity|].
  apply (rate_parameters_are_independent 0 1 9 MoreExamples.model_live _
           (mk_info 0 "A_factor" "H + O2 <=> O + OH:A")
           (mk_info 0 "Energy" "H + O2 <=> O + OH:E")).
  - vm_compute. reflexivity.
  - vm_compute. reflexivity.
  - right. split; [|split; [|split]].
    + unfold rate_types. cbn. repeat constructor.
    + unfold rate_types. cbn. repeat constructor.
    + discriminate.
    + left. reflexivity.
  - vm_compute. reflexivity.
Defined.

(** X5.  An Efficiency entry of a three-body reaction is read and written
    as the activation energy of the reaction's [rate]: 'Efficiency' holds
    an 'E' and no 'A' and is not a pressure type, so the accessors take
    the branch of the Energy entry; the third-body efficiencies are
    neither read nor written. *)
Theorem efficiency_entry_aliases_the_activation_energy s id v info g r :
  py_getitem (model_parameter_info s) id = Ok info ->
  parameter_type info = "Efficiency" ->
  gas s = Some g ->
  reactions g !! reaction_number info = Some r ->
  reaction_type r = 2 ->
  get_parameter id s = (s, Ok (activation_energy (rate r))) /\
  exists r',
    perturb_parameter id v s = (perturbed (reaction_number info) r' g s, Ok tt) /\
    rate r' = ct_Arrhenius (pre_exponential_factor (rate r))
                           (temperature_exponent (rate r)) v /\
    efficiencies r' = efficiencies r /\
    high_rate r' = high_rate r /\ low_rate r' = low_rate r.
Proof.
  intros Hi Hty Hg Hr _. split.
  - rewrite (get_parameter_run s id info g r Hi Hg Hr), Hty. reflexivity.
  - eexists. split.
    + eapply perturb_parameter_run; eauto. rewrite Hty. reflexivity.
    + repeat split.
Qed.

Lemma efficiency_entry_aliases_the_activation_energy_witness :
  let s := MoreExamples.model_live in
  (species <$> model_parameter_info s !! 4%nat) = Some (Some "H2O") /\
  efficiency MoreExamples.r_three_body "H2O" = 12%float /\
  get_parameter 4 s = (s, Ok 4%float).
Proof.
  cbv zeta. split; [vm_compute; reflexivity|]. split; [reflexivity|].
  apply (efficiency_entry_aliases_the_activation_energy
           MoreExamples.model_live 4 0
           {| reaction_number := 1; parameter_type := "Efficiency";
              parameter_name := "H + O2 + M <=> HO2 + M:Eff:H2O";
              species := Some "H2O" |}
           {| reactions := MoreExamples.mechanism;
              TPX := Some (300, 101325, "CH4:1, O2:2, N2:7.52")%float |}
           MoreExamples.r_three_body); vm_compute; reflexivity.
Defined.

(** X6.  A zero is refused for a High-pressure-A and for no other
    pre-exponential factor: line 263 divides by the new value whatever
    [no_falloff] is, so writing 0.0 (or -0.0) to a High-pressure-A raises
    ZeroDivisionError and leaves the model as it was, while the same value
    is written to an A-factor or to a Low-pressure-A. *)
Theorem zero_is_refused_for_a_high_pressure_A s id v info g r :
  py_getitem (model_parameter_info s) id = Ok info ->
  gas s = Some g ->
  reactions g !! reaction_number info = Some r ->
  (v =? 0)%float = true ->
  (parameter_type info = "High_pressure_A" ->
   perturb_parameter id v s = (s, Raise ZeroDivisionError)) /\
  (parameter_type info = "A_factor" \/ parameter_type info = "Low_pressure_A" ->
   exists s', perturb_parameter id v s = (s', Ok tt) /\
              get_parameter id s' = (s', Ok v)).
Proof.
  intros Hi Hg Hr Hv. split.
  - intros Hty. eapply perturb_parameter_raises; eauto.
    rewrite Hty, perturb_reaction_High_pressure_A, Hv. reflexivity.
  - intros Hty.
    assert (Hp : exists r', perturb_reaction (no_falloff s)
                              (parameter_type info) v r = Ok r').
    { destruct Hty as [-> | ->]; destruct (no_falloff s); eexists; reflexivity. }
    destruct Hp as [r' Hp].
    exists (perturbed (reaction_number info) r' g s).
    pose proof (perturb_parameter_run s id v info g r r' Hi Hg Hr Hp) as Hrun.
    split; [exact Hrun|].
    assert (Hget : exists m, get_parameter id s = (s, Ok m)).
    { rewrite (get_parameter_run s id info g r Hi Hg Hr).
      destruct Hty as [-> | ->]; eexists; reflexivity. }
    destruct Hget as [m Hget].
    eapply get_after_perturb; eassumption.
Qed.

Lemma zero_is_refused_for_a_high_pressure_A_witness :
  let s := Examples.model_live Examples.ct_ok in
  perturb_parameter 1 0 s = (s, Raise ZeroDivisionError) /\
  perturb_parameter 1 (-0) s = (s, Raise ZeroDivisionError) /\
  snd (perturb_parameter 0 0 s) = Ok tt.
Proof.
  cbv zeta.
  assert (H : forall v, (v =? 0)%float = true ->
              perturb_parameter 1 v (Examples.model_live Examples.ct_ok)
              = (Examples.model_live Examples.ct_ok, Raise ZeroDivisionError)).
  { intros v Hv.
    apply (zero_is_refused_for_a_high_pressure_A
             (Examples.model_live Examples.ct_ok) 1 v
             (mk_info 1 "High_pressure_A" "H + O2 (+M) <=> HO2 (+M):HpA")
             {| reactions := Examples.mechanism;
                TPX := Some (300, 101325, "CH4:1, O2:2, N2:7.52")%float |}
             Examples.r_falloff);
      try exact Hv; vm_compute; reflexivity. }
  split; [apply H; reflexivity|]. split; [apply H; reflexivity|].
  vm_compute. reflexivity.
Defined.

(** ** The catalog *)

(** X7.  A reaction of type 2 or 4 whose efficiencies have distinct species
    contributes one Efficiency entry for each species of strictly positive
    efficiency, in the order of the dict, tagged with the species and
    named after it; a species whose efficiency is zero, negative or not a
    number contributes none. *)
Theorem efficiency_entries_one_per_positive_species name n r :
  reaction_type r = 2 \/ reaction_type r = 4 ->
  NoDup (map fst (efficiencies r)) ->
  let entries := filter (fun p => is_efficiency p = true)
                        (reaction_info_of name n r) in
  omap species entries
  = filter (fun sp => (0 <? efficiency r sp)%float = true)
           (map fst (efficiencies r)) /\
  NoDup (omap species entries) /\
  Forall (fun p => reaction_number p = n /\
                   exists sp, species p = Some sp /\
                              parameter_name p = name ++ ":Eff:" ++ sp /\
                              (0 <? efficiency r sp)%float = true) entries.
Proof.
  intros Hty Hnodup. cbv zeta.
  rewrite reaction_info_of_spec.
  replace ((reaction_type r =? 4) || (reaction_type r =? 2)) with true
    by (destruct Hty as [-> | ->]; reflexivity).
  rewrite efficiency_entries_spec, filter_app, rate_entries_no_efficiency.
  rewrite app_nil_l.
  set (keys := filter (fun sp => (0 <? efficiency r sp)%float = true)
                      (map fst (efficiencies r))).
  assert (Hkeys : Forall (fun sp => (0 <? efficiency r sp)%float = true) keys).
  { apply Forall_forall. intros sp Hsp.
    now apply list_elem_of_filter in Hsp as [Hsp _]. }
  assert (Hentries :
            filter (fun p => is_efficiency p = true)
              (map (fun sp => mk_efficiency n sp (name ++ ":Eff:" ++ sp)) keys)
            = map (fun sp => mk_efficiency n sp (name ++ ":Eff:" ++ sp)) keys).
  { clear. induction keys as [|sp l IH]; [reflexivity|].
    cbn [map]. rewrite filter_cons.
    destruct (decide _) as [_|Hn]; [now rewrite IH|].
    exfalso. apply Hn. reflexivity. }
  rewrite Hentries.
  assert (Hspecies :
            omap species
              (map (fun sp => mk_efficiency n sp (name ++ ":Eff:" ++ sp)) keys)
            = keys).
  { clear. induction keys as [|sp l IH]; [reflexivity|].
    cbn. now rewrite IH. }
  rewrite Hspecies.
  split; [reflexivity|]. split.
  - apply NoDup_filter. exact Hnodup.
  - clear Hentries Hspecies. induction Hkeys as [|sp l Hsp _ IH]; cbn [map].
    + constructor.
    + constructor; [|exact IH]. split; [reflexivity|].
      exists sp. repeat split. exact Hsp.
Qed.

Lemma efficiency_entries_one_per_positive_species_witness :
  let entries := filter (fun p => is_efficiency p = true)
                   (reaction_info_of "R" 1 MoreExamples.r_three_body) in
  map fst (efficiencies MoreExamples.r_three_body) = ["H2O"; "AR"; "H2"] /\
  omap species entries = ["H2O"; "H2"].
Proof.
  cbv zeta. split; [reflexivity|].
  destruct (efficiency_entries_one_per_positive_species "R" 1
              MoreExamples.r_three_body) as [Hsp _].
  - left. reflexivity.
  - cbn. repeat constructor; cbn; intros H;
      repeat (apply elem_of_cons in H as [H|H]; [discriminate H|]);
      apply elem_of_nil in H; contradiction.
  - rewrite Hsp. reflexivity.
Defined.

(** What the three flags exclude. *)
Lemma include_this_parameter_spec e n f p :
  include_this_parameter e n f p = true <->
  (e = true -> parameter_type p <> "Efficiency") /\
  (n = true -> parameter_type p <> "Energy" /\
               parameter_type p <> "Low_pressure_E" /\
               parameter_type p <> "High_pressure_E") /\
  (f = true -> parameter_type p <> "Low_pressure_A" /\
               parameter_type p <> "Low_pressure_E" /\
               parameter_type p <> "High_pressure_E").
Proof.
  unfold include_this_parameter.
  destruct (String.eqb_spec (parameter_type p) "Efficiency");
    destruct (String.eqb_spec (parameter_type p) "Energy");
    destruct (String.eqb_spec (parameter_type p) "Low_pressure_E");
    destruct (String.eqb_spec (parameter_type p) "High_pressure_E");
    destruct (String.eqb_spec (parameter_type p) "Low_pressure_A");
    destruct e, n, f; cbn; split;
    try (intros H; discriminate H);
    try (intros _; repeat split; intros; first [assumption|discriminate]);
    try (intros (He & Hn & Hf);
         first [ exfalso; now apply He
               | exfalso; destruct (Hn eq_refl) as (? & ? & ?); contradiction
               | exfalso; destruct (Hf eq_refl) as (? & ? & ?); contradiction
               | reflexivity ]).
Qed.

(** X8.  Whatever the flags, the catalog is the unfiltered catalog with
    the excluded types left out: its entries keep the order they have in
    the unfiltered catalog, and an entry of the unfiltered catalog is kept
    unless it is an Efficiency under [no_efficiencies], an activation
    energy under [no_energy], or a Low-pressure-A, Low-pressure-E or
    High-pressure-E under [no_falloff].  Building a catalog leaves the
    model as it was. *)
Theorem catalog_is_the_full_catalog_filtered ct e n f s g :
  gas s = Some g ->
  (length (ct_Solution ct (chemistry_model s)) <= length (reactions g))%nat ->
  exists full catalog,
    get_model_parameter_info ct false false false s = (s, Ok full) /\
    get_model_parameter_info ct e n f s = (s, Ok catalog) /\
    catalog `sublist_of` full /\
    forall p,
      p ∈ catalog <->
      p ∈ full /\
      (e = true -> parameter_type p <> "Efficiency") /\
      (n = true -> parameter_type p <> "Energy" /\
                   parameter_type p <> "Low_pressure_E" /\
                   parameter_type p <> "High_pressure_E") /\
      (f = true -> parameter_type p <> "Low_pressure_A" /\
                   parameter_type p <> "Low_pressure_E" /\
                   parameter_type p <> "High_pressure_E").
Proof.
  intros Hg Hlen.
  exists (full_catalog g 0 (ct_Solution ct (chemistry_model s))).
  eexists. split; [|split; [|split]].
  - rewrite (get_model_parameter_info_run ct _ _ _ s g Hg Hlen).
    now rewrite filter_no_flags.
  - apply (get_model_parameter_info_run ct _ _ _ s g Hg Hlen).
  - apply sublist_filter.
  - intros p. rewrite list_elem_of_filter, include_this_parameter_spec. tauto.
Qed.

Lemma catalog_is_the_full_catalog_filtered_witness :
  let s := MoreExamples.model_live in
  exists full catalog,
    get_model_parameter_info MoreExamples.ct false false false s = (s, Ok full) /\
    get_model_parameter_info MoreExamples.ct false true false s = (s, Ok catalog) /\
    catalog `sublist_of` full /\
    length full = 11%nat.
Proof.
  cbv zeta.
  destruct (catalog_is_the_full_catalog_filtered MoreExamples.ct false true false
              MoreExamples.model_live
              {| reactions := MoreExamples.mechanism;
                 TPX := Some (300, 101325, "CH4:1, O2:2, N2:7.52")%float |})
    as (full & catalog & Hfull & Hcat & Hsub & _).
  - vm_compute. reflexivity.
  - cbn. lia.
  - exists full, catalog. repeat split; try assumption.
    assert (H : snd (get_model_parameter_info MoreExamples.ct false false false
                       MoreExamples.model_live) = Ok full)
      by now rewrite Hfull.
    vm_compute in H. inversion H. reflexivity.
Defined.

(** ** The constructor and the life cycle of the chemistry *)

Lemma prepare_chemistry_run ct e n f s :
  let mech := ct_Solution ct (chemistry_model s) in
  let g := {| reactions := mech;
              TPX := Some (T (initial s), P (initial s),
                           composition (initial s)) |} in
  exists s',
    prepare_chemistry ct e n f s = (s', Ok tt) /\
    gas s' = None /\ reactor s' = None /\ simulation s' = None /\
    model_parameter_info s'
    = filter (fun p => include_this_parameter e n f p = true)
             (full_catalog g 0 mech) /\
    number_parameters s' = length (model_parameter_info s') /\
    no_efficiencies s' = e /\ no_energy s' = n /\ no_falloff s' = f /\
    chemistry_model s' = chemistry_model s /\ initial s' = initial s /\
    _restart s' = _restart s /\ _sens_flag s' = _sens_flag s /\
    history s' = history s /\ stdout s' = stdout s /\
    savefile s' = savefile s /\ loglevel s' = loglevel s /\
    _initial_grid s' = _initial_grid s.
Proof.
  cbv zeta. unfold prepare_chemistry.
  erewrite bind_Ok by reflexivity.
  erewrite bind_Ok by reflexivity.
  erewrite bind_Ok by reflexivity.
  erewrite bind_Ok.
  2:{ eapply get_model_parameter_info_run; [reflexivity|]. cbn. lia. }
  eexists. split; [reflexivity|].
  cbn. repeat split; reflexivity.
Qed.

Lemma constructor_catalog ct st path len pts ll name e n f :
  let mech := ct_Solution ct path in
  let g := {| reactions := mech;
              TPX := Some (T st, P st, composition st) |} in
  exists s0,
    init ct st path len pts ll name e n f = (s0, Ok tt) /\
    model_parameter_info s0
    = filter (fun p => include_this_parameter e n f p = true)
             (full_catalog g 0 mech) /\
    gas s0 = None /\
    chemistry_model s0 = path /\ initial s0 = st.
Proof.
  cbv zeta. unfold init.
  match goal with
  | |- context [prepare_chemistry ct e n f ?s] =>
      destruct (prepare_chemistry_run ct e n f s)
        as (s0 & Hrun & Hg & _ & _ & Hcat & _ & _ & _ & _ & Hpath & Hst & _)
  end.
  exists s0. cbn in Hcat, Hpath, Hst. repeat split; assumption.
Qed.

(** X9.  Constructing a [FlameSpeed] builds the catalog from the mechanism
    and leaves the object without chemistry: once Cantera has loaded the
    mechanism the constructor returns, [model_parameter_info] is the
    catalog of the mechanism filtered by the three flags,
    [number_parameters] is its length, no restart is recorded, and the
    gas, the reactor and the flame are None, so that every call of
    [get_parameter] or [perturb_parameter] before the chemistry is
    initialized raises (IndexError for an id out of range, AttributeError
    otherwise) and changes nothing. *)
Theorem constructor_builds_the_catalog_and_blanks_the_chemistry
    ct st path len pts ll name e n f :
  let mech := ct_Solution ct path in
  let g := {| reactions := mech;
              TPX := Some (T st, P st, composition st) |} in
  exists s0,
    init ct st path len pts ll name e n f = (s0, Ok tt) /\
    model_parameter_info s0
    = filter (fun p => include_this_parameter e n f p = true)
             (full_catalog g 0 mech) /\
    number_parameters s0 = length (model_parameter_info s0) /\
    gas s0 = None /\ reactor s0 = None /\ simulation s0 = None /\
    _restart s0 = None /\ _sens_flag s0 = false /\
    history s0 = [] /\
    forall id,
      let k := Z.of_nat (number_parameters s0) in
      let err := if (id <? - k) || (k <=? id) then IndexError
               else AttributeError in
      get_parameter id s0 = (s0, Raise err) /\
      forall v, perturb_parameter id v s0 = (s0, Raise err).
Proof.
  cbv zeta. unfold init.
  match goal with
  | |- context [prepare_chemistry ct e n f ?s] =>
      destruct (prepare_chemistry_run ct e n f s)
        as (s0 & Hrun & Hg & Hr & Hsim & Hcat & Hnum & _ & _ & _ & _ & _
            & Hrestart & Hflag & Hh & _)
  end.
  exists s0. cbn in Hcat, Hrestart, Hflag, Hh.
  repeat (split; [assumption|]).
  intros id. rewrite Hnum.
  destruct ((id <? - Z.of_nat (length (model_parameter_info s0)))
            || (Z.of_nat (length (model_parameter_info s0)) <=? id)) eqn:Hid.
  - assert (Hout : py_getitem (model_parameter_info s0) id = Raise IndexError).
    { apply py_getitem_out_of_range.
      apply orb_true_iff in Hid as [Hid|Hid];
        [left; now apply Z.ltb_lt | right; now apply Z.leb_le]. }
    unfold get_parameter, perturb_parameter, bind. rewrite Hout.
    split; [reflexivity|]. intros v. reflexivity.
  - apply orb_false_iff in Hid as [Hlo Hhi].
    apply Z.ltb_ge in Hlo. apply Z.leb_gt in Hhi.
    assert (Hin : exists info, py_getitem (model_parameter_info s0) id = Ok info).
    { destruct (Z.ltb_spec id 0) as [Hneg|Hpos].
      - rewrite py_getitem_negative by lia.
        destruct (py_getitem_in_range (model_parameter_info s0)
                    (id + Z.of_nat (length (model_parameter_info s0))))
          as (x & Hx & _); [lia|]. eauto.
      - destruct (py_getitem_in_range (model_parameter_info s0) id)
          as (x & Hx & _); [lia|]. eauto. }
    destruct Hin as [info Hin].
    unfold get_parameter, perturb_parameter, bind, self_gas.
    rewrite Hin, Hg. split; [reflexivity|]. intros v. reflexivity.
Qed.

Lemma py_getitem_elem {A} (l : list A) i x :
  py_getitem l i = Ok x -> x ∈ l.
Proof.
  unfold py_getitem. cbv zeta.
  destruct (_ || _); [discriminate|].
  destruct (l !! _) as [y|] eqn:Hy; [|discriminate].
  intros H. inversion H. subst y.
  eapply list_elem_of_lookup_2. exact Hy.
Qed.

(** The entries of a reaction carry its number; a rate entry names a
    branch the reaction has. *)
Lemma reaction_info_of_elem name n r p :
  p ∈ reaction_info_of name n r ->
  reaction_number p = n /\
  (parameter_type p = "Efficiency" \/
   (has_falloff r = false /\
    (parameter_type p = "A_factor" \/ parameter_type p = "Energy")) \/
   (has_falloff r = true /\
    (parameter_type p = "High_pressure_A" \/
     parameter_type p = "High_pressure_E" \/
     parameter_type p = "Low_pressure_A" \/
     parameter_type p = "Low_pressure_E"))).
Proof.
  rewrite reaction_info_of_spec.
  assert (Hrate : p ∈ rate_entries name n r ->
                  reaction_number p = n /\
                  ((has_falloff r = false /\
                    (parameter_type p = "A_factor" \/
                     parameter_type p = "Energy")) \/
                   (has_falloff r = true /\
                    (parameter_type p = "High_pressure_A" \/
                     parameter_type p = "High_pressure_E" \/
                     parameter_type p = "Low_pressure_A" \/
                     parameter_type p = "Low_pressure_E")))).
  { unfold rate_entries, has_falloff.
    destruct ((reaction_type r =? 4) || (reaction_type r =? 8));
      destruct (energy_is_active (high_rate r)),
               (energy_is_active (low_rate r)),
               (energy_is_active (rate r));
      cbn [app]; intros H;
      repeat (apply elem_of_cons in H as [->|H]; [cbn; tauto|]);
      apply elem_of_nil in H; contradiction. }
  destruct ((reaction_type r =? 4) || (reaction_type r =? 2)).
  - rewrite efficiency_entries_spec. intros H.
    apply elem_of_app in H as [H|H].
    + destruct (Hrate H) as [Hn Hty]. split; [exact Hn|]. now right.
    + apply list_elem_of_fmap in H as (sp & -> & _). cbn. split; [reflexivity|].
      now left.
  - intros H. destruct (Hrate H) as [Hn Hty]. split; [exact Hn|]. now right.
Qed.

Lemma full_catalog_elem g rs : forall n p,
  p ∈ full_catalog g n rs ->
  exists r,
    (n <= reaction_number p)%nat /\
    rs !! (reaction_number p - n)%nat = Some r /\
    p ∈ reaction_info_of (reaction_name g (reaction_number p))
                         (reaction_number p) r.
Proof.
  induction rs as [|r rs IH]; intros n p H; cbn [full_catalog] in H.
  - apply elem_of_nil in H. contradiction.
  - apply elem_of_app in H as [H|H].
    + pose proof (reaction_info_of_elem _ _ _ _ H) as [Hn _].
      exists r. rewrite Hn. split; [lia|]. split.
      * now rewrite Nat.sub_diag.
      * exact H.
    + destruct (IH _ _ H) as (r' & Hle & Hr' & Hp).
      exists r'. split; [lia|]. split; [|exact Hp].
      replace (reaction_number p - n)%nat
        with (S (reaction_number p - S n)) by lia.
      exact Hr'.
Qed.

Lemma coefficient_is_read ty r v :
  coefficient ty r = Some v -> read_parameter ty r = Ok v.
Proof.
  unfold coefficient.
  repeat match goal with
         | |- context [String.eqb ty ?x] =>
             destruct (String.eqb_spec ty x) as [->|_];
             [intros H; inversion H; reflexivity|]
         end.
  discriminate.
Qed.

(** X10.  The catalog and the accessors agree.  On a model as constructed,
    once its chemistry is initialized, every catalog entry other than an
    Efficiency entry names a reaction of the mechanism and a rate law that
    this reaction has (A-factor and Energy for a reaction without falloff,
    the four pressure entries for a reaction of type 4 or 8), and
    [get_parameter] returns the coefficient the entry names, as read from
    the mechanism. *)
Theorem catalog_entries_can_be_read
    ct st path len pts ll name e n f id info :
  let s := fst (initialize_chemistry ct
                  (fst (init ct st path len pts ll name e n f))) in
  py_getitem (model_parameter_info s) id = Ok info ->
  parameter_type info <> "Efficiency" ->
  exists r v,
    ct_Solution ct path !! reaction_number info = Some r /\
    (py_in "pressure" (parameter_type info) = has_falloff r) /\
    coefficient (parameter_type info) r = Some v /\
    get_parameter id s = (s, Ok v).
Proof.
  cbv zeta.
  destruct (constructor_catalog ct st path len pts ll name e n f)
    as (s0 & Hinit & Hcat & Hgas & Hpath & Hst).
  rewrite Hinit. cbn [fst].
  set (g := {| reactions := ct_Solution ct path;
               TPX := Some (T st, P st, composition st) |}) in *.
  assert (Hlive : initialize_chemistry ct s0 = (set_gas (Some g) s0, Ok tt)).
  { unfold initialize_chemistry, bind, self_gas, gets, modify.
    rewrite Hgas. cbn. rewrite Hpath, Hst. reflexivity. }
  rewrite Hlive. cbn [fst].
  change (model_parameter_info (set_gas (Some g) s0))
    with (model_parameter_info s0).
  intros Hi Hty.
  pose proof (py_getitem_elem _ _ _ Hi) as Hin.
  rewrite Hcat in Hin. apply list_elem_of_filter in Hin as [_ Hin].
  apply full_catalog_elem in Hin as (r & _ & Hr & Hp).
  rewrite Nat.sub_0_r in Hr.
  apply reaction_info_of_elem in Hp as [_ Hcases].
  assert (Hcoef : exists v, coefficient (parameter_type info) r = Some v /\
                            py_in "pressure" (parameter_type info)
                            = has_falloff r).
  { destruct Hcases as [Heff | [[Hf Hc] | [Hf Hc]]]; [contradiction| |];
      rewrite Hf;
      repeat (destruct Hc as [Hc|Hc]; [rewrite Hc; eexists; split; reflexivity|]);
      rewrite Hc; eexists; split; reflexivity. }
  destruct Hcoef as (v & Hv & Hpress).
  exists r, v. split; [exact Hr|]. split; [exact Hpress|]. split; [exact Hv|].
  rewrite (get_parameter_run (set_gas (Some g) s0) id info g r Hi eq_refl Hr).
  now rewrite (coefficient_is_read _ _ _ Hv).
Qed.

Lemma catalog_entries_can_be_read_witness :
  let s := MoreExamples.model_live in
  get_parameter 7 s = (s, Ok 8%float) /\
  (reaction_number <$> model_parameter_info s !! 7%nat) = Some 2%nat /\
  coefficient "High_pressure_E" Examples.r_falloff = Some 8%float.
Proof.
  cbv zeta.
  destruct (catalog_entries_can_be_read MoreExamples.ct
              Examples.initial_state "mech.cti" 1 10 2 "soln"
              false false false 7
              (mk_info 2 "High_pressure_E" "H + O2 (+M) <=> HO2 (+M):HpE"))
    as (r & v & Hr & _ & Hv & Hget).
  - vm_compute. reflexivity.
  - discriminate.
  - assert (Hr' : r = Examples.r_falloff).
    { cbn in Hr. now inversion Hr. }
    subst r. split; [|split; [vm_compute; reflexivity | reflexivity]].
    assert (Hv' : v = 8%float).
    { vm_compute in Hv. now inversion Hv. }
    subst v. exact Hget.
Defined.

(** ** Saving, blanking and evaluating *)

(** X11.  [FlameSpeed.prepare_for_save] never raises and always leaves the
    object without gas, reactor and flame, with its catalog as it was.
    With a flame it asks Cantera once to save the solution 'restart' to
    the save file: when the save succeeds the restart is recorded; when it
    raises, and when there is no flame to save, the restart record is left
    as it was and 'No data saved from flame speed solution' is printed. *)
Theorem prepare_for_save_always_blanks ct s :
  let save := CSave (savefile s) "restart" "Base solution for this flame speed" in
  exists s',
    prepare_for_save ct s = (s', Ok tt) /\
    gas s' = None /\ reactor s' = None /\ simulation s' = None /\
    model_parameter_info s' = model_parameter_info s /\
    match simulation s with
    | Some _ =>
        history s' = (history s ++ [save])%list /\
        if save_raises ct (history s ++ [save])
        then _restart s' = _restart s /\
             stdout s' = (stdout s ++ ["No data saved from flame speed solution"])%list
        else _restart s' = Some true /\ stdout s' = stdout s
    | None =>
        history s' = history s /\ _restart s' = _restart s /\
        stdout s' = (stdout s ++ ["No data saved from flame speed solution"])%list
    end.
Proof.
  cbv zeta.
  unfold prepare_for_save, save_restart, simulation_save, try_except, bind,
    self_simulation, gets, record, print, modify, blank_chemistry, raise, ret.
  destruct (simulation s) as [sim|] eqn:Hsim; cbn.
  - rewrite ?Hsim. cbn.
    destruct (save_raises ct _); cbn; eexists; repeat split; reflexivity.
  - rewrite ?Hsim. cbn. eexists. repeat split; reflexivity.
Qed.

(** The gas [evaluate] works on: the one the model has, or the mechanism
    as loaded, at the unburned state. *)
Lemma evaluate_prepare_gas ct s sp :
  evaluate_prepare ct s = (sp, Ok tt) ->
  gas sp = Some (gas_at_evaluate ct s) /\
  reactor sp = reactor s /\
  chemistry_model sp = chemistry_model s /\ initial sp = initial s /\
  no_falloff sp = no_falloff s.
Proof.
  unfold evaluate_prepare, gas_at_evaluate, initialize_chemistry,
    initialize_reactor, sim_set, bind, gets, self_gas, self_simulation,
    modify, ret, raise.
  destruct (gas s) as [g|] eqn:Hg; destruct (simulation s) as [sim|] eqn:Hsim;
    cbn; rewrite ?Hg, ?Hsim; cbn; rewrite ?Hg, ?Hsim; cbn;
    intros H; inversion H; subst sp; cbn; rewrite ?Hg; repeat split.
Qed.

Lemma evaluate_state ct s :
  exists sim h out sp r,
    evaluate_prepare ct s = (sp, Ok tt) /\
    evaluate ct s = (flame_state sim h out sp, r).
Proof.
  destruct (_sens_flag s) eqn:Hflag.
  - destruct (evaluate_path_in_sensitivity ct s Hflag)
      as (sim & sp & Hprep & _ & Hev).
    cbv zeta in Hev. rewrite Hev. eauto 10.
  - destruct (_restart s) as [b|] eqn:Hrestart.
    + destruct (evaluate_path_from_restart ct s b Hrestart Hflag)
        as (sim & sp & Hprep & _ & Hev).
      cbv zeta in Hev. rewrite Hev.
      destruct (restore_raises ct _); eauto 10.
    + destruct (evaluate_path_from_scratch ct s Hrestart Hflag)
        as (sim & sp & Hprep & _ & Hev).
      cbv zeta in Hev. rewrite Hev. eauto 10.
Qed.

(** What [evaluate] leaves as it was, whether it returns or raises. *)
Lemma evaluate_frame ct s :
  let s' := fst (evaluate ct s) in
  gas s' = Some (gas_at_evaluate ct s) /\
  model_parameter_info s' = model_parameter_info s /\
  no_falloff s' = no_falloff s /\
  _restart s' = _restart s /\
  _sens_flag s' = _sens_flag s /\
  is_Some (simulation s').
Proof.
  cbv zeta.
  destruct (evaluate_state ct s) as (sim & h & out & sp & r & Hprep & Hev).
  rewrite Hev. cbn [fst].
  destruct (evaluate_prepare_gas ct s sp Hprep) as (Hgas & _ & _ & _ & Hnf).
  destruct (evaluate_prepare_run ct s)
    as (sim0 & sp0 & Hprep0 & _ & _ & _ & _ & _ & _ & Hrestart & Hflag & Hcat).
  rewrite Hprep in Hprep0. inversion Hprep0. subst sp0. clear Hprep0.
  split; [exact Hgas|]. split; [exact Hcat|]. split; [exact Hnf|].
  split; [exact Hrestart|]. split; [exact Hflag|]. cbn. eauto.
Qed.

(** X12.  [evaluate] solves the flame and leaves the kinetics alone:
    whether it returns or raises, the catalog, the restart record and the
    sensitivity flag are as before, and the gas is the one the model had,
    so that every parameter reads as before.  A model without gas gets the
    mechanism as loaded, at the unburned state. *)
Theorem evaluate_leaves_the_parameters ct s :
  let s' := fst (evaluate ct s) in
  gas s' = Some (gas_at_evaluate ct s) /\
  model_parameter_info s' = model_parameter_info s /\
  _restart s' = _restart s /\
  _sens_flag s' = _sens_flag s /\
  is_Some (simulation s') /\
  (forall g id, gas s = Some g ->
                gas s' = Some g /\
                snd (get_parameter id s') = snd (get_parameter id s)).
Proof.
  cbv zeta.
  destruct (evaluate_frame ct s)
    as (Hgas & Hcat & _ & Hrestart & Hflag & Hsim).
  repeat (split; [assumption|]).
  intros g id Hg.
  assert (Heq : gas_at_evaluate ct s = g)
    by (unfold gas_at_evaluate; now rewrite Hg).
  rewrite Heq in Hgas. split; [exact Hgas|].
  apply get_parameter_ext; [exact Hcat | congruence].
Qed.

Lemma evaluate_leaves_the_parameters_witness :
  let s := perturb_all [(0, 5%float)] (Examples.model_live Examples.ct_ok) in
  snd (get_parameter 0 s) = Ok 5%float /\
  snd (get_parameter 0 (fst (evaluate Examples.ct_ok s))) = Ok 5%float.
Proof.
  cbv zeta. split; [vm_compute; reflexivity|].
  destruct (evaluate_leaves_the_parameters Examples.ct_ok
              (perturb_all [(0, 5%float)] (Examples.model_live Examples.ct_ok)))
    as (_ & _ & _ & _ & _ & H).
  destruct (H (modify_reaction 0 (set_rate (Examples.k 5 0 5) Examples.r_elementary)
                 {| reactions := Examples.mechanism;
                    TPX := Some (300, 101325, "CH4:1, O2:2, N2:7.52")%float |})
              0) as [_ Hget].
  - vm_compute. reflexivity.
  - rewrite Hget. vm_compute. reflexivity.
Defined.

(** A save that succeeds, followed by the blanking. *)
Lemma prepare_for_save_saved ct s sim :
  let save := CSave (savefile s) "restart" "Base solution for this flame speed" in
  simulation s = Some sim ->
  save_raises ct (history s ++ [save]) = false ->
  prepare_for_save ct s =
  (set_simulation None
     (set_reactor None
        (set_gas None
           (set_restart (Some true) (set_history (history s ++ [save]) s)))),
   Ok tt).
Proof.
  cbv zeta. intros Hsim Hsave.
  unfold prepare_for_save, save_restart, simulation_save, try_except, bind,
    self_simulation, gets, record, print, modify, blank_chemistry, raise, ret.
  cbn. rewrite ?Hsim. cbn. rewrite Hsave. reflexivity.
Qed.

(** X13.  A model that was saved with [prepare_for_save] and is then
    evaluated starts again from the mechanism file and the restart file:
    the gas is the mechanism as loaded, so the perturbations made before
    the save are gone, and the flame is not solved from scratch but
    restored from the solution 'restart' of the save file and solved once,
    without grid refinement. *)
Theorem saved_model_restarts_from_the_mechanism ct s sim :
  let save := CSave (savefile s) "restart" "Base solution for this flame speed" in
  simulation s = Some sim ->
  save_raises ct (history s ++ [save]) = false ->
  _sens_flag s = false ->
  let s1 := fst (prepare_for_save ct s) in
  let s2 := fst (evaluate ct s1) in
  let restore := CRestore (savefile s) "restart" None in
  gas s1 = None /\
  gas s2 = Some {| reactions := ct_Solution ct (chemistry_model s);
                   TPX := Some (T (initial s), P (initial s),
                                composition (initial s)) |} /\
  model_parameter_info s2 = model_parameter_info s /\
  exists evs,
    history s2 = (history s1 ++ evs)%list /\
    restores evs = [(savefile s, "restart")] /\
    solve_refinements evs
    = (if restore_raises ct (history s1 ++ [restore]) then [] else [false]) /\
    is_Ok (snd (evaluate ct s1))
    = negb (restore_raises ct (history s1 ++ [restore])).
Proof.
  cbv zeta. intros Hsim Hsave Hflag.
  rewrite (prepare_for_save_saved ct s sim Hsim Hsave). cbn [fst].
  set (s1 := set_simulation None _).
  split; [reflexivity|].
  destruct (evaluate_frame ct s1) as (Hgas & Hcat & _).
  split; [exact Hgas|]. split; [exact Hcat|].
  destruct (evaluate_path_from_restart ct s1 true eq_refl Hflag)
    as (sim1 & sp & _ & _ & Hev).
  cbv zeta in Hev. rewrite Hev.
  change (savefile s1) with (savefile s).
  destruct (restore_raises ct _); cbn [fst snd negb is_Ok].
  - exists [CRestore (savefile s) "restart" None].
    repeat split; reflexivity.
  - exists [CRestore (savefile s) "restart" None;
            CSolve (restart_settings sim1) (loglevel s1) false].
    split; [cbn; now rewrite <- app_assoc|].
    repeat split; reflexivity.
Qed.

Lemma saved_model_restarts_from_the_mechanism_witness :
  let ct := Examples.ct_ok in
  let s := perturb_all [(0, 5%float)]
             (fst (evaluate ct (Examples.model_built ct))) in
  let s2 := fst (evaluate ct (fst (prepare_for_save ct s))) in
  snd (get_parameter 0 s) = Ok 5%float /\
  snd (get_parameter 0 s2) = Ok 2%float /\
  exists g, gas s2 = Some g /\ reactions g = Examples.mechanism.
Proof.
  cbv zeta. split; [vm_compute; reflexivity|].
  split; [vm_compute; reflexivity|].
  destruct (saved_model_restarts_from_the_mechanism Examples.ct_ok
              (perturb_all [(0, 5%float)]
                 (fst (evaluate Examples.ct_ok
                         (Examples.model_built Examples.ct_ok))))
              (stage3_settings
                 (set_bounds_Y (-1e-5, 1)%float
                    (set_tolerances (1e-5, 1e-12)%float (1e-4, 1e-12)%float
                       (Examples.new_flame
                          {| reactions := Examples.mechanism; TPX := None |}
                          (1%float, 10))))))
    as (_ & Hgas & _).
  - vm_compute. reflexivity.
  - vm_compute. reflexivity.
  - vm_compute. reflexivity.
  - eexists. split; [exact Hgas|]. reflexivity.
Defined.

(** What [load_restart] and [save_restart] leave as they were. *)
Lemma load_restart_frame ct fn name s :
  let s' := fst (load_restart ct fn name s) in
  gas s' = gas s /\
  model_parameter_info s' = model_parameter_info s /\
  no_falloff s' = no_falloff s /\
  savefile s' = savefile s /\ _sens_flag s' = _sens_flag s.
Proof.
  cbv zeta.
  unfold load_restart, simulation_restore, bind, self_simulation, gets,
    record, modify, raise, ret.
  cbn. destruct (simulation s); cbn; [|repeat split].
  destruct (restore_raises ct _); cbn; repeat split.
Qed.

Lemma save_restart_frame ct fn name desc s :
  let s' := fst (save_restart ct fn name desc s) in
  gas s' = gas s /\
  model_parameter_info s' = model_parameter_info s /\
  no_falloff s' = no_falloff s.
Proof.
  cbv zeta.
  unfold save_restart, simulation_save, bind, self_simulation, gets,
    record, modify, raise, ret.
  cbn. destruct (simulation s); cbn; [|repeat split].
  destruct (save_raises ct _); cbn; repeat split.
Qed.

(** X14.  [load_restart] needs a flame: on a model without one (as
    constructed, or blanked) it raises AttributeError and changes nothing.
    With a flame it restores the named solution of the named file and
    records the restart.  What the evaluation that follows does depends on
    the sensitivity flag alone.  Outside a sensitivity calculation it
    restores, once more, the solution 'restart' of the model's own save
    file, whatever file and solution were loaded.  Within a sensitivity
    calculation, which is where [sensitivity] calls [load_restart], it
    restores nothing and solves once, without grid refinement. *)
Theorem evaluate_after_load_restart ct fn name s :
  let filename := match fn with None => savefile s | Some f => f end in
  (simulation s = None ->
   load_restart ct fn name s = (s, Raise AttributeError)) /\
  (forall s1,
     load_restart ct fn name s = (s1, Ok tt) ->
     history s1 = (history s ++ [CRestore filename name (Some 0)])%list /\
     _restart s1 = Some true /\
     _sens_flag s1 = _sens_flag s /\
     exists evs,
       history (fst (evaluate ct s1)) = (history s1 ++ evs)%list /\
       restores evs
       = (if _sens_flag s then [] else [(savefile s, "restart")]) /\
       (_sens_flag s = true -> solve_refinements evs = [false])).
Proof.
  cbv zeta. split.
  - intros Hsim.
    unfold load_restart, simulation_restore, bind, self_simulation, gets.
    cbn. rewrite Hsim. reflexivity.
  - intros s1 Hload.
    pose proof (load_restart_frame ct fn name s) as (_ & _ & _ & Hfile & Hflag1).
    rewrite Hload in Hfile, Hflag1. cbn [fst] in Hfile, Hflag1.
    pose proof (load_restart_sets_flag ct fn name s s1 Hload) as Hrestart.
    assert (Hh : history s1
                 = (history s ++
                    [CRestore match fn with None => savefile s | Some f => f end
                              name (Some 0)])%list).
    { revert Hload.
      unfold load_restart, simulation_restore, bind, self_simulation, gets,
        record, modify, raise, ret.
      cbn. destruct (simulation s); cbn; [|discriminate].
      destruct (restore_raises ct _); cbn; [discriminate|].
      intros H. inversion H. reflexivity. }
    split; [exact Hh|]. split; [exact Hrestart|]. split; [exact Hflag1|].
    destruct (_sens_flag s) eqn:Hflag.
    + destruct (evaluate_path_in_sensitivity ct s1 Hflag1)
        as (sim1 & sp & _ & _ & Hev).
      cbv zeta in Hev. rewrite Hev. cbn [fst].
      exists [CSolve (sensitivity_settings sim1) 0 false].
      split; [reflexivity|]. split; [reflexivity|]. intros _. reflexivity.
    + destruct (evaluate_path_from_restart ct s1 true Hrestart Hflag1)
        as (sim1 & sp & _ & _ & Hev).
      cbv zeta in Hev. rewrite Hfile in Hev. rewrite Hev.
      destruct (restore_raises ct _); cbn [fst].
      * exists [CRestore (savefile s) "restart" None].
        split; [reflexivity|]. split; [reflexivity|]. intros H. discriminate H.
      * exists [CRestore (savefile s) "restart" None;
                CSolve (restart_settings sim1) (loglevel s1) false].
        split; [cbn; now rewrite <- app_assoc|].
        split; [reflexivity|]. intros H. discriminate H.
Qed.

Lemma evaluate_after_load_restart_witness :
  let ct := Examples.ct_ok in
  let s := fst (evaluate ct (Examples.model_built ct)) in
  let s1 := fst (load_restart ct (Some "other.xml") "first" s) in
  let t := set_sens_flag true s in
  let t1 := fst (load_restart ct (Some "other.xml") "first" t) in
  load_restart ct (Some "other.xml") "first" (Examples.model_built ct)
  = (Examples.model_built ct, Raise AttributeError) /\
  restores (history s1) = [("other.xml", "first")] /\
  (exists evs,
     history (fst (evaluate ct s1)) = (history s1 ++ evs)%list /\
     restores evs = [("soln.xml", "restart")]) /\
  (exists evs,
     history (fst (evaluate ct t1)) = (history t1 ++ evs)%list /\
     restores evs = [] /\ solve_refinements evs = [false]).
Proof.
  cbv zeta.
  split; [|split; [|split]].
  - apply (proj1 (evaluate_after_load_restart
                    Examples.ct_ok (Some "other.xml") "first"
                    (Examples.model_built Examples.ct_ok))).
    vm_compute. reflexivity.
  - vm_compute. reflexivity.
  - assert (Hload :
              load_restart Examples.ct_ok (Some "other.xml") "first"
                (fst (evaluate Examples.ct_ok
                        (Examples.model_built Examples.ct_ok)))
              = (fst (load_restart Examples.ct_ok (Some "other.xml") "first"
                        (fst (evaluate Examples.ct_ok
                                (Examples.model_built Examples.ct_ok)))),
                 Ok tt))
      by (vm_compute; reflexivity).
    destruct (proj2 (evaluate_after_load_restart
                       Examples.ct_ok (Some "other.xml") "first"
                       (fst (evaluate Examples.ct_ok
                               (Examples.model_built Examples.ct_ok))))
                _ Hload) as (_ & _ & _ & evs & Hevs & Hres & _).
    exists evs. split; [exact Hevs|]. rewrite Hres. vm_compute. reflexivity.
  - assert (Hload :
              load_restart Examples.ct_ok (Some "other.xml") "first"
                (set_sens_flag true
                   (fst (evaluate Examples.ct_ok
                           (Examples.model_built Examples.ct_ok))))
              = (fst (load_restart Examples.ct_ok (Some "other.xml") "first"
                        (set_sens_flag true
                           (fst (evaluate Examples.ct_ok
                                   (Examples.model_built Examples.ct_ok))))),
                 Ok tt))
      by (vm_compute; reflexivity).
    destruct (proj2 (evaluate_after_load_restart
                       Examples.ct_ok (Some "other.xml") "first"
                       (set_sens_flag true
                          (fst (evaluate Examples.ct_ok
                                  (Examples.model_built Examples.ct_ok)))))
                _ Hload) as (_ & _ & _ & evs & Hevs & Hres & Hsolve).
    exists evs. split; [exact Hevs|]. split.
    + rewrite Hres. reflexivity.
    + apply Hsolve. reflexivity.
Defined.

(** ** Printing and the Jacobian sensitivities *)

Lemma print_sens_rows_run format_row v g ids : forall s,
  gas s = Some g ->
  Forall (fun i => 0 <= i < Z.of_nat (length v) /\
                   i < Z.of_nat (length (reactions g))) ids ->
  print_sens_rows format_row v ids s
  = (set_stdout (stdout s ++ map (sens_row format_row v g) ids) s, Ok tt).
Proof.
  induction ids as [|i ids IH]; intros s Hg Hids.
  - cbn. rewrite app_nil_r. destruct s; reflexivity.
  - apply Forall_cons in Hids as [[Hi Hr] Hids].
    cbn [print_sens_rows map].
    destruct (py_getitem_in_range v i Hi) as (x & Hx & Hlook).
    destruct (lookup_lt_is_Some_2 (reactions g) (Z.to_nat i)) as [r Hrr]; [lia|].
    unfold bind at 1. unfold lift at 1. rewrite Hx.
    unfold bind at 1.
    assert (Hname : gas_reaction_equation i s = (s, Ok (equation r))).
    { unfold gas_reaction_equation, bind, self_gas, lift, gas_reaction, ret.
      rewrite Hg. destruct (Z.ltb_spec i 0) as [Hneg|_]; [lia|].
      now rewrite Hrr. }
    rewrite Hname.
    unfold bind at 1. unfold print at 1. unfold modify at 1.
    rewrite IH; [|exact Hg|exact Hids].
    unfold sens_row at 2, reaction_name. rewrite Hlook, Hrr.
    cbn [default stdout set_stdout]. rewrite <- app_assoc.
    destruct s; reflexivity.
Qed.

(** X15.  [print_sens] prints what it is given, in the order given: for
    ids that index the vector and the reactions of the gas it prints one
    row per id, in the order of [print_params] and not sorted by
    coefficient, each with the item of the vector at the id and the
    equation of the reaction whose number is the id, and changes nothing
    else.  Called without [print_params] it raises TypeError, for the
    default is the int [number_parameters], and prints nothing. *)
Theorem print_sens_prints_in_the_order_given format_row v s :
  print_sens format_row v None s = (s, Raise TypeError) /\
  forall g ids,
    gas s = Some g ->
    Forall (fun i => 0 <= i < Z.of_nat (length v) /\
                     i < Z.of_nat (length (reactions g))) ids ->
    print_sens format_row v (Some ids) s
    = (set_stdout (stdout s ++ map (sens_row format_row v g) ids) s, Ok tt).
Proof.
  split; [reflexivity|].
  intros g ids Hg Hids. now apply print_sens_rows_run.
Qed.

Lemma print_sens_prints_in_the_order_given_witness :
  let s := Examples.model_live Examples.ct_ok in
  let fmt := fun (i : Z) (x : float) (name : string) => name in
  stdout (fst (print_sens fmt [0.5%float; 0.25%float; 0.75%float]
                 (Some [2; 0]) s))
  = ["CH3 + OH (+M) <=> CH2O + H2 (+M)"; "H + O2 <=> O + OH"].
Proof.
  cbv zeta.
  rewrite (proj2 (print_sens_prints_in_the_order_given
                    (fun (i : Z) (x : float) (name : string) => name)
                    [0.5%float; 0.25%float; 0.75%float]
                    (Examples.model_live Examples.ct_ok))
             {| reactions := Examples.mechanism;
                TPX := Some (300, 101325, "CH4:1, O2:2, N2:7.52")%float |}
             [2; 0]).
  - vm_compute. reflexivity.
  - vm_compute. reflexivity.
  - repeat constructor; cbn; lia.
Defined.

Lemma py_getitems_length a ids : forall xs,
  py_getitems a ids = Ok xs -> length xs = length ids.
Proof.
  induction ids as [|i ids IH]; intros xs H; cbn in H.
  - inversion H. reflexivity.
  - destruct (py_getitem a i); [|discriminate]. cbn in H.
    destruct (py_getitems a ids) as [ys|]; [|discriminate]. cbn in H.
    inversion H. cbn. now rewrite (IH ys).
Qed.

(** The loop that logs the rows appends one row per pair, in order. *)
Lemma write_rows_history rows : forall s s',
  write_rows rows s = (s', Ok tt) ->
  exists evs,
    history s' = (history s ++ evs)%list /\
    logged_rows evs = rows /\
    forallb is_write evs = true.
Proof.
  induction rows as [|[id x] rows IH]; intros s s' H.
  - cbn in H. inversion H. exists []. now rewrite app_nil_r.
  - cbn [write_rows] in H.
    apply bind_inv_Ok in H as (s0 & info & Hinfo & H).
    inversion Hinfo. subst s0. clear Hinfo.
    apply bind_inv_Ok in H as (s1 & [] & Hw & H).
    unfold logfile_write, record, modify in Hw. inversion Hw. subst s1. clear Hw.
    apply IH in H as (evs & Hh & Hrows & Hwrites).
    exists (CWrite (LogRowAdjoint id x (parameter_name info)) :: evs).
    split; [|split].
    + rewrite Hh. cbn. now rewrite <- app_assoc.
    + unfold logged_rows in *. cbn. now rewrite Hrows.
    + cbn. exact Hwrites.
Qed.

(** X16.  [_sensitivity] takes the sensitivities from the flame solution
    and never touches the mechanism: whether it returns or raises, the gas
    is the one [evaluate] worked on and the catalog is as before.  When it
    returns (value, vector), the model was evaluated once to give the
    value, the vector holds the items of the solver's sensitivities at the
    ids of the parameter list, one for each id in order, and after the
    evaluation only the log was written: the value, the header and one row
    for each id with its coefficient. *)
Theorem jacobian_sensitivity_reads_without_perturbing
    ct reaction_sensitivities fraction ids s :
  let run := _sensitivity ct reaction_sensitivities fraction ids s in
  gas (fst run) = Some (gas_at_evaluate ct s) /\
  model_parameter_info (fst run) = model_parameter_info s /\
  forall value vector,
    snd run = Ok (value, vector) ->
    exists s1 full evs,
      evaluate ct s = (s1, Ok value) /\
      reaction_sensitivities (history s1) = Ok full /\
      py_getitems full ids = Ok vector /\
      length vector = length ids /\
      history (fst run) = (history s1 ++ evs)%list /\
      forallb is_write evs = true /\
      logged_rows evs = combine ids vector.
Proof.
  cbv zeta.
  pose proof (evaluate_frame ct s) as (Hgas & Hcat & _ & _ & _ & Hsim).
  unfold _sensitivity.
  destruct (evaluate ct s) as [s1 [value|e]] eqn:Hev; cbn [fst] in *.
  2:{ rewrite (bind_Raise _ _ _ _ _ Hev). cbn [fst snd].
      split; [exact Hgas|]. split; [exact Hcat|]. intros ? ? H. discriminate H. }
  rewrite (bind_Ok _ _ _ _ _ Hev).
  destruct Hsim as [sim Hsim].
  unfold bind, self_simulation, gets, lift, logfile_write, record, modify, ret.
  cbv beta. rewrite Hsim. cbv beta iota.
  destruct (reaction_sensitivities (history s1)) as [full|e] eqn:Hfull;
    cbv beta iota.
  2:{ cbn [fst snd]. split; [exact Hgas|]. split; [exact Hcat|].
      intros ? ? H. discriminate H. }
  destruct (py_getitems full ids) as [vector|e] eqn:Hvec; cbv beta iota.
  2:{ cbn [fst snd]. split; [exact Hgas|]. split; [exact Hcat|].
      intros ? ? H. discriminate H. }
  match goal with
  | |- context [write_rows ?rows ?sx] =>
      pose proof (write_rows_frame rows sx) as [Hg2 Hc2];
      pose proof (write_rows_history rows sx) as Hhist;
      destruct (write_rows rows sx) as [s2 [[]|e]] eqn:Hrows
  end; cbn [fst snd] in *.
  - cbn in Hg2, Hc2.
    split; [congruence|]. split; [congruence|].
    intros v' vec' H. inversion H. subst v' vec'.
    destruct (Hhist s2 eq_refl) as (evs & Hh & Hrows' & Hwrites).
    exists s1, full,
      (CWrite (LogValue value) :: CWrite LogHeaderAdjoint :: evs).
    split; [reflexivity|]. split; [exact Hfull|]. split; [exact Hvec|].
    split; [eapply py_getitems_length; exact Hvec|].
    split; [|split].
    + rewrite Hh. cbn. rewrite <- !app_assoc. reflexivity.
    + cbn. exact Hwrites.
    + cbn. exact Hrows'.
  - cbn in Hg2, Hc2. split; [congruence|]. split; [congruence|].
    intros ? ? H. discriminate H.
Qed.

Lemma jacobian_sensitivity_reads_without_perturbing_witness :
  let ct := Examples.ct_ok in
  let solver := fun _ : list call => Ok [0.1%float; 0.2%float; 0.3%float] in
  let s := Examples.model_built ct in
  exists s1 full evs,
    evaluate ct s = (s1, Ok 40%float) /\
    solver (history s1) = Ok full /\
    py_getitems full [2; 0] = Ok [0.3%float; 0.1%float] /\
    length [0.3%float; 0.1%float] = length [2; 0] /\
    history (fst (_sensitivity ct solver 0.01 [2; 0] s))
    = (history s1 ++ evs)%list /\
    forallb is_write evs = true /\
    logged_rows evs = combine [2; 0] [0.3%float; 0.1%float].
Proof.
  cbv zeta.
  apply (proj2 (proj2 (jacobian_sensitivity_reads_without_perturbing
                         Examples.ct_ok
                         (fun _ => Ok [0.1%float; 0.2%float; 0.3%float])
                         0.01 [2; 0] (Examples.model_built Examples.ct_ok)))
           40%float [0.3%float; 0.1%float]).
  vm_compute. reflexivity.
Defined.

(** ** The finite-difference routine and the mechanism *)

(** Three writes of the same coefficient that end with the value first
    read give back the reaction. *)
Lemma perturb_reaction_restores nf ty v1 v2 m r r1 r2 r3 :
  ty ∈ rate_types ->
  nf = false \/ py_in "High" ty = false ->
  read_parameter ty r = Ok m ->
  perturb_reaction nf ty v1 r = Ok r1 ->
  perturb_reaction nf ty v2 r1 = Ok r2 ->
  perturb_reaction nf ty m r2 = Ok r3 ->
  r3 = r.
Proof.
  unfold rate_types. intros Hty Hnf Hread H1 H2 H3.
  destruct r as [rt eq [A b E] [Ah bh Eh] [Al bl El] effs deff].
  repeat (apply elem_of_cons in Hty as [->|Hty]);
    [..|apply elem_of_nil in Hty; contradiction];
    unfold read_parameter in Hread; cbn in Hread; inversion Hread; subst m;
    unfold perturb_reaction, py_truediv, bindr in H1, H2, H3;
    cbn in H1, H2, H3;
    try (destruct (v1 =? 0)%float; [discriminate H1|]);
    try (destruct (v2 =? 0)%float; [discriminate H2|]);
    destruct nf; try (destruct Hnf as [Hnf|Hnf]; discriminate Hnf);
    cbn in H1; inversion H1; subst r1;
    cbn in H2; inversion H2; subst r2;
    cbn in H3;
    try (destruct (Ah =? 0)%float; [discriminate H3|]);
    inversion H3; reflexivity.
Qed.

Lemma logfile_write_frame line s :
  let s' := fst (logfile_write line s) in
  gas s' = gas s /\
  model_parameter_info s' = model_parameter_info s /\
  no_falloff s' = no_falloff s.
Proof. repeat split. Qed.

(** One parameter of the finite-difference routine, run with the methods
    of [FlameSpeed], gives back the gas it started from. *)
Lemma fd_parameter_restores ct fn name fraction baseline id s c s' info :
  fd_parameter (evaluate ct) (load_restart ct fn name)
    fraction baseline id s c s' ->
  py_getitem (model_parameter_info s) id = Ok info ->
  parameter_type info ∈ rate_types ->
  no_falloff s = false \/ py_in "High" (parameter_type info) = false ->
  gas s' = gas s /\
  model_parameter_info s' = model_parameter_info s /\
  no_falloff s' = no_falloff s.
Proof.
  intros (info0 & m & s1 & plus & s2 & s3 & s4 & minus & s5 & s6
          & Hi0 & Hget & Hp1 & He1 & Hp2 & Hld & He2 & Hp3 & _ & Hlog)
         Hi Hty Hnf.
  rewrite Hi in Hi0. inversion Hi0. subst info0. clear Hi0.
  apply get_parameter_inv in Hget as (info0 & g & r & Hi0 & Hg & Hr & Hread).
  rewrite Hi in Hi0. inversion Hi0. subst info0. clear Hi0.
  (* first write *)
  apply perturb_parameter_inv in Hp1
    as (info1 & g1 & r0 & r1 & Hi1 & Hg1 & Hr1 & Hpr1 & ->).
  rewrite Hi in Hi1. inversion Hi1. subst info1. clear Hi1.
  rewrite Hg in Hg1. inversion Hg1. subst g1. clear Hg1.
  rewrite Hr in Hr1. inversion Hr1. subst r0. clear Hr1.
  (* first evaluation *)
  pose proof (evaluate_frame ct (perturbed (reaction_number info) r1 g s))
    as Hf.
  cbv zeta in Hf. rewrite He1 in Hf. cbn [fst] in Hf.
  destruct Hf as (Hg2 & Hc2 & Hn2 & _).
  unfold gas_at_evaluate in Hg2. cbn in Hg2, Hc2, Hn2.
  (* second write *)
  apply perturb_parameter_inv in Hp2
    as (info2 & g2 & r1' & r2 & Hi2 & Hg2' & Hr2 & Hpr2 & ->).
  rewrite Hc2, Hi in Hi2. inversion Hi2. subst info2. clear Hi2.
  rewrite Hg2 in Hg2'. inversion Hg2'. subst g2. clear Hg2'.
  rewrite Hn2 in Hpr2.
  cbn in Hr2.
  rewrite list_lookup_insert_eq in Hr2 by (now apply lookup_lt_Some in Hr).
  inversion Hr2. subst r1'. clear Hr2.
  (* the restart *)
  pose proof (load_restart_frame ct fn name
                (perturbed (reaction_number info) r2
                   (modify_reaction (reaction_number info) r1 g) s2)) as Hf.
  cbv zeta in Hf. rewrite Hld in Hf. cbn [fst] in Hf.
  destruct Hf as (Hg4 & Hc4 & Hn4 & _).
  cbn in Hg4, Hc4, Hn4.
  (* second evaluation *)
  pose proof (evaluate_frame ct s4) as Hf.
  cbv zeta in Hf. rewrite He2 in Hf. cbn [fst] in Hf.
  destruct Hf as (Hg5 & Hc5 & Hn5 & _).
  unfold gas_at_evaluate in Hg5. rewrite Hg4 in Hg5.
  (* third write *)
  apply perturb_parameter_inv in Hp3
    as (info3 & g3 & r2' & r3 & Hi3 & Hg3 & Hr3 & Hpr3 & ->).
  rewrite Hc5, Hc4, Hc2, Hi in Hi3. inversion Hi3. subst info3. clear Hi3.
  rewrite Hg5 in Hg3. inversion Hg3. subst g3. clear Hg3.
  rewrite Hn5, Hn4, Hn2 in Hpr3.
  cbn in Hr3.
  rewrite list_lookup_insert_eq in Hr3
    by (rewrite length_insert; now apply lookup_lt_Some in Hr).
  inversion Hr3. subst r2'. clear Hr3.
  pose proof (perturb_reaction_restores (no_falloff s) (parameter_type info)
                _ _ m r r1 r2 r3 Hty Hnf Hread Hpr1 Hpr2 Hpr3) as ->.
  unfold logfile_write, record, modify in Hlog. inversion Hlog. subst s'.
  cbn. split; [|split].
  - rewrite Hg. f_equal. destruct g as [rs tpx]. cbn in *.
    unfold modify_reaction. cbn. f_equal.
    rewrite !list_insert_insert_eq. now apply list_insert_id.
  - congruence.
  - congruence.
Qed.

Lemma fd_run_restores ct fn name fraction baseline ids s cs s' :
  fd_run (evaluate ct) (load_restart ct fn name) fraction baseline ids s cs s' ->
  (forall id info,
     id ∈ ids ->
     py_getitem (model_parameter_info s) id = Ok info ->
     parameter_type info ∈ rate_types /\
     (no_falloff s = false \/ py_in "High" (parameter_type info) = false)) ->
  gas s' = gas s /\
  model_parameter_info s' = model_parameter_info s /\
  no_falloff s' = no_falloff s.
Proof.
  induction 1 as [s|id ids s c s1 cs s2 Hstep Hrun IH]; intros Hids.
  - repeat split.
  - assert (Hinfo : exists info, py_getitem (model_parameter_info s) id = Ok info).
    { destruct Hstep as (info & _ & _ & _ & _ & _ & _ & _ & _ & _ & Hi & _).
      eauto. }
    destruct Hinfo as [info Hi].
    destruct (Hids id info (list_elem_of_here _ _) Hi) as [Hty Hnf].
    destruct (fd_parameter_restores ct fn name fraction baseline id s c s1 info
                Hstep Hi Hty Hnf) as (Hg1 & Hc1 & Hn1).
    destruct IH as (Hg2 & Hc2 & Hn2).
    { intros id' info' Hin Hi'. rewrite Hc1, Hn1 in *.
      apply (Hids id' info'); [now apply list_elem_of_further | exact Hi']. }
    repeat split; congruence.
Qed.

(** X17.  A finite-difference sensitivity of a flame speed model that
    returns leaves the mechanism exactly as it found it: when every id of
    the parameter list names one of the six rate coefficients, and is not
    a high-pressure entry under [no_falloff], the gas after the call is
    the gas the nominal evaluation worked on, so that every parameter
    reads what it read before. *)
Theorem finite_difference_sensitivity_restores_the_mechanism
    ct fraction ids s value vector :
  let run := CanteraChemistryModel.sensitivity
               (evaluate ct)
               (save_restart ct None "restart" "Base solution for this flame speed")
               (load_restart ct None "restart")
               fraction ids s in
  snd run = Ok (value, vector) ->
  (forall id info,
     id ∈ ids ->
     py_getitem (model_parameter_info s) id = Ok info ->
     parameter_type info ∈ rate_types /\
     (no_falloff s = false \/ py_in "High" (parameter_type info) = false)) ->
  gas (fst run) = Some (gas_at_evaluate ct s) /\
  model_parameter_info (fst run) = model_parameter_info s /\
  forall g id, gas s = Some g ->
               snd (get_parameter id (fst run)) = snd (get_parameter id s).
Proof.
  cbv zeta.
  destruct (CanteraChemistryModel.sensitivity _ _ _ fraction ids s)
    as [s' r] eqn:Hrun.
  cbn [fst snd]. intros -> Hids.
  unfold CanteraChemistryModel.sensitivity in Hrun.
  apply bind_inv_Ok in Hrun as (s3 & [[v pos] neg] & Hpro & H).
  unfold sensitivity_prologue in Hpro.
  apply bind_inv_Ok in Hpro as (s0 & v0 & Hev & Hpro).
  apply bind_inv_Ok in Hpro as (s1 & [] & Hsave & Hpro).
  apply bind_inv_Ok in Hpro as (s2 & [] & Hlog1 & Hpro).
  apply bind_inv_Ok in Hpro as (s2' & neg0 & Hdiv & Hpro).
  apply lift_inv_Ok in Hdiv as [-> Hdiv]. apply py_truediv_Ok in Hdiv.
  apply bind_inv_Ok in Hpro as (s3' & [] & Hlog2 & Hpro).
  unfold ret in Hpro. inversion Hpro. subst s3' v0 pos neg0 neg. clear Hpro.
  apply bind_inv_Ok in H as (sf & [] & Hflag & H).
  unfold modify in Hflag. inversion Hflag. subst sf. clear Hflag.
  apply bind_inv_Ok in H as (s4 & l & Hloop & H).
  apply sensitivity_loop_inv in Hloop as (cs & -> & Hcs).
  apply bind_inv_Ok in H as (s5 & [] & Hflag & H).
  unfold modify in Hflag. inversion Hflag. subst s5. clear Hflag.
  unfold ret in H. inversion H. subst s' value vector. clear H.
  pose proof (evaluate_frame ct s) as Hf.
  cbv zeta in Hf. rewrite Hev in Hf. cbn [fst] in Hf.
  destruct Hf as (Hg0 & Hc0 & Hn0 & _).
  pose proof (save_restart_frame ct None "restart"
                "Base solution for this flame speed" s0) as Hf.
  cbv zeta in Hf. rewrite Hsave in Hf. cbn [fst] in Hf.
  destruct Hf as (Hg1 & Hc1 & Hn1).
  unfold logfile_write, record, modify in Hlog1, Hlog2.
  inversion Hlog1. subst s2. inversion Hlog2. subst s3. clear Hlog1 Hlog2.
  apply fd_run_restores in Hcs as (Hg4 & Hc4 & Hn4).
  2:{ cbn. rewrite Hc1, Hc0, Hn1, Hn0. exact Hids. }
  cbn in Hg4, Hc4, Hn4.
  assert (Hgas : gas (set_sens_flag false s4) = Some (gas_at_evaluate ct s))
    by (cbn; congruence).
  assert (Hcat : model_parameter_info (set_sens_flag false s4)
                 = model_parameter_info s)
    by (cbn; congruence).
  split; [exact Hgas|]. split; [exact Hcat|].
  intros g id Hg. apply get_parameter_ext; [exact Hcat|].
  rewrite Hgas. unfold gas_at_evaluate. now rewrite Hg.
Qed.

Lemma finite_difference_sensitivity_restores_the_mechanism_witness :
  let ct := MoreExamples.ct in
  let s := MoreExamples.model_live in
  let run := CanteraChemistryModel.sensitivity
               (evaluate ct)
               (save_restart ct None "restart" "Base solution for this flame speed")
               (load_restart ct None "restart")
               0.01 [0; 7] s in
  is_Ok (snd run) = true /\ gas (fst run) = gas s.
Proof.
  cbv zeta.
  assert (Hrun : exists value vector,
            snd (CanteraChemistryModel.sensitivity
                   (evaluate MoreExamples.ct)
                   (save_restart MoreExamples.ct None "restart"
                      "Base solution for this flame speed")
                   (load_restart MoreExamples.ct None "restart")
                   0.01 [0; 7] MoreExamples.model_live)
            = Ok (value, vector)).
  { vm_compute. eexists. eexists. reflexivity. }
  destruct Hrun as (value & vector & Hrun).
  split; [rewrite Hrun; reflexivity|].
  destruct (finite_difference_sensitivity_restores_the_mechanism
              MoreExamples.ct 0.01 [0; 7] MoreExamples.model_live value vector
              Hrun) as (Hgas & _).
  - intros id info Hin Hi.
    assert (Hnf : no_falloff MoreExamples.model_live = false)
      by (vm_compute; reflexivity).
    split; [|now left].
    apply elem_of_cons in Hin as [->|Hin];
      [|apply elem_of_cons in Hin as [->|Hin];
        [|apply elem_of_nil in Hin; contradiction]];
      vm_compute in Hi; inversion Hi; unfold rate_types; cbn;
      repeat constructor.
  - rewrite Hgas. vm_compute. reflexivity.
Defined.

(** X18.  [initialize_chemistry] loads the mechanism only when there is no
    gas.  On a model with a gas it assigns the unburned state and keeps
    the reactions, so that perturbations survive it and every parameter
    reads as before (undoing them takes [reset_model], which blanks the
    chemistry first); and calling it a second time changes nothing. *)
Theorem initialize_chemistry_keeps_a_live_gas ct s :
  (forall g,
     gas s = Some g ->
     initialize_chemistry ct s
     = (set_gas (Some (set_TPX (T (initial s), P (initial s),
                                composition (initial s)) g)) s, Ok tt) /\
     forall id, snd (get_parameter id (fst (initialize_chemistry ct s)))
                = snd (get_parameter id s)) /\
  initialize_chemistry ct (fst (initialize_chemistry ct s))
  = initialize_chemistry ct s.
Proof.
  split.
  - intros g Hg.
    assert (Hrun : initialize_chemistry ct s
                   = (set_gas (Some (set_TPX (T (initial s), P (initial s),
                                              composition (initial s)) g)) s,
                      Ok tt)).
    { unfold initialize_chemistry, bind, self_gas, gets, modify.
      rewrite Hg. cbn. rewrite Hg. reflexivity. }
    split; [exact Hrun|].
    intros id. rewrite Hrun. cbn [fst].
    unfold get_parameter, bind, self_gas, lift.
    cbn [model_parameter_info set_gas gas].
    destruct (py_getitem (model_parameter_info s) id) as [info|];
      [|reflexivity].
    rewrite Hg. unfold gas_reaction. cbn [reactions set_TPX].
    destruct (reactions g !! reaction_number info); reflexivity.
  - unfold initialize_chemistry, bind, self_gas, gets, modify.
    destruct (gas s) as [g|] eqn:Hg; cbn; rewrite ?Hg; cbn; reflexivity.
Qed.

Lemma initialize_chemistry_keeps_a_live_gas_witness :
  let ct := Examples.ct_ok in
  let s := perturb_all [(0, 5%float)] (Examples.model_live ct) in
  snd (get_parameter 0 (Examples.model_live ct)) = Ok 2%float /\
  snd (get_parameter 0 (fst (initialize_chemistry ct s))) = Ok 5%float.
Proof.
  cbv zeta. split; [vm_compute; reflexivity|].
  destruct (proj1 (initialize_chemistry_keeps_a_live_gas Examples.ct_ok
                     (perturb_all [(0, 5%float)]
                        (Examples.model_live Examples.ct_ok)))
              (modify_reaction 0
                 (set_rate (Examples.k 5 0 5) Examples.r_elementary)
                 {| reactions := Examples.mechanism;
                    TPX := Some (300, 101325, "CH4:1, O2:2, N2:7.52")%float |}))
    as [_ Hget].
  - vm_compute. reflexivity.
  - rewrite Hget. vm_compute. reflexivity.
Defined.

(** ** Constructed models *)

(** The sequence of writes keeps the catalog and the flag of the model. *)
Lemma perturb_all_keeps_no_falloff ps : forall s,
  no_falloff (perturb_all ps s) = no_falloff s.
Proof.
  induction ps as [|[id v] ps IH]; intros s; cbn [perturb_all]; [reflexivity|].
  rewrite IH. apply perturb_parameter_frame.
Qed.

(** The catalog of a constructed model was filtered with the model's own
    [no_falloff] flag: when it holds an activation energy of a pressure
    branch, the flag is not set. *)
Lemma pressure_energy_entry_means_falloff
    ct st path len pts ll name e n f s id info :
  let built := fst (init ct st path len pts ll name e n f) in
  model_parameter_info s = model_parameter_info built ->
  no_falloff s = no_falloff built ->
  py_getitem (model_parameter_info s) id = Ok info ->
  parameter_type info = "Low_pressure_E" \/
  parameter_type info = "High_pressure_E" ->
  no_falloff s = false.
Proof.
  cbv zeta. unfold init.
  match goal with
  | |- context [prepare_chemistry ct e n f ?s0] =>
      destruct (prepare_chemistry_run ct e n f s0)
        as (sb & Hrun & _ & _ & _ & Hcat & _ & _ & _ & Hnf & _)
  end.
  rewrite Hrun. cbn [fst]. intros Hc Hf Hi Hty.
  rewrite Hf, Hnf. destruct f; [|reflexivity]. exfalso.
  apply py_getitem_elem in Hi. rewrite Hc, Hcat in Hi.
  apply catalog_under_no_falloff in Hi as (Hhigh & _ & Hlow).
  destruct Hty as [Hty|Hty]; contradiction.
Qed.

(** C8.  On a model that has the catalog and the [no_falloff] flag its
    constructor gave it (every method but [prepare_chemistry] leaves the
    two as they are), whatever the flags it was constructed with: writing
    a Low-pressure-E sets the low-pressure activation energy to the new
    value and leaves the high-pressure rate law as it was, and writing a
    High-pressure-E sets the high-pressure activation energy to the new
    value and leaves the low-pressure rate law as it was.  A catalog built
    with [no_falloff] set holds neither entry, so the flag is not set
    where one of them is written. *)
Theorem activation_energy_write_stays_in_its_branch
    ct st path len pts ll name e n f s id v info g r :
  let built := fst (init ct st path len pts ll name e n f) in
  model_parameter_info s = model_parameter_info built ->
  no_falloff s = no_falloff built ->
  py_getitem (model_parameter_info s) id = Ok info ->
  gas s = Some g ->
  reactions g !! reaction_number info = Some r ->
  parameter_type info = "Low_pressure_E" \/
  parameter_type info = "High_pressure_E" ->
  exists r',
    perturb_parameter id v s = (perturbed (reaction_number info) r' g s, Ok tt) /\
    (gas (perturbed (reaction_number info) r' g s)
       ≫= fun g' => reactions g' !! reaction_number info) = Some r' /\
    rate r' = rate r /\
    (parameter_type info = "Low_pressure_E" ->
     low_rate r' = ct_Arrhenius (pre_exponential_factor (low_rate r))
                                (temperature_exponent (low_rate r)) v /\
     high_rate r' = high_rate r) /\
    (parameter_type info = "High_pressure_E" ->
     high_rate r' = ct_Arrhenius (pre_exponential_factor (high_rate r))
                                 (temperature_exponent (high_rate r)) v /\
     low_rate r' = low_rate r).
Proof.
  cbv zeta. intros Hc Hf Hi Hg Hr Hty.
  pose proof (pressure_energy_entry_means_falloff
                ct st path len pts ll name e n f s id info Hc Hf Hi Hty) as Hnf.
  destruct Hty as [Hty|Hty].
  - eexists. split; [|split; [|split; [|split]]].
    + eapply perturb_parameter_run; eauto.
      rewrite Hty. apply perturb_reaction_Low_pressure_E.
    + eapply perturbed_reaction; eauto.
    + reflexivity.
    + intros _. split; reflexivity.
    + rewrite Hty. discriminate.
  - eexists. split; [|split; [|split; [|split]]].
    + eapply perturb_parameter_run; eauto.
      rewrite Hty, Hnf. apply perturb_reaction_High_pressure_E.
    + eapply perturbed_reaction; eauto.
    + reflexivity.
    + rewrite Hty. discriminate.
    + intros _. split; reflexivity.
Qed.

Lemma activation_energy_write_stays_in_its_branch_witness :
  let ct := Examples.ct_ok in
  let s := perturb_all [(0, 5%float); (4, 6%float)] (Examples.model_full ct) in
  exists g r r',
    gas s = Some g /\ reactions g !! 1%nat = Some r /\
    perturb_parameter 3 7 s = (perturbed 1 r' g s, Ok tt) /\
    activation_energy (high_rate r') = 7%float /\
    low_rate r' = low_rate r.
Proof.
  cbv zeta.
  set (s := perturb_all [(0, 5%float); (4, 6%float)]
              (Examples.model_full Examples.ct_ok)).
  assert (Hg : exists g, gas s = Some g) by (vm_compute; eauto).
  destruct Hg as [g Hg].
  assert (Hr : exists r, reactions g !! 1%nat = Some r).
  { assert (H : (gas s ≫= fun g => reactions g !! 1%nat)
                = Some (set_low_rate (Examples.k 6 0 9) Examples.r_falloff))
      by (vm_compute; reflexivity).
    rewrite Hg in H. cbn in H. eauto. }
  destruct Hr as [r Hr].
  destruct (activation_energy_write_stays_in_its_branch
              Examples.ct_ok Examples.initial_state "mech.cti" 1 10 2 "soln"
              false false false s 3 7
              (mk_info 1 "High_pressure_E" "H + O2 (+M) <=> HO2 (+M):HpE")
              g r)
    as (r' & Hrun & _ & _ & _ & Hhigh).
  - destruct (perturb_all_frame [(0, 5%float); (4, 6%float)]
                (Examples.model_full Examples.ct_ok)) as (Hc & _).
    fold s in Hc. rewrite Hc. vm_compute. reflexivity.
  - unfold s. rewrite perturb_all_keeps_no_falloff. vm_compute. reflexivity.
  - vm_compute. reflexivity.
  - exact Hg.
  - exact Hr.
  - right. reflexivity.
  - exists g, r, r'. split; [exact Hg|]. split; [exact Hr|].
    split; [exact Hrun|].
    destruct (Hhigh eq_refl) as [Hh Hlow]. split; [|exact Hlow].
    rewrite Hh. reflexivity.
Defined.

(** The methods leave the catalog and the [no_falloff] flag as they are,
    whether they return or raise: the two are assigned by
    [prepare_chemistry] only. *)
Lemma methods_keep_the_catalog_and_flag ct (m : M unit) s :
  (exists id v, m = perturb_parameter id v) \/
  (exists id, m = (get_parameter id ;;; ret tt)) \/
  m = (evaluate ct ;;; ret tt) \/
  (exists fn name, m = load_restart ct fn name) \/
  (exists fn name desc, m = save_restart ct fn name desc) \/
  m = ignore_restart \/ m = initialize_chemistry ct \/
  m = reset_model ct \/ m = prepare_for_save ct ->
  model_parameter_info (fst (m s)) = model_parameter_info s /\
  no_falloff (fst (m s)) = no_falloff s.
Proof.
  intros [(id & v & ->) | [(id & ->) | [-> | [(fn & name & ->)
         | [(fn & name & desc & ->) | [-> | [-> | [-> | ->]]]]]]]].
  - destruct (perturb_parameter_frame id v s) as (_ & Hc & _ & _ & Hn & _).
    split; assumption.
  - unfold bind, ret. pose proof (get_parameter_pure id s) as Hp.
    destruct (get_parameter id s) as [s1 [x|err]]; cbn in *; subst s1;
      split; reflexivity.
  - unfold bind, ret. destruct (evaluate_frame ct s) as (_ & Hc & Hn & _).
    destruct (evaluate ct s) as [s1 [x|err]]; cbn in *; split; assumption.
  - destruct (load_restart_frame ct fn name s) as (_ & Hc & Hn & _).
    split; assumption.
  - destruct (save_restart_frame ct fn name desc s) as (_ & Hc & Hn).
    split; assumption.
  - split; reflexivity.
  - unfold initialize_chemistry, bind, self_gas, gets, modify.
    destruct (gas s) as [g|] eqn:Hg; cbn; rewrite ?Hg; cbn; split; reflexivity.
  - rewrite reset_model_run. split; reflexivity.
  - unfold prepare_for_save, save_restart, simulation_save, try_except, bind,
      self_simulation, gets, record, print, modify, blank_chemistry, raise, ret.
    destruct (simulation s) as [sim|] eqn:Hsim; cbn; rewrite ?Hsim; cbn;
      [destruct (save_raises ct _); cbn|]; split; reflexivity.
Qed.

(** ** Resetting a constructed model *)

(** A catalog entry of a constructed model that is not an Efficiency entry
    is read off the gas, when the gas holds the reactions of the
    mechanism file. *)
Lemma loaded_catalog_entry_reads ct e n f g0 path s g id info :
  model_parameter_info s
  = filter (fun p => include_this_parameter e n f p = true)
           (full_catalog g0 0 (ct_Solution ct path)) ->
  gas s = Some g ->
  reactions g = ct_Solution ct path ->
  py_getitem (model_parameter_info s) id = Ok info ->
  parameter_type info <> "Efficiency" ->
  exists r v,
    ct_Solution ct path !! reaction_number info = Some r /\
    coefficient (parameter_type info) r = Some v /\
    get_parameter id s = (s, Ok v).
Proof.
  intros Hcat Hg Hrs Hi Hty.
  pose proof (py_getitem_elem _ _ _ Hi) as Hin.
  rewrite Hcat in Hin. apply list_elem_of_filter in Hin as [_ Hin].
  apply full_catalog_elem in Hin as (r & _ & Hr & Hp).
  rewrite Nat.sub_0_r in Hr.
  apply reaction_info_of_elem in Hp as [_ Hcases].
  assert (Hcoef : exists v, coefficient (parameter_type info) r = Some v).
  { destruct Hcases as [Heff | [[_ Hc] | [_ Hc]]]; [contradiction| |];
      repeat (destruct Hc as [Hc|Hc]; [rewrite Hc; eexists; reflexivity|]);
      rewrite Hc; eexists; reflexivity. }
  destruct Hcoef as [v Hv].
  exists r, v. split; [exact Hr|]. split; [exact Hv|].
  assert (Hr' : reactions g !! reaction_number info = Some r)
    by (now rewrite Hrs).
  rewrite (get_parameter_run s id info g r Hi Hg Hr').
  now rewrite (coefficient_is_read _ _ _ Hv).
Qed.

(** C9.  [reset_model] is [blank_chemistry] followed by
    [initialize_chemistry].  On a constructed model whose chemistry was
    initialized and whose parameters were then written any number of
    times, it returns and leaves the reactions of the mechanism file at
    the unburned state, which is the gas the model had when its chemistry
    was first initialized, and neither reactor nor flame; the catalog is
    the constructor's.  [get_parameter] then gives for every id what it
    gave on the freshly initialized model, and for every catalog entry
    that names a rate coefficient this is the coefficient of the reaction
    as the mechanism file has it. *)
Theorem reset_model_round_trip ct st path len pts ll name e n f ps :
  let built := fst (init ct st path len pts ll name e n f) in
  let fresh := fst (initialize_chemistry ct built) in
  let used := perturb_all ps fresh in
  let loaded := {| reactions := ct_Solution ct path;
                   TPX := Some (T st, P st, composition st) |} in
  reset_model ct used = initialize_chemistry ct (fst (blank_chemistry used)) /\
  snd (reset_model ct used) = Ok tt /\
  gas (fst (reset_model ct used)) = Some loaded /\
  gas fresh = Some loaded /\
  reactor (fst (reset_model ct used)) = None /\
  simulation (fst (reset_model ct used)) = None /\
  model_parameter_info (fst (reset_model ct used)) = model_parameter_info built /\
  forall id,
    snd (get_parameter id (fst (reset_model ct used)))
    = snd (get_parameter id fresh) /\
    forall info,
      py_getitem (model_parameter_info built) id = Ok info ->
      parameter_type info <> "Efficiency" ->
      exists r v,
        ct_Solution ct path !! reaction_number info = Some r /\
        coefficient (parameter_type info) r = Some v /\
        snd (get_parameter id (fst (reset_model ct used))) = Ok v.
Proof.
  cbv zeta.
  destruct (constructor_catalog ct st path len pts ll name e n f)
    as (s0 & Hinit & Hcat & Hgas0 & Hpath & Hst).
  cbv zeta in Hcat. rewrite Hinit. cbn [fst].
  set (loaded := {| reactions := ct_Solution ct path;
                    TPX := Some (T st, P st, composition st) |}) in *.
  assert (Hlive : initialize_chemistry ct s0 = (set_gas (Some loaded) s0, Ok tt)).
  { unfold initialize_chemistry, bind, self_gas, gets, modify.
    rewrite Hgas0. cbn. rewrite Hpath, Hst. reflexivity. }
  rewrite Hlive. cbn [fst].
  set (fresh := set_gas (Some loaded) s0).
  destruct (perturb_all_frame ps fresh) as (Hinfo & Hp & Hi).
  assert (Hreset : gas (fst (reset_model ct (perturb_all ps fresh)))
                   = Some loaded).
  { rewrite reset_model_run. cbn [fst gas set_gas].
    rewrite Hp, Hi. cbn [chemistry_model initial fresh set_gas].
    rewrite Hpath, Hst. reflexivity. }
  assert (Hcat' : model_parameter_info (fst (reset_model ct (perturb_all ps fresh)))
                  = model_parameter_info s0).
  { rewrite reset_model_run.
    cbn [fst model_parameter_info set_gas set_simulation set_reactor].
    exact Hinfo. }
  split; [reflexivity|]. split; [reflexivity|]. split; [exact Hreset|].
  split; [reflexivity|]. split; [reflexivity|]. split; [reflexivity|].
  split; [exact Hcat'|].
  intros id. split.
  - apply get_parameter_ext; [exact Hcat' | exact Hreset].
  - intros info Hid Hty.
    destruct (loaded_catalog_entry_reads ct e n f loaded path
                (fst (reset_model ct (perturb_all ps fresh))) loaded id info)
      as (r & v & Hr & Hv & Hget).
    + rewrite Hcat'. exact Hcat.
    + exact Hreset.
    + reflexivity.
    + rewrite Hcat'. exact Hid.
    + exact Hty.
    + exists r, v. split; [exact Hr|]. split; [exact Hv|].
      now rewrite Hget.
Qed.

Lemma reset_model_round_trip_witness :
  let ct := Examples.ct_ok in
  let fresh := Examples.model_live ct in
  let used := perturb_all [(0, 5%float); (1, 4%float)] fresh in
  snd (get_parameter 1 fresh) = Ok 2%float /\
  snd (get_parameter 1 used) = Ok 4%float /\
  coefficient "High_pressure_A" Examples.r_falloff = Some 2%float /\
  snd (get_parameter 1 (fst (reset_model ct used))) = Ok 2%float.
Proof.
  cbv zeta. split; [vm_compute; reflexivity|].
  split; [vm_compute; reflexivity|]. split; [reflexivity|].
  destruct (reset_model_round_trip Examples.ct_ok Examples.initial_state
              "mech.cti" 1 10 2 "soln" true true true
              [(0, 5%float); (1, 4%float)])
    as (_ & _ & _ & _ & _ & _ & _ & Hget).
  destruct (Hget 1) as [_ Hentry].
  destruct (Hentry (mk_info 1 "High_pressure_A" "H + O2 (+M) <=> HO2 (+M):HpA"))
    as (r & v & Hr & Hv & Hread).
  - vm_compute. reflexivity.
  - discriminate.
  - assert (Hr' : r = Examples.r_falloff) by (cbn in Hr; now inversion Hr).
    subst r. assert (Hv' : v = 2%float) by (vm_compute in Hv; now inversion Hv).
    subst v. exact Hread.
Defined.
